(** * jrnl: date resolution, entry opening and timestamp writing

    A shallow embedding of [src/jrnl/jrnl.py] ([main], [writeTimestamp],
    [openEntry]) together with the properties of its specification.

    Layout:
    - [PyStr]    : the string operations the program uses ([in],
                   [endswith], splitting into lines);
    - [Datetime] : the part of Python's [datetime] the program uses
                   (fields, ordinals, day arithmetic, [strftime]);
    - [Os]       : the file store behind [os.path] and [open];
    - the program itself, over a small state-and-exception monad;
    - the theorems. *)

From Stdlib Require Import ZArith Lia Ascii String List Bool.
From stdpp Require Import gmap strings list fin_maps.

Local Open Scope Z_scope.

(* ===================================================================== *)
(** ** Python strings *)
(* ===================================================================== *)

Module PyStr.

Definition newline : ascii := "010"%char.

(** ["\n"] *)
Definition nl : string := String newline "".

(** [s.startswith(pre)] *)
Fixpoint startswith (s pre : string) {struct pre} : bool :=
  match pre, s with
  | EmptyString, _ => true
  | String _ _, EmptyString => false
  | String a pre', String b s' => Ascii.eqb a b && startswith s' pre'
  end.

(** [sub in s]: [sub] occurs in [s] as a contiguous substring. *)
Fixpoint contains (sub s : string) : bool :=
  startswith s sub ||
  match s with
  | EmptyString => false
  | String _ s' => contains sub s'
  end.

(** [s.endswith(suf)]: some suffix of [s] is [suf]. *)
Fixpoint endswith (s suf : string) : bool :=
  String.eqb s suf ||
  match s with
  | EmptyString => false
  | String _ s' => endswith s' suf
  end.

(** [s.split("\n")]: the lines of a text; a text with [n] newline
    characters has [n + 1] lines, the last one possibly empty. *)
Fixpoint lines (s : string) : list string :=
  match s with
  | EmptyString => [EmptyString]
  | String c s' =>
      if Ascii.eqb c newline then EmptyString :: lines s'
      else match lines s' with
           | l :: ls => String c l :: ls
           | [] => [String c EmptyString]
           end
  end.

(** [bool * str], as in [printNewLine * "\n"]. *)
Definition repeat_bool (b : bool) (s : string) : string :=
  if b then s else "".

(** No newline character in [s]. *)
Fixpoint one_line (s : string) : bool :=
  match s with
  | EmptyString => true
  | String c s' => negb (Ascii.eqb c newline) && one_line s'
  end.

(** Number of lines of [s] equal to [l]. *)
Definition count_line (l s : string) : nat :=
  List.length (List.filter (String.eqb l) (lines s)).

End PyStr.

(* ===================================================================== *)
(** ** Python's datetime *)
(* ===================================================================== *)

Module Datetime.

(** A [datetime.datetime] object (naive, no time zone). *)
Record datetime : Type := mkDatetime {
  year : Z;
  month : Z;
  day : Z;
  hour : Z;
  minute : Z;
  second : Z;
  microsecond : Z
}.

Definition MINYEAR : Z := 1.
Definition MAXYEAR : Z := 9999.

Definition is_leap (y : Z) : bool :=
  (y mod 4 =? 0) && (negb (y mod 100 =? 0) || (y mod 400 =? 0)).

Definition DAYS_IN_MONTH : list Z :=
  [-1; 31; 28; 31; 30; 31; 30; 31; 31; 30; 31; 30; 31].

Definition DAYS_BEFORE_MONTH : list Z :=
  [-1; 0; 31; 59; 90; 120; 151; 181; 212; 243; 273; 304; 334].

Definition table (t : list Z) (i : Z) : Z := nth (Z.to_nat i) t 0.

Definition days_before_year (y : Z) : Z :=
  let y' := y - 1 in y' * 365 + y' / 4 - y' / 100 + y' / 400.

Definition days_in_month (y m : Z) : Z :=
  if (m =? 2) && is_leap y then 29 else table DAYS_IN_MONTH m.

Definition days_before_month (y m : Z) : Z :=
  table DAYS_BEFORE_MONTH m + (if (m >? 2) && is_leap y then 1 else 0).

(** Day number of a date, 0001-01-01 being day 1. *)
Definition ymd2ord (y m d : Z) : Z :=
  days_before_year y + days_before_month y m + d.

Definition DI400Y : Z := 146097.
Definition DI100Y : Z := 36524.
Definition DI4Y : Z := 1461.

(** The date of a day number (proleptic Gregorian calendar). *)
Definition ord2ymd (n : Z) : Z * Z * Z :=
  let n := n - 1 in
  let n400 := n / DI400Y in
  let n := n mod DI400Y in
  let y := n400 * 400 + 1 in
  let n100 := n / DI100Y in
  let n := n mod DI100Y in
  let n4 := n / DI4Y in
  let n := n mod DI4Y in
  let n1 := n / 365 in
  let n := n mod 365 in
  let y := y + n100 * 100 + n4 * 4 + n1 in
  if (n1 =? 4) || (n100 =? 4) then (y - 1, 12, 31)
  else
    let leapyear := (n1 =? 3) && (negb (n4 =? 24) || (n100 =? 3)) in
    let m := Z.shiftr (n + 50) 5 in
    let preceding :=
      table DAYS_BEFORE_MONTH m + (if (m >? 2) && leapyear then 1 else 0) in
    if preceding >? n then
      let m := m - 1 in
      let preceding :=
        preceding
        - (table DAYS_IN_MONTH m + (if (m =? 2) && leapyear then 1 else 0)) in
      (y, m, n - preceding + 1)
    else (y, m, n - preceding + 1).

Definition MAXORDINAL : Z := 3652059.

(** [t.toordinal()] *)
Definition toordinal (t : datetime) : Z :=
  ymd2ord (year t) (month t) (day t).

(** The invariant every [datetime] object satisfies. *)
Definition valid (t : datetime) : Prop :=
  MINYEAR <= year t <= MAXYEAR /\
  1 <= month t <= 12 /\
  1 <= day t <= days_in_month (year t) (month t) /\
  0 <= hour t < 24 /\ 0 <= minute t < 60 /\
  0 <= second t < 60 /\ 0 <= microsecond t < 1000000.

(** [t] with its calendar date replaced by that of day number [n]. *)
Definition on_day (n : Z) (t : datetime) : datetime :=
  let '(y, m, d) := ord2ymd n in
  mkDatetime y m d (hour t) (minute t) (second t) (microsecond t).

(** [t + datetime.timedelta(days=n)]; [None] is [OverflowError], raised
    by [timedelta] for a magnitude above 999999999 days and by the
    addition for a date outside 0001-01-01 .. 9999-12-31. *)
Definition add_days (t : datetime) (n : Z) : option datetime :=
  if Z.abs n >? 999999999 then None
  else
    let o := toordinal t + n in
    if (0 <? o) && (o <=? MAXORDINAL) then Some (on_day o t) else None.

Definition digits : list ascii :=
  ["0"; "1"; "2"; "3"; "4"; "5"; "6"; "7"; "8"; "9"]%char.

Definition digit (n : Z) : ascii :=
  nth (Z.to_nat (n mod 10)) digits "0"%char.

(** Two decimal digits, zero padded ([%m], [%d], [%H], [%M]). *)
Definition pad2 (n : Z) : string :=
  String (digit (n / 10)) (String (digit n) "").

(** Four decimal digits, zero padded ([%Y]). *)
Definition pad4 (n : Z) : string :=
  String (digit (n / 1000)) (String (digit (n / 100)) (pad2 n)).

(** [t.strftime('%Y-%m-%d')].  The year is written with four digits:
    that is what every platform prints for the years 1000 to 9999;
    below 1000 some C libraries leave the padding out. *)
Definition strftime_date (t : datetime) : string :=
  pad4 (year t) +:+ "-" +:+ pad2 (month t) +:+ "-" +:+ pad2 (day t).

(** [t.strftime("%H:%M")] *)
Definition strftime_time (t : datetime) : string :=
  pad2 (hour t) +:+ ":" +:+ pad2 (minute t).

(** Decimal digits of a positive number, most significant first. *)
Fixpoint decimal (fuel : nat) (n : Z) (acc : string) : string :=
  match fuel with
  | O => acc
  | S fuel' =>
      if n <? 10 then String (digit n) acc
      else decimal fuel' (n / 10) (String (digit n) acc)
  end.

(** [str(t.year)]; a year has at most four digits. *)
Definition str_year (t : datetime) : string := decimal 4 (year t) "".

End Datetime.

(* ===================================================================== *)
(** ** The file store *)
(* ===================================================================== *)

Module Os.

(** What a path names: a regular file with its text, or a directory.
    File contents are the text that text-mode reads return and
    text-mode writes add. *)
Inductive node : Type :=
| File (text : string)
| Dir.

(** The store maps a path to what it names.  Paths are taken as they
    are written: distinct path strings name distinct nodes (no [.] or
    [..] components, no links).  Creating a file looks at the
    directory the path lies in ([parent_of]).  Failures that come from
    the environment rather than from the store (permissions, a full
    disk) are not part of the model. *)
Definition isfile (fs : gmap string node) (p : string) : bool :=
  match fs !! p with Some (File _) => true | _ => false end.

Definition isdir (fs : gmap string node) (p : string) : bool :=
  match fs !! p with Some Dir => true | _ => false end.

Definition exists_ (fs : gmap string node) (p : string) : bool :=
  match fs !! p with Some _ => true | None => false end.

(** [os.path.join(a, b)] (POSIX). *)
Definition join (a b : string) : string :=
  if PyStr.startswith b "/" then b
  else if String.eqb a "" || PyStr.endswith a "/" then a +:+ b
  else a +:+ "/" +:+ b.

(** [p[:p.rfind('/') + 1]]: the text up to and including the last
    slash. *)
Fixpoint head_part (p : string) : string :=
  match p with
  | EmptyString => EmptyString
  | String c r =>
      if PyStr.contains "/" p then String c (head_part r) else EmptyString
  end.

(** [s.rstrip('/')] *)
Fixpoint rstrip_slash (s : string) : string :=
  match s with
  | EmptyString => EmptyString
  | String c r =>
      let r' := rstrip_slash r in
      if Ascii.eqb c "/" && String.eqb r' "" then EmptyString
      else String c r'
  end.

(** [os.path.dirname(p)] (POSIX): the head, without its trailing
    slashes unless it consists of slashes only. *)
Definition dirname (p : string) : string :=
  let head := head_part p in
  if String.eqb (rstrip_slash head) "" then head else rstrip_slash head.

(** The path consists of slashes only: it names the root directory. *)
Definition is_root (p : string) : bool :=
  negb (String.eqb p "") && String.eqb (rstrip_slash p) "".

(** What stands in the way of creating a file at [p]: nothing, when
    [p] ends with a file name and the directory it lies in is there
    (the current directory and the root always are).  The directory is
    looked at first; a path that ends with a slash names no file. *)
Inductive parent_state : Type :=
| ParentThere
| ParentMissing        (* ENOENT *)
| ParentNotADirectory  (* ENOTDIR *)
| NoFileName.          (* EISDIR *)

Definition parent_of (fs : gmap string node) (p : string) : parent_state :=
  if String.eqb p "" then ParentMissing
  else
    let d := dirname (rstrip_slash p) in
    match (if String.eqb (rstrip_slash d) "" then Some Dir else fs !! d) with
    | None => ParentMissing
    | Some (File _) => ParentNotADirectory
    | Some Dir => if PyStr.endswith p "/" then NoFileName else ParentThere
    end.

End Os.

(* ===================================================================== *)
(** ** State, exceptions and exits *)
(* ===================================================================== *)

Import PyStr Datetime Os.

(** The exceptions the program can meet. *)
Inductive exn : Type :=
| ValueError
| ParserError          (* dateutil.parser.ParserError *)
| OverflowError
| FileExistsError
| FileNotFoundError
| NotADirectoryError
| IsADirectoryError.

(** How a computation ends: with a value, with an exception that
    propagates, or with [sys.exit(code)]. *)
Inductive outcome (A : Type) : Type :=
| Ok (a : A)
| Raise (e : exn)
| Exit (code : Z).

Arguments Ok {A} a.
Arguments Raise {A} e.
Arguments Exit {A} code.

(** What the program can observe and change. *)
Record world : Type := mkWorld {
  files : gmap string node;            (* the file store *)
  stderr : string;                     (* text written to sys.stderr *)
  launched : list (string * string);   (* editor runs: program, argument *)
  ticks : nat                          (* readings of the clock so far *)
}.

Definition M (A : Type) : Type := world -> outcome A * world.

Definition ret {A : Type} (a : A) : M A := fun w => (Ok a, w).

Definition bind {A B : Type} (c : M A) (k : A -> M B) : M B :=
  fun w =>
    match c w with
    | (Ok a, w') => k a w'
    | (Raise e, w') => (Raise e, w')
    | (Exit n, w') => (Exit n, w')
    end.

Definition raise {A : Type} (e : exn) : M A := fun w => (Raise e, w).

(** [sys.exit(code)] *)
Definition sys_exit {A : Type} (code : Z) : M A := fun w => (Exit code, w).

Declare Scope jrnl_scope.
Delimit Scope jrnl_scope with jrnl.
Notation "'let!' x ':=' c 'in' k" :=
  (bind c (fun x => k))
  (at level 10, x name, c at level 100, k at level 200) : jrnl_scope.
Notation "c ';;;' k" :=
  (bind c (fun _ => k))
  (at level 100, k at level 200, right associativity) : jrnl_scope.
Local Open Scope jrnl_scope.

(** [try: body  except ValueError: handler] *)
Definition try_except_ValueError {A : Type} (body handler : M A) : M A :=
  fun w =>
    match body w with
    | (Raise ValueError, w') => handler w'
    | r => r
    end.

(** [for x in xs: body(x)] *)
Fixpoint for_each {A : Type} (xs : list A) (body : A -> M unit) : M unit :=
  match xs with
  | [] => ret tt
  | x :: xs' => body x ;;; for_each xs' body
  end.

(** [print(msg, file=sys.stderr)] *)
Definition print_err (msg : string) : M unit :=
  fun w =>
    (Ok tt, mkWorld (files w) (stderr w +:+ msg +:+ nl) (launched w) (ticks w)).

Definition set_files (fs : gmap string node) (w : world) : world :=
  mkWorld fs (stderr w) (launched w) (ticks w).

Definition os_path_isfile (p : string) : M bool :=
  fun w => (Ok (isfile (files w) p), w).

Definition os_path_isdir (p : string) : M bool :=
  fun w => (Ok (isdir (files w) p), w).

Definition os_path_exists (p : string) : M bool :=
  fun w => (Ok (exists_ (files w) p), w).

(** [os.makedirs(p)] for a [p] that lies in a directory that is there,
    which is how the program uses it: the year directory lies in the
    journal root, which [main] has made sure of, and the journal root
    in the directory the user keeps the journal in.  It makes [p], and
    fails when something is at [p] already.  The directories above [p]
    are not looked at. *)
Definition os_makedirs (p : string) : M unit :=
  fun w =>
    match files w !! p with
    | Some _ => (Raise FileExistsError, w)
    | None => (Ok tt, set_files (<[p := Dir]> (files w)) w)
    end.

(** Creating the regular file [p] with [text], as [open] does in the
    modes ['x'] and ['a'] when nothing is at [p]. *)
Definition create_file (p text : string) : M unit :=
  fun w =>
    match parent_of (files w) p with
    | ParentThere => (Ok tt, set_files (<[p := File text]> (files w)) w)
    | ParentMissing => (Raise FileNotFoundError, w)
    | ParentNotADirectory => (Raise NotADirectoryError, w)
    | NoFileName => (Raise IsADirectoryError, w)
    end.

(** [with open(p, 'x') as f: f.write(text)]; the root directory is
    always there. *)
Definition open_x_write (p text : string) : M unit :=
  fun w =>
    match files w !! p with
    | Some _ => (Raise FileExistsError, w)
    | None =>
        if is_root p then (Raise FileExistsError, w)
        else create_file p text w
    end.

(** [open(p).read()] *)
Definition open_read (p : string) : M string :=
  fun w =>
    match files w !! p with
    | Some (File t) => (Ok t, w)
    | Some Dir => (Raise IsADirectoryError, w)
    | None => (Raise FileNotFoundError, w)
    end.

(** [with open(p, 'a') as f: f.write(text)] *)
Definition open_a_write (p text : string) : M unit :=
  fun w =>
    match files w !! p with
    | Some (File t) => (Ok tt, set_files (<[p := File (t +:+ text)]> (files w)) w)
    | Some Dir => (Raise IsADirectoryError, w)
    | None => create_file p text w
    end.

(* ===================================================================== *)
(** ** The program *)
(* ===================================================================== *)

(** What [dateutil.parser.parse(s, fuzzy=True)] does with a string: it
    returns a date-time, raises its parse error (a [ValueError]), or
    raises [OverflowError] (for numbers too large for a date). *)
Inductive parsed : Type :=
| Parsed (d : datetime)
| NotADate
| TooLarge.

(** The status the process ends with: the argument of [sys.exit], 1
    when an uncaught exception ends the run (the interpreter prints
    the traceback), 0 when [main] returns. *)
Definition exit_status (r : outcome unit) : Z :=
  match r with
  | Exit code => code
  | Raise _ => 1
  | Ok _ => 0
  end.

(** The configuration dictionary returned by [runoptions.getConfig()]. *)
Record config : Type := mkConfig {
  editor : string;
  journal_path : string;
  hours_past_midnight_included_in_day : Z;
  write_timestamp : bool
}.

(** The namespace returned by [runoptions.parseRuntimeArguments()]. *)
Record runtimeArgs : Type := mkArgs {
  dates : list string;
  timestamp : bool;
  no_timestamp : bool
}.

(** [bool(xs)] for a list. *)
Definition truthy {A : Type} (xs : list A) : bool :=
  match xs with [] => false | _ :: _ => true end.

Section Program.

(** *** What the program takes from outside *)

(** [int(s)]; [None] stands for [ValueError]. *)
Variable py_int : string -> option Z.

(** [dateutil.parser.parse(s, fuzzy=True)], on the day of the run
    (the parser takes the fields a string leaves out from the current
    date). *)
Variable dateutil_parse : string -> parsed.

(** The successive readings of [datetime.datetime.today()] during the
    run of [main]. *)
Variable clock : nat -> datetime.

(** The reading of [datetime.datetime.today()] taken when the module
    was loaded: the [def] statement of [writeTimestamp] evaluates the
    default value of [todayDatetime] once, then. *)
Variable load_today : datetime.

(** What running editor [e] on path [p] does to the file store. *)
Variable editor_run : string -> string -> gmap string node -> gmap string node.

(** [helpers.isProgramAvailable] *)
Variable isProgramAvailable : string -> bool.

(** [helpers.prompt]: the user's answer to a yes/no question. *)
Variable prompt : string -> bool.

(** [runoptions.getConfig()]; [None] stands for a falsy result. *)
Variable getConfig : option config.

(** [datetime.datetime.today()] *)
Definition datetime_today : M datetime :=
  fun w =>
    (Ok (clock (ticks w)),
     mkWorld (files w) (stderr w) (launched w) (S (ticks w))).

(** [subprocess.Popen([e, p]).wait()] for a program [e] that can be
    started ([main] checks the editor with [helpers.isProgramAvailable]
    before it gets here): the editor runs on [p] and the call returns
    when it ends, whatever its exit status. *)
Definition popen_wait (e p : string) : M unit :=
  fun w =>
    (Ok tt,
     mkWorld (editor_run e p (files w)) (stderr w)
             (launched w ++ [(e, p)]) (ticks w)).

(** [int(s)] *)
Definition int_ (s : string) : M Z :=
  match py_int s with Some n => ret n | None => raise ValueError end.

(** [dateutil.parser.parse(s, fuzzy=True)] *)
Definition parse_fuzzy (s : string) : M datetime :=
  match dateutil_parse s with
  | Parsed d => ret d
  | NotADate => raise ParserError
  | TooLarge => raise OverflowError
  end.

(** [t + datetime.timedelta(days=n)] *)
Definition plus_days (t : datetime) (n : Z) : M datetime :=
  match add_days t n with Some d => ret d | None => raise OverflowError end.

(** *** [writeTimestamp] (lines 88-137) *)
Definition writeTimestamp (entrypath : string) (todayDatetime : datetime)
  : M unit :=
  let todayDate := strftime_date todayDatetime in
  let todayTime := strftime_time todayDatetime in
  let! is_file := os_path_isfile entrypath in
  if negb is_file then
    open_x_write entrypath (((todayDate +:+ nl) +:+ todayTime) +:+ nl)
  else
    let! entrytext := open_read entrypath in
    let printDate := if contains todayDate entrytext then false else true in
    let printNewLine :=
      if endswith entrytext (nl +:+ nl) then false else true in
    open_a_write entrypath
      (((repeat_bool printNewLine nl
         +:+ repeat_bool printDate (todayDate +:+ nl))
        +:+ todayTime) +:+ (nl +:+ nl)).

(** A call [writeTimestamp(entrypath)] that leaves [todayDatetime]
    out. *)
Definition writeTimestamp_default (entrypath : string) : M unit :=
  writeTimestamp entrypath load_today.

(** *** [openEntry] (lines 140-177) *)

(** Lines 160-161: where the entry of a date lives. *)
Definition yearDirPath (journalPath : string) (datetimeobj : datetime)
  : string :=
  join journalPath (str_year datetimeobj).

Definition entryPath (journalPath : string) (datetimeobj : datetime)
  : string :=
  join (yearDirPath journalPath datetimeobj)
       (strftime_date datetimeobj +:+ ".txt").

Definition openEntry (datetimeobj : datetime) (editor journalPath : string)
           (dotimestamp inreadmode : bool) : M unit :=
  let yearDirPath := yearDirPath journalPath datetimeobj in
  let entryPath := entryPath journalPath datetimeobj in
  let! there := os_path_exists entryPath in
  if inreadmode && negb there then
    print_err (entryPath +:+ " does not exist!")
  else
    let! is_dir := os_path_isdir yearDirPath in
    (if negb is_dir then os_makedirs yearDirPath else ret tt) ;;;
    (if dotimestamp then writeTimestamp_default entryPath else ret tt) ;;;
    popen_wait editor entryPath.

(** *** [main] (lines 14-85) *)

(** The body of the loop over [runtimeArgs.dates] (lines 47-61). *)
Definition resolve (datestring : string) : M datetime :=
  try_except_ValueError
    (let! offset := int_ datestring in
     (if offset >? 1000000 then raise ValueError else ret tt) ;;;
     let! today := datetime_today in
     plus_days today offset)
    (parse_fuzzy datestring).

Fixpoint resolve_all (specs : list string) (dates : list datetime)
  : M (list datetime) :=
  match specs with
  | [] => ret dates
  | datestring :: specs' =>
      let! d := resolve datestring in
      resolve_all specs' (dates ++ [d])
  end.

(** Lines 43-70: the dates to work on. *)
Definition build_dates (args : runtimeArgs) (configDict : config)
  : M (list datetime) :=
  if truthy (dates args) then resolve_all (dates args) []
  else
    let! today := datetime_today in
    let! today :=
      (if hour today <? hours_past_midnight_included_in_day configDict
       then plus_days today (-1) else ret today) in
    ret [today].

(** Lines 26-33: the editor to use. *)
Definition choose_editor (configDict : config) : M string :=
  if isProgramAvailable (editor configDict) then ret (editor configDict)
  else if isProgramAvailable "sensible-editor" then ret "sensible-editor"
  else
    print_err (editor configDict +:+ " not available!") ;;;
    sys_exit 1.

(** Lines 35-40: the journal root. *)
Definition ensure_root (configDict : config) : M unit :=
  let! is_dir := os_path_isdir (journal_path configDict) in
  if negb is_dir then
    if prompt (("Create '" +:+ journal_path configDict) +:+ "'?")
    then os_makedirs (journal_path configDict)
    else sys_exit 0
  else ret tt.

(** Lines 74-77: whether to stamp, and whether to open existing
    entries only. *)
Definition writetimestamp (args : runtimeArgs) (configDict : config)
  : bool :=
  timestamp args
  || (write_timestamp configDict && negb (no_timestamp args)).

Definition readmode (args : runtimeArgs) : bool := truthy (dates args).

Definition main (args : runtimeArgs) : M unit :=
  match getConfig with
  | None => print_err "No config file found!" ;;; sys_exit 1
  | Some configDict =>
      let! editorName := choose_editor configDict in
      ensure_root configDict ;;;
      let! dates_ := build_dates args configDict in
      let writetimestamp := writetimestamp args configDict in
      let readmode := readmode args in
      for_each dates_
        (fun date =>
           openEntry date editorName (journal_path configDict)
                     writetimestamp readmode) ;;;
      sys_exit 0
  end.

End Program.

(* ===================================================================== *)
(** ** Concrete surroundings, for running the program on examples *)
(* ===================================================================== *)

Module Sample.

Definition digit_value (c : ascii) : option Z :=
  let n := Z.of_nat (nat_of_ascii c) in
  if (48 <=? n) && (n <=? 57) then Some (n - 48) else None.

(** The characters [int] takes for white space. *)
Definition is_white (c : ascii) : bool :=
  let n := Z.of_nat (nat_of_ascii c) in
  ((9 <=? n) && (n <=? 13)) || ((28 <=? n) && (n <=? 32)).

Fixpoint strip_left (s : string) : string :=
  match s with
  | EmptyString => EmptyString
  | String c r => if is_white c then strip_left r else s
  end.

Fixpoint strip_right (s : string) : string :=
  match s with
  | EmptyString => EmptyString
  | String c r =>
      let r' := strip_right r in
      if is_white c && String.eqb r' "" then EmptyString else String c r'
  end.

(** Decimal digits, single underscores allowed between two digits;
    [after_digit] tells whether the character before was a digit. *)
Fixpoint digits_value (s : string) (acc : Z) (after_digit : bool)
  : option Z :=
  match s with
  | EmptyString => if after_digit then Some acc else None
  | String c s' =>
      match digit_value c with
      | Some d => digits_value s' (10 * acc + d) true
      | None =>
          if Ascii.eqb c "_" && after_digit then digits_value s' acc false
          else None
      end
  end.

(** [int] on strings of ASCII characters: white space around, an
    optional sign, decimal digits with single underscores between
    them; every other string is refused. *)
Definition int (s : string) : option Z :=
  match strip_right (strip_left s) with
  | EmptyString => None
  | String c s' =>
      if Ascii.eqb c "-" then option_map Z.opp (digits_value s' 0 false)
      else if Ascii.eqb c "+" then digits_value s' 0 false
      else digits_value (String c s') 0 false
  end.

(** A date parser that understands nothing. *)
Definition no_fuzzy (s : string) : parsed := NotADate.

(** A date parser that finds no date either, and takes a number of
    more than eight digits for too large. *)
Definition number_fuzzy (s : string) : parsed :=
  match digits_value s 0 false with
  | Some n => if 99999999 <? n then TooLarge else NotADate
  | None => NotADate
  end.

(** A clock that stands still. *)
Definition still (t : datetime) (n : nat) : datetime := t.

(** An editor that is closed without saving. *)
Definition idle_editor (e p : string) (fs : gmap string node)
  : gmap string node := fs.

Definition always (b : bool) (s : string) : bool := b.

Definition at_0900 : datetime := mkDatetime 2024 1 1 9 0 0 0.
Definition at_1030 : datetime := mkDatetime 2024 1 1 10 30 0 0.
Definition at_1100 : datetime := mkDatetime 2024 1 1 11 0 0 0.
Definition next_day : datetime := mkDatetime 2024 1 2 8 15 0 0.
Definition late_night : datetime := mkDatetime 2024 1 2 2 15 0 0.
Definition last_day : datetime := mkDatetime 9999 12 31 23 59 0 0.

Definition cfg : config := mkConfig "vim" "/j" 4 true.

Definition entry : string := "/j/2024/2024-01-01.txt".

(** ["2024-01-01\n09:00\n\n"] *)
Definition morning : string :=
  "2024-01-01" +:+ nl +:+ "09:00" +:+ nl +:+ nl.

Definition start (fs : gmap string node) : world := mkWorld fs "" [] 0.

End Sample.

(* ===================================================================== *)
(** ** Notions used to state the properties *)
(* ===================================================================== *)

(** The text a timestamp write adds to a file whose text is [content]:
    a newline unless [content] ends with two of them, the date line
    unless the date occurs in [content], the time line, a blank line. *)
Definition stamp_block (content : string) (t : datetime) : string :=
  (if endswith content (nl +:+ nl) then "" else nl)
  +:+ (if contains (strftime_date t) content then ""
       else strftime_date t +:+ nl)
  +:+ (strftime_time t +:+ nl)
  +:+ nl.

(** Two date-times on the same calendar date. *)
Definition same_day (t t' : datetime) : Prop :=
  year t = year t' /\ month t = month t' /\ day t = day t'.

(** The text of the entry at [p]; a path that names nothing has none. *)
Definition text_at (fs : gmap string node) (p : string) : string :=
  match fs !! p with Some (File c) => c | _ => "" end.

(** No date occurs more than once as a line of the entry at [p]. *)
Definition date_lines_once (fs : gmap string node) (p : string) : Prop :=
  forall t : datetime,
    (count_line (strftime_date t) (text_at fs p) <= 1)%nat.

(** The world after [print(msg, file=sys.stderr)]. *)
Definition said (msg : string) (w : world) : world :=
  mkWorld (files w) (stderr w +:+ msg +:+ nl) (launched w) (ticks w).

(** The store once the year directory [yd] is there. *)
Definition with_dir (fs : gmap string node) (yd : string) : gmap string node :=
  if isdir fs yd then fs else <[yd := Dir]> fs.

(** The text of an entry after a timestamp write at [t], from what the
    path named before. *)
Definition stamped (old : option node) (t : datetime) : string :=
  match old with
  | Some (File c) => c +:+ stamp_block c t
  | _ => strftime_date t +:+ nl +:+ strftime_time t +:+ nl
  end.

(** The world after one reading of the clock. *)
Definition ticked (w : world) : world :=
  mkWorld (files w) (stderr w) (launched w) (S (ticks w)).

(** [w'] differs from [w] at most by readings of the clock: same file
    store, same error text, same editor runs. *)
Definition quiet (w w' : world) : Prop :=
  files w' = files w /\ stderr w' = stderr w /\ launched w' = launched w.

(** A computation that never ends with [sys.exit]. *)
Definition never_exits {A : Type} (c : M A) : Prop :=
  forall w code w', c w <> (Exit code, w').

(** A specifier that is left to the fuzzy parser and that the fuzzy
    parser rejects. *)
Definition unparseable (py_int : string -> option Z)
           (dateutil_parse : string -> parsed) (s : string) : Prop :=
  (forall o, py_int s = Some o -> o > 1000000)
  /\ forall d, dateutil_parse s <> Parsed d.

(** How a specifier fails to resolve when the clock reads [now]: the
    fuzzy parser, to which it is left, takes it for no date (the parse
    error) or for too large a number (the overflow error); or it is an
    offset whose day leaves the calendar (the overflow error). *)
Definition fails_with (py_int : string -> option Z)
           (dateutil_parse : string -> parsed) (now : datetime)
           (s : string) (e : exn) : Prop :=
  ((forall o, py_int s = Some o -> o > 1000000)
   /\ ((dateutil_parse s = NotADate /\ e = ParserError)
       \/ (dateutil_parse s = TooLarge /\ e = OverflowError)))
  \/ (exists o, py_int s = Some o /\ o <= 1000000
                /\ add_days now o = None /\ e = OverflowError).

(** [d] is a date specifier [s] can resolve to: as an offset from some
    reading of the clock, or by the fuzzy parser. *)
Definition resolves_to (py_int : string -> option Z)
           (dateutil_parse : string -> parsed)
           (clock : nat -> datetime) (lo hi : nat)
           (s : string) (d : datetime) : Prop :=
  (exists o k, py_int s = Some o /\ o <= 1000000
               /\ (lo <= k < hi)%nat /\ add_days (clock k) o = Some d)
  \/ ((forall o, py_int s = Some o -> o > 1000000)
      /\ dateutil_parse s = Parsed d).

(** The editor [main] settles on when one is available. *)
Definition chosen_editor (isProgramAvailable : string -> bool)
           (configDict : config) : string :=
  if isProgramAvailable (editor configDict) then editor configDict
  else "sensible-editor".

(** A computation that runs no editor. *)
Definition runs_no_editor {A : Type} (c : M A) : Prop :=
  forall w r w', c w = (r, w') -> launched w' = launched w.

(** A computation that runs the editor at most once, as [x]. *)
Definition runs_at_most {A : Type} (x : string * string) (c : M A) : Prop :=
  forall w r w', c w = (r, w') ->
    launched w' = launched w \/ launched w' = launched w ++ [x].

(** What read mode reports for a list of dates whose entries are all
    missing: one line per date, in order. *)
Fixpoint missing_reports (jp : string) (ds : list datetime) : string :=
  match ds with
  | [] => ""
  | d :: ds' =>
      entryPath jp d +:+ " does not exist!" +:+ nl +:+ missing_reports jp ds'
  end.

(* ===================================================================== *)
(** ** Sanity checks of the library model *)
(* ===================================================================== *)

Example ord_2024 : Datetime.ymd2ord 2024 1 1 = 738886.
Proof. reflexivity. Qed.

Example ymd_738886 : Datetime.ord2ymd 738886 = (2024, 1, 1).
Proof. reflexivity. Qed.

Example ymd_max : Datetime.ord2ymd Datetime.MAXORDINAL = (9999, 12, 31).
Proof. reflexivity. Qed.

Example fmt_2024 :
  Datetime.strftime_date (Datetime.mkDatetime 2024 1 1 9 0 0 0) = "2024-01-01"
  /\ Datetime.strftime_time (Datetime.mkDatetime 2024 1 1 9 0 0 0) = "09:00"
  /\ Datetime.str_year (Datetime.mkDatetime 2024 1 1 9 0 0 0) = "2024".
Proof. repeat split; reflexivity. Qed.

Example int_samples :
  Sample.int "-2000000" = Some (-2000000)
  /\ Sample.int "+3" = Some 3
  /\ Sample.int " 7 " = Some 7
  /\ Sample.int "1_0" = Some 10
  /\ Sample.int "007" = Some 7
  /\ Sample.int "1__0" = None
  /\ Sample.int "_1" = None
  /\ Sample.int "1_" = None
  /\ Sample.int "- 3" = None
  /\ Sample.int "" = None
  /\ Sample.int "garbage" = None.
Proof. repeat split; reflexivity. Qed.

Example dirname_samples :
  dirname "/j/2024/2024-01-01.txt" = "/j/2024"
  /\ dirname "/j/2024" = "/j"
  /\ dirname "/j" = "/"
  /\ dirname "notes.txt" = ""
  /\ dirname "a//b" = "a"
  /\ dirname "//b" = "//".
Proof. repeat split; reflexivity. Qed.

Example parent_samples :
  let fs : gmap string node := {[ "dir" := Dir; "f" := File "" ]} in
  parent_of fs "dir/new" = ParentThere
  /\ parent_of fs "new" = ParentThere
  /\ parent_of fs "/new" = ParentThere
  /\ parent_of fs "dir//new" = ParentThere
  /\ parent_of fs "nodir/new" = ParentMissing
  /\ parent_of fs "" = ParentMissing
  /\ parent_of fs "f/new" = ParentNotADirectory
  /\ parent_of fs "f/new/" = ParentNotADirectory
  /\ parent_of fs "nodir/sub/" = ParentMissing
  /\ parent_of fs "dir/" = NoFileName
  /\ parent_of fs "nodir/" = NoFileName
  /\ parent_of fs "f/" = NoFileName
  /\ parent_of fs "/" = NoFileName
  /\ is_root "/" = true /\ is_root "//" = true
  /\ is_root "" = false /\ is_root "/j" = false.
Proof. cbv zeta. repeat split; vm_compute; reflexivity. Qed.

(* ===================================================================== *)
(** ** Facts about strings *)
(* ===================================================================== *)

Module PyStrFacts.

Lemma app_cons (c : ascii) (s t : string) :
  String c s +:+ t = String c (s +:+ t).
Proof. reflexivity. Qed.

Lemma app_nil_l (s : string) : "" +:+ s = s.
Proof. reflexivity. Qed.

Lemma app_nil_r (s : string) : s +:+ "" = s.
Proof. induction s as [|c s IH]; [reflexivity|]. by rewrite app_cons, IH. Qed.

Lemma app_assoc (a b c : string) : (a +:+ b) +:+ c = a +:+ (b +:+ c).
Proof.
  induction a as [|x a IH]; [reflexivity|].
  by rewrite !app_cons, IH.
Qed.

Lemma startswith_spec (s pre : string) :
  startswith s pre = true <-> exists r, s = pre +:+ r.
Proof.
  revert s. induction pre as [|a pre IH]; intros s; simpl.
  - split; [intros _; by exists s | done].
  - destruct s as [|b s].
    + split; [done | intros [r Hr]; discriminate Hr].
    + rewrite andb_true_iff, Ascii.eqb_eq, IH. split.
      * intros [-> [r ->]]. by exists r.
      * intros [r Hr]. rewrite app_cons in Hr. injection Hr as -> ->. eauto.
Qed.

Lemma contains_spec (sub s : string) :
  contains sub s = true <-> exists a b, s = a +:+ sub +:+ b.
Proof.
  induction s as [|c s IH]; simpl.
  - rewrite orb_false_r, startswith_spec. split.
    + intros [r Hr]. by exists "", r.
    + intros [a [b Hab]]. destruct a as [|x a]; [|discriminate Hab].
      by exists b.
  - rewrite orb_true_iff, IH, startswith_spec. split.
    + intros [[r Hr] | [a [b Hab]]].
      * by exists "", r.
      * exists (String c a), b. by rewrite app_cons, Hab.
    + intros [a [b Hab]]. destruct a as [|x a].
      * left. by exists b.
      * right. rewrite app_cons in Hab. injection Hab as -> ->. eauto.
Qed.

Lemma endswith_spec (s suf : string) :
  endswith s suf = true <-> exists a, s = a +:+ suf.
Proof.
  induction s as [|c s IH]; cbn [endswith].
  - rewrite orb_false_r, String.eqb_eq. split.
    + intros <-. by exists "".
    + intros [a Ha]. destruct a; [done | discriminate Ha].
  - rewrite orb_true_iff, IH, String.eqb_eq. split.
    + intros [<- | [a ->]]; [by exists "" | by exists (String c a)].
    + intros [a Ha]. destruct a as [|x a].
      * by left.
      * right. rewrite app_cons in Ha. injection Ha as -> ->. eauto.
Qed.

(** Appending text never removes an occurrence. *)
Lemma contains_app_l (sub s t : string) :
  contains sub s = true -> contains sub (s +:+ t) = true.
Proof.
  rewrite !contains_spec. intros [a [b ->]].
  exists a, (b +:+ t). by rewrite !app_assoc.
Qed.

Lemma contains_app_r (sub s t : string) :
  contains sub t = true -> contains sub (s +:+ t) = true.
Proof.
  rewrite !contains_spec. intros [a [b ->]].
  exists (s +:+ a), b. by rewrite !app_assoc.
Qed.

Lemma contains_refl (s : string) : contains s s = true.
Proof. apply contains_spec. exists "", "". by rewrite app_nil_r. Qed.

Lemma lines_nonempty (s : string) : lines s <> [].
Proof.
  induction s as [|c s IH]; simpl; [done|].
  destruct (Ascii.eqb c newline); [done|]. by destruct (lines s).
Qed.

(** A newline ends the line being read: the lines of [a ++ "\n" ++ b]
    are those of [a] followed by those of [b]. *)
Lemma lines_app_nl (a b : string) :
  lines (a +:+ String newline b) = lines a ++ lines b.
Proof.
  induction a as [|c a IH]; [reflexivity|].
  rewrite app_cons. simpl. destruct (Ascii.eqb c newline).
  - by rewrite IH.
  - rewrite IH. destruct (lines a) as [|l ls] eqn:E; [|reflexivity].
    by destruct (lines_nonempty a).
Qed.

Lemma lines_one_line (s : string) : one_line s = true -> lines s = [s].
Proof.
  induction s as [|c s IH]; simpl; [done|].
  rewrite andb_true_iff, negb_true_iff. intros [-> Hs]. by rewrite IH.
Qed.

Lemma one_line_app (a b : string) :
  one_line (a +:+ b) = one_line a && one_line b.
Proof.
  induction a as [|c a IH]; [reflexivity|].
  rewrite app_cons. simpl. by rewrite IH, andb_assoc.
Qed.

(** The first line of a text starts the text. *)
Lemma first_line_prefix (s l : string) (ls : list string) :
  lines s = l :: ls -> exists r, s = l +:+ r.
Proof.
  revert l ls. induction s as [|c s IH]; intros l ls; simpl.
  - intros [= <- <-]. by exists "".
  - destruct (Ascii.eqb c newline).
    + intros [= <- <-]. by exists (String c s).
    + destruct (lines s) as [|l0 ls0] eqn:E; [by destruct (lines_nonempty s)|].
      intros [= <- <-]. destruct (IH _ _ eq_refl) as [r ->].
      by exists r.
Qed.

(** Every line of a text occurs in the text. *)
Lemma line_contained (l s : string) :
  In l (lines s) -> contains l s = true.
Proof.
  revert l. induction s as [|c s IH]; intros l; simpl lines.
  - intros [<- | []]. reflexivity.
  - assert (Htl : forall l', In l' (lines s) -> contains l' (String c s) = true).
    { intros l' Hin. change (String c s) with (String c "" +:+ s).
      apply contains_app_r. by apply IH. }
    destruct (Ascii.eqb c newline) eqn:Ec.
    + intros [<- | Hin]; [reflexivity | by apply Htl].
    + destruct (lines s) as [|l0 ls] eqn:E; [by destruct (lines_nonempty s)|].
      intros [<- | Hin].
      * destruct (first_line_prefix _ _ _ E) as [r ->].
        apply contains_spec. by exists "", r.
      * apply Htl. by right.
Qed.

End PyStrFacts.

(* ===================================================================== *)
(** ** Facts about date and time strings *)
(* ===================================================================== *)

Module DatetimeFacts.
Import PyStrFacts.

Lemma digit_not_newline (n : Z) : Ascii.eqb (digit n) newline = false.
Proof.
  unfold digit. generalize (Z.to_nat (n mod 10)) as k. intros k.
  do 10 (destruct k as [|k]; [reflexivity|]). by destruct k.
Qed.

Lemma one_line_pad2 (n : Z) : one_line (pad2 n) = true.
Proof. unfold pad2. cbn [one_line]. by rewrite !digit_not_newline. Qed.

Lemma one_line_pad4 (n : Z) : one_line (pad4 n) = true.
Proof.
  unfold pad4. cbn [one_line].
  by rewrite !digit_not_newline, one_line_pad2.
Qed.

Lemma one_line_date (t : datetime) : one_line (strftime_date t) = true.
Proof.
  unfold strftime_date.
  by rewrite !one_line_app, one_line_pad4, !one_line_pad2.
Qed.

Lemma one_line_time (t : datetime) : one_line (strftime_time t) = true.
Proof.
  unfold strftime_time. by rewrite !one_line_app, !one_line_pad2.
Qed.

Lemma length_date (t : datetime) : String.length (strftime_date t) = 10%nat.
Proof. reflexivity. Qed.

Lemma length_time (t : datetime) : String.length (strftime_time t) = 5%nat.
Proof. reflexivity. Qed.

Lemma date_not_time (t t' : datetime) : strftime_date t <> strftime_time t'.
Proof.
  intros H. apply (f_equal String.length) in H.
  rewrite length_date, length_time in H. discriminate H.
Qed.

Lemma date_not_empty (t : datetime) : strftime_date t <> "".
Proof.
  intros H. apply (f_equal String.length) in H.
  rewrite length_date in H. discriminate H.
Qed.

End DatetimeFacts.

(* ===================================================================== *)
(** ** Paths *)
(* ===================================================================== *)

Module PathFacts.
Import PyStrFacts.

Lemma rstrip_slash_id (s : string) :
  endswith s "/" = false -> rstrip_slash s = s.
Proof.
  induction s as [|c s IH]; [reflexivity|].
  cbn [endswith rstrip_slash]. intros H.
  apply orb_false_iff in H as [H1 H2]. rewrite (IH H2).
  destruct (Ascii.eqb_spec c "/") as [->|?]; [|reflexivity].
  destruct (String.eqb_spec s "") as [->|?]; [discriminate H1 | reflexivity].
Qed.

Lemma rstrip_slash_all (s : string) :
  s <> "" -> rstrip_slash s = "" -> endswith s "/" = true.
Proof.
  induction s as [|c s IH]; [done|]. intros _.
  cbn [rstrip_slash endswith].
  destruct (Ascii.eqb_spec c "/") as [->|?]; [|discriminate].
  destruct (String.eqb_spec (rstrip_slash s) "") as [E|?]; [|discriminate].
  intros _. destruct s as [|c' s']; [reflexivity|].
  rewrite IH by done. apply orb_true_r.
Qed.

(** The root is a directory, not a place for a file. *)
Lemma is_root_parent (fs : gmap string node) (p : string) :
  is_root p = true -> parent_of fs p = NoFileName.
Proof.
  unfold is_root. rewrite andb_true_iff, negb_true_iff.
  intros [Hne Hr]. apply String.eqb_eq in Hr.
  unfold parent_of. rewrite Hne, Hr. cbn.
  rewrite rstrip_slash_all; [reflexivity | | exact Hr].
  intros ->. discriminate Hne.
Qed.

Lemma not_root (fs : gmap string node) (p : string) :
  parent_of fs p <> NoFileName -> is_root p = false.
Proof.
  intros H. destruct (is_root p) eqn:E; [|reflexivity].
  by destruct (H (is_root_parent fs p E)).
Qed.

End PathFacts.

(* ===================================================================== *)
(** ** The timestamp writer *)
(* ===================================================================== *)

Section WriteTimestamp.
Import PyStrFacts DatetimeFacts PathFacts.

Lemma writeTimestamp_existing (p : string) (t : datetime) (w : world)
      (c : string) :
  files w !! p = Some (File c) ->
  writeTimestamp p t w
  = (Ok tt, set_files (<[p := File (c +:+ stamp_block c t)]> (files w)) w).
Proof.
  intros Hp.
  unfold writeTimestamp, bind, os_path_isfile, isfile, open_read,
    open_a_write.
  repeat (rewrite Hp; cbn [negb]; cbv beta iota).
  do 4 f_equal. unfold stamp_block, repeat_bool.
  destruct (endswith c (nl +:+ nl)), (contains (strftime_date t) c);
    by rewrite ?app_assoc.
Qed.

Lemma writeTimestamp_new (p : string) (t : datetime) (w : world) :
  files w !! p = None ->
  parent_of (files w) p = ParentThere ->
  writeTimestamp p t w
  = (Ok tt,
     set_files
       (<[p := File (strftime_date t +:+ nl +:+ strftime_time t +:+ nl)]>
          (files w)) w).
Proof.
  intros Hp Hd.
  assert (Hr : is_root p = false)
    by (apply (not_root (files w)); by rewrite Hd).
  unfold writeTimestamp, bind, os_path_isfile, isfile, open_x_write,
    create_file.
  repeat (rewrite Hp; cbn [negb]; cbv beta iota). rewrite Hr, Hd.
  by rewrite !app_assoc.
Qed.

(** Nothing at the path: what the write does depends on where the path
    would put the file; when it fails it changes nothing. *)
Lemma writeTimestamp_no_parent (p : string) (t : datetime) (w : world) :
  files w !! p = None ->
  writeTimestamp p t w
  = match parent_of (files w) p with
    | ParentThere =>
        (Ok tt,
         set_files
           (<[p := File (strftime_date t +:+ nl +:+ strftime_time t +:+ nl)]>
              (files w)) w)
    | ParentMissing => (Raise FileNotFoundError, w)
    | ParentNotADirectory => (Raise NotADirectoryError, w)
    | NoFileName =>
        (Raise (if is_root p then FileExistsError else IsADirectoryError), w)
    end.
Proof.
  intros Hp. destruct (parent_of (files w) p) eqn:Hd.
  - by apply writeTimestamp_new.
  - assert (Hr : is_root p = false)
      by (apply (not_root (files w)); by rewrite Hd).
    unfold writeTimestamp, bind, os_path_isfile, isfile, open_x_write,
      create_file.
    repeat (rewrite Hp; cbn [negb]; cbv beta iota). by rewrite Hr, Hd.
  - assert (Hr : is_root p = false)
      by (apply (not_root (files w)); by rewrite Hd).
    unfold writeTimestamp, bind, os_path_isfile, isfile, open_x_write,
      create_file.
    repeat (rewrite Hp; cbn [negb]; cbv beta iota). by rewrite Hr, Hd.
  - unfold writeTimestamp, bind, os_path_isfile, isfile, open_x_write,
      create_file.
    repeat (rewrite Hp; cbn [negb]; cbv beta iota).
    destruct (is_root p); [reflexivity | by rewrite Hd].
Qed.

(** C1. On an existing entry file a timestamp write appends exactly: one
    newline if and only if the text does not end with two newlines;
    the date line if and only if today's date string occurs nowhere in
    the text; the time line; one blank line.  The text already there,
    every other path, the error stream, the editor runs and the clock
    are left as they were. *)
Theorem C1_append_block (p : string) (t : datetime) (w : world)
        (c : string) :
  files w !! p = Some (File c) ->
  exists w',
    writeTimestamp p t w = (Ok tt, w')
    /\ files w' !! p
       = Some (File
           (c
            +:+ (if endswith c (nl +:+ nl) then "" else nl)
            +:+ (if contains (strftime_date t) c then ""
                 else strftime_date t +:+ nl)
            +:+ (strftime_time t +:+ nl)
            +:+ nl))
    /\ (forall q, q <> p -> files w' !! q = files w !! q)
    /\ stderr w' = stderr w /\ launched w' = launched w
    /\ ticks w' = ticks w.
Proof.
  intros Hp. eexists. split; [by apply writeTimestamp_existing|].
  cbn. split; [by rewrite lookup_insert_eq|].
  split; [|done]. intros q Hq. by rewrite lookup_insert_ne.
Qed.


End WriteTimestamp.

Lemma C1_append_block_witness :
  exists w',
    writeTimestamp Sample.entry Sample.at_1030
      (Sample.start {[Sample.entry := File Sample.morning]}) = (Ok tt, w')
    /\ files w' !! Sample.entry
       = Some (File (Sample.morning +:+ "10:30" +:+ nl +:+ nl)).
Proof.
  destruct (C1_append_block Sample.entry Sample.at_1030
              (Sample.start {[Sample.entry := File Sample.morning]})
              Sample.morning)
    as [w' [Hrun [Hfile _]]].
  - apply lookup_singleton_eq.
  - exists w'. split; [exact Hrun|]. rewrite Hfile. reflexivity.
Defined.



(* ===================================================================== *)
(** ** Counting date lines *)
(* ===================================================================== *)

Module LineFacts.
Import PyStrFacts DatetimeFacts.

Lemma length_app (a b : string) :
  String.length (a +:+ b) = (String.length a + String.length b)%nat.
Proof.
  induction a as [|c a IH]; [reflexivity|].
  rewrite app_cons. simpl. by rewrite IH.
Qed.

Lemma count_line_app_nl (d a b : string) :
  count_line d (a +:+ String newline b)
  = (count_line d a + count_line d b)%nat.
Proof.
  unfold count_line.
  by rewrite lines_app_nl, List.filter_app, List.length_app.
Qed.

Lemma count_line_one_line (d s : string) :
  one_line s = true ->
  count_line d s = if String.eqb d s then 1%nat else 0%nat.
Proof.
  intros Hs. unfold count_line. rewrite (lines_one_line _ Hs). simpl.
  by destruct (String.eqb d s).
Qed.

Lemma count_line_empty (d : string) : d <> "" -> count_line d "" = 0%nat.
Proof.
  intros Hd. rewrite count_line_one_line by reflexivity.
  by destruct (String.eqb_spec d "").
Qed.

(** A text that ends with a one-line piece and a single newline does
    not end with two newlines. *)
Lemma endswith_line_nl (s : string) :
  one_line s = true -> endswith (s +:+ nl) (nl +:+ nl) = false.
Proof.
  induction s as [|c s IH]; [reflexivity|].
  cbn [one_line]. rewrite andb_true_iff, negb_true_iff.
  intros [Hc Hs]. rewrite app_cons. cbn [endswith].
  rewrite (IH Hs), orb_false_r.
  change (nl +:+ nl) with (String newline (String newline "")).
  cbn [String.eqb]. by rewrite Hc.
Qed.

Lemma endswith_app_line_nl (a s : string) :
  one_line s = true -> s <> "" ->
  endswith (a +:+ s +:+ nl) (nl +:+ nl) = false.
Proof.
  intros Hs Hne. induction a as [|c a IH].
  - by apply endswith_line_nl.
  - rewrite app_cons. cbn [endswith]. rewrite IH, orb_false_r.
    apply String.eqb_neq. intros H.
    apply (f_equal String.length) in H. revert H.
    change (nl +:+ nl) with (String newline (String newline "")).
    cbn [String.length]. rewrite !length_app.
    destruct s; [done|]. cbn [String.length nl]. lia.
Qed.

(** After a timestamp write the text ends with two newlines. *)
Lemma endswith_block (c : string) (t : datetime) :
  endswith (c +:+ stamp_block c t) (nl +:+ nl) = true.
Proof.
  apply endswith_spec. unfold stamp_block.
  exists (c +:+ (if endswith c (nl +:+ nl) then "" else nl)
            +:+ (if contains (strftime_date t) c then ""
                 else strftime_date t +:+ nl)
            +:+ strftime_time t).
  by rewrite !app_assoc.
Qed.

Lemma nl_app (y : string) : nl +:+ y = String newline y.
Proof. reflexivity. Qed.

Lemma count_line_nl_cons (d b : string) :
  count_line d (String newline b)
  = (count_line d "" + count_line d b)%nat.
Proof. by rewrite <- (count_line_app_nl d "" b). Qed.

(** The lines a timestamp write adds, counted: the date line when it
    is written, and no other line that could be a date. *)
Lemma count_line_block (d c : string) (t : datetime) :
  d <> "" -> d <> strftime_time t ->
  count_line d (c +:+ stamp_block c t)
  = (count_line d c
     + (if contains (strftime_date t) c then 0
        else if String.eqb d (strftime_date t) then 1 else 0))%nat.
Proof.
  intros Hd Ht.
  assert (Hd0 : count_line d "" = 0%nat) by by apply count_line_empty.
  assert (Htm : count_line d (strftime_time t) = 0%nat).
  { rewrite count_line_one_line by apply one_line_time.
    by destruct (String.eqb_spec d (strftime_time t)). }
  assert (Hrest : forall rest,
    count_line d
      (c +:+ (if endswith c (nl +:+ nl) then "" else nl) +:+ rest)
    = (count_line d c + count_line d rest)%nat).
  { intros rest. destruct (endswith c (nl +:+ nl)) eqn:E.
    - apply endswith_spec in E as [a ->].
      rewrite app_nil_l, !app_assoc, !nl_app, !count_line_app_nl.
      unfold nl. rewrite !count_line_nl_cons, Hd0. lia.
    - by rewrite nl_app, count_line_app_nl. }
  unfold stamp_block. rewrite Hrest. f_equal.
  destruct (contains (strftime_date t) c).
  - rewrite app_nil_l, !app_assoc, !nl_app, !count_line_app_nl.
    unfold nl. rewrite !count_line_nl_cons, Htm, Hd0. reflexivity.
  - rewrite !app_assoc, !nl_app, !count_line_app_nl.
    unfold nl. rewrite !count_line_nl_cons, Htm, Hd0.
    rewrite count_line_one_line by apply one_line_date.
    destruct (String.eqb d (strftime_date t)); reflexivity.
Qed.

(** A date string that occurs nowhere in a text is none of its lines. *)
Lemma count_line_absent (d c : string) :
  contains d c = false -> count_line d c = 0%nat.
Proof.
  intros Hc. unfold count_line.
  destruct (List.filter (String.eqb d) (lines c)) as [|l ls] eqn:E;
    [reflexivity|].
  assert (Hin : In l (List.filter (String.eqb d) (lines c)))
    by (rewrite E; by left).
  apply List.filter_In in Hin as [Hin Heq].
  apply String.eqb_eq in Heq as <-.
  apply line_contained in Hin. congruence.
Qed.

End LineFacts.

(* ===================================================================== *)
(** ** Repeated timestamp writes *)
(* ===================================================================== *)

Section RepeatedWrites.
Import PyStrFacts DatetimeFacts LineFacts.

Lemma same_day_date (t t' : datetime) :
  same_day t t' -> strftime_date t = strftime_date t'.
Proof. intros (Hy & Hm & Hd). unfold strftime_date. by rewrite Hy, Hm, Hd. Qed.

(** Once a date is in the text, a write on that date adds the time
    line and the blank line only, after the separating newline. *)
Lemma stamp_block_dated (c : string) (t : datetime) :
  contains (strftime_date t) c = true ->
  stamp_block c t
  = (if endswith c (nl +:+ nl) then "" else nl)
    +:+ strftime_time t +:+ nl +:+ nl.
Proof.
  intros H. unfold stamp_block. rewrite H.
  by rewrite app_nil_l, !app_assoc.
Qed.

(** After a write, the date written is in the text. *)
Lemma contains_after_block (c : string) (t : datetime) :
  contains (strftime_date t) (c +:+ stamp_block c t) = true.
Proof.
  destruct (contains (strftime_date t) c) eqn:E.
  - by apply contains_app_l.
  - apply contains_app_r. unfold stamp_block. rewrite E.
    apply contains_app_r, contains_app_l, contains_app_l, contains_refl.
Qed.

Lemma contains_after_new (t : datetime) (rest : string) :
  contains (strftime_date t) (strftime_date t +:+ rest) = true.
Proof. apply contains_app_l, contains_refl. Qed.

(** The second of two same-day writes adds exactly its time line and
    a blank line. *)
Lemma second_block (c : string) (t1 t2 : datetime) :
  strftime_date t1 = strftime_date t2 ->
  stamp_block (c +:+ stamp_block c t1) t2 = strftime_time t2 +:+ nl +:+ nl.
Proof.
  intros Hd. rewrite stamp_block_dated.
  - by rewrite endswith_block, app_nil_l.
  - rewrite <- Hd. apply contains_after_block.
Qed.

(** C4 (amended). On every file state on which the writes go through
    (the entry is a regular file, or nothing is at its path and a file
    can be created there: the path ends with a file name and lies in a
    directory that is there), two timestamp writes on the same
    calendar date add at most one date line between them: exactly one
    when the entry did not contain the date string before (or did not
    exist), none when it did.  Each call adds its own time line once;
    the second call adds nothing but its time line and a blank line
    when the entry existed, and a separating newline before them when
    the first call created the entry. *)
Theorem C4_two_writes_same_day (p : string) (t1 t2 : datetime) (w : world) :
  same_day t1 t2 ->
  files w !! p <> Some Dir ->
  (files w !! p = None -> parent_of (files w) p = ParentThere) ->
  exists w1 w2 c2,
    writeTimestamp p t1 w = (Ok tt, w1)
    /\ writeTimestamp p t2 w1 = (Ok tt, w2)
    /\ files w2 !! p = Some (File c2)
    /\ match files w !! p with
       | Some (File c) =>
           c2 = c +:+ stamp_block c t1 +:+ strftime_time t2 +:+ nl +:+ nl
           /\ count_line (strftime_date t1) c2
              = (count_line (strftime_date t1) c
                 + (if contains (strftime_date t1) c then 0 else 1))%nat
       | _ =>
           c2 = strftime_date t1 +:+ nl +:+ strftime_time t1 +:+ nl
                +:+ nl +:+ strftime_time t2 +:+ nl +:+ nl
           /\ count_line (strftime_date t1) c2 = 1%nat
       end.
Proof.
  intros Hsame Hnd Hpar. apply same_day_date in Hsame as Hd.
  destruct (files w !! p) as [[c|]|] eqn:Hp; [|done|].
  - eexists _, _, _. split; [by apply writeTimestamp_existing|].
    split; [apply writeTimestamp_existing; cbn; by rewrite lookup_insert_eq|].
    cbn. rewrite lookup_insert_eq.
    split; [reflexivity|].
    split; [by rewrite (second_block c t1 t2 Hd), !app_assoc|].
    rewrite !count_line_block
      by (apply date_not_empty || apply date_not_time).
    rewrite <- Hd, contains_after_block, String.eqb_refl.
    destruct (contains (strftime_date t1) c); lia.
  - set (c1 := strftime_date t1 +:+ nl +:+ strftime_time t1 +:+ nl).
    assert (He : endswith c1 (nl +:+ nl) = false).
    { apply (endswith_app_line_nl (strftime_date t1 +:+ nl));
        [apply one_line_time|].
      intros H. apply (f_equal String.length) in H.
      by rewrite length_time in H. }
    assert (Hc : contains (strftime_date t2) c1 = true).
    { rewrite <- Hd. apply contains_after_new. }
    eexists _, _, _. split; [apply writeTimestamp_new; auto|].
    split; [apply writeTimestamp_existing; cbn; by rewrite lookup_insert_eq|].
    cbn. rewrite lookup_insert_eq. fold c1.
    split; [reflexivity|].
    assert (Hb : c1 +:+ stamp_block c1 t2
                 = strftime_date t1 +:+ nl +:+ strftime_time t1 +:+ nl
                   +:+ nl +:+ strftime_time t2 +:+ nl +:+ nl).
    { rewrite stamp_block_dated by done. rewrite He. unfold c1.
      by rewrite !app_assoc. }
    split; [exact Hb|].
    rewrite count_line_block
      by (apply date_not_empty || apply date_not_time).
    rewrite Hc. unfold c1.
    change (nl +:+ ?x) with (String newline x).
    change (?x +:+ nl) with (x +:+ String newline "").
    rewrite !count_line_app_nl.
    rewrite !count_line_one_line
      by (apply one_line_date || apply one_line_time || reflexivity).
    rewrite String.eqb_refl.
    destruct (String.eqb_spec (strftime_date t1) (strftime_time t1)) as [E|_];
      [by destruct (date_not_time _ _ E)|].
    destruct (String.eqb_spec (strftime_date t1) "") as [E|_];
      [by destruct (date_not_empty _ E)|].
    reflexivity.
Qed.

End RepeatedWrites.

Lemma C4_two_writes_same_day_witness :
  exists w1 w2,
    writeTimestamp Sample.entry Sample.at_1030
      (Sample.start {[Sample.entry := File Sample.morning]}) = (Ok tt, w1)
    /\ writeTimestamp Sample.entry Sample.at_1100 w1 = (Ok tt, w2)
    /\ files w2 !! Sample.entry
       = Some (File (Sample.morning +:+ "10:30" +:+ nl +:+ nl
                     +:+ "11:00" +:+ nl +:+ nl)).
Proof.
  destruct (C4_two_writes_same_day Sample.entry Sample.at_1030 Sample.at_1100
              (Sample.start {[Sample.entry := File Sample.morning]}))
    as (w1 & w2 & c2 & H1 & H2 & Hf & Hc).
  - repeat split; reflexivity.
  - unfold Sample.start. cbn [files]. rewrite lookup_singleton_eq. discriminate.
  - unfold Sample.start. cbn [files]. rewrite lookup_singleton_eq. discriminate.
  - exists w1, w2. split; [exact H1|]. split; [exact H2|].
    rewrite Hf. unfold Sample.start in Hc. cbn [files] in Hc.
    rewrite lookup_singleton_eq in Hc.
    destruct Hc as [-> _]. reflexivity.
Defined.

(** C4, as stated, fails: on the entry ["2024-01-01\n09:00\n\n"] two writes
    on 2024-01-01 (10:30 and 11:00) add no date line at all, so the
    number of date lines does not grow by one. *)
Lemma C4_counterexample :
  exists w1 w2 c2,
    same_day Sample.at_1030 Sample.at_1100
    /\ writeTimestamp Sample.entry Sample.at_1030
         (Sample.start {[Sample.entry := File Sample.morning]}) = (Ok tt, w1)
    /\ writeTimestamp Sample.entry Sample.at_1100 w1 = (Ok tt, w2)
    /\ files w2 !! Sample.entry = Some (File c2)
    /\ c2 = Sample.morning +:+ "10:30" +:+ nl +:+ nl +:+ "11:00" +:+ nl +:+ nl
    /\ count_line "2024-01-01" Sample.morning = 1%nat
    /\ count_line "2024-01-01" c2 = 1%nat
    /\ count_line "2024-01-01" c2
       <> (count_line "2024-01-01" Sample.morning + 1)%nat.
Proof.
  eexists _, _, _. split; [repeat split; reflexivity|].
  split; [apply writeTimestamp_existing, lookup_singleton_eq|].
  split; [apply writeTimestamp_existing; cbn; apply lookup_insert_eq|].
  split; [cbn; apply lookup_insert_eq|].
  split; [vm_compute; reflexivity|].
  split; [vm_compute; reflexivity|].
  split; [vm_compute; reflexivity|].
  vm_compute. discriminate.
Qed.

(* ===================================================================== *)
(** ** The date line invariant *)
(* ===================================================================== *)

Section DateLineInvariant.
Import PyStrFacts DatetimeFacts LineFacts.

(** One write that goes through: it leaves a file that contains its
    date, keeps what the text contained, and keeps the invariant. *)
Lemma write_step (p : string) (t : datetime) (w : world) :
  files w !! p <> Some Dir ->
  (files w !! p = None -> parent_of (files w) p = ParentThere) ->
  exists w' c',
    writeTimestamp p t w = (Ok tt, w')
    /\ files w' !! p = Some (File c')
    /\ contains (strftime_date t) c' = true
    /\ (forall d, contains d (text_at (files w) p) = true ->
                  contains d c' = true)
    /\ (date_lines_once (files w) p -> date_lines_once (files w') p).
Proof.
  intros Hnd Hpar. unfold date_lines_once, text_at.
  destruct (files w !! p) as [[c|]|] eqn:Hp; [|done|].
  - eexists _, _. split; [by apply writeTimestamp_existing|].
    cbn. rewrite lookup_insert_eq. split; [reflexivity|].
    split; [apply contains_after_block|].
    split; [intros d Hd; by apply contains_app_l|].
    intros Hinv t0.
    rewrite count_line_block by (apply date_not_empty || apply date_not_time).
    specialize (Hinv t0).
    destruct (contains (strftime_date t) c) eqn:Ec; [lia|].
    destruct (String.eqb_spec (strftime_date t0) (strftime_date t)) as [E|_];
      [|lia].
    rewrite E, (count_line_absent _ _ Ec). lia.
  - eexists _, _. split; [apply writeTimestamp_new; auto|].
    cbn. rewrite lookup_insert_eq. split; [reflexivity|].
    split; [apply contains_after_new|].
    split.
    + intros d Hd. destruct d; [reflexivity | discriminate Hd].
    + intros _ t0.
      rewrite !nl_app. unfold nl.
      rewrite !count_line_app_nl.
      rewrite !count_line_one_line
        by (apply one_line_date || apply one_line_time || reflexivity).
      destruct (String.eqb_spec (strftime_date t0) (strftime_time t)) as [E|_];
        [by destruct (date_not_time _ _ E)|].
      destruct (String.eqb_spec (strftime_date t0) "") as [E|_];
        [by destruct (date_not_empty _ E)|].
      destruct (String.eqb (strftime_date t0) (strftime_date t)); lia.
Qed.

(** One write, whatever its outcome: it goes through, or it fails and
    leaves the world as it was. *)
Lemma write_or_fail (p : string) (t : datetime) (w : world) :
  (files w !! p <> Some Dir
   /\ (files w !! p = None -> parent_of (files w) p = ParentThere))
  \/ exists e, writeTimestamp p t w = (Raise e, w).
Proof.
  destruct (files w !! p) as [[c|]|] eqn:Hp.
  - left. by split.
  - right. exists FileExistsError.
    unfold writeTimestamp, bind, os_path_isfile, isfile, open_x_write.
    repeat (rewrite Hp; cbn [negb]; cbv beta iota). reflexivity.
  - destruct (parent_of (files w) p) eqn:Hd.
    + left. by split.
    + right. exists FileNotFoundError.
      rewrite (writeTimestamp_no_parent p t w Hp). by rewrite Hd.
    + right. exists NotADirectoryError.
      rewrite (writeTimestamp_no_parent p t w Hp). by rewrite Hd.
    + right. eexists.
      rewrite (writeTimestamp_no_parent p t w Hp). by rewrite Hd.
Qed.

(** The invariant survives any number of writes, whatever their
    outcome. *)
Lemma writes_keep_invariant (p : string) (ts : list datetime) :
  forall (w w' : world) (r : outcome unit),
    for_each ts (writeTimestamp p) w = (r, w') ->
    date_lines_once (files w) p -> date_lines_once (files w') p.
Proof.
  induction ts as [|t ts IH]; intros w w' r H Hinv; cbn [for_each] in H.
  - injection H as _ Hw. by subst w'.
  - unfold bind in H.
    destruct (write_or_fail p t w) as [[Hnd Hpar] | [e He]].
    + destruct (write_step p t w Hnd Hpar) as (w1 & c1 & Hrun & _ & _ & _ & Hk).
      rewrite Hrun in H. apply (IH _ _ _ H). by apply Hk.
    + rewrite He in H. injection H as _ Hw. by subst w'.
Qed.

(** Any number of writes that go through, one after the other. *)
Lemma writes_run (p : string) (ts : list datetime) :
  forall w : world,
    files w !! p <> Some Dir ->
    (files w !! p = None -> parent_of (files w) p = ParentThere) ->
    exists w',
      for_each ts (writeTimestamp p) w = (Ok tt, w')
      /\ files w' !! p <> Some Dir
      /\ (forall d, contains d (text_at (files w) p) = true ->
                    contains d (text_at (files w') p) = true)
      /\ (forall t, In t ts ->
            exists c, files w' !! p = Some (File c)
                      /\ contains (strftime_date t) c = true).
Proof.
  induction ts as [|t ts IH]; intros w Hnd Hpar.
  - exists w. split; [reflexivity|]. split; [done|]. split; [done|].
    intros t [].
  - destruct (write_step p t w Hnd Hpar)
      as (w1 & c1 & Hrun & Hf & Hc & Hmono & _).
    destruct (IH w1) as (w' & Hrun' & Hnd' & Hmono' & Hin').
    { rewrite Hf. discriminate. }
    { rewrite Hf. discriminate. }
    exists w'. cbn [for_each]. unfold bind at 1. rewrite Hrun.
    split; [exact Hrun'|]. split; [exact Hnd'|].
    assert (Hfile : forall d, contains d c1 = true ->
              exists c, files w' !! p = Some (File c) /\ contains d c = true).
    { intros d Hd. specialize (Hmono' d). unfold text_at in Hmono'.
      rewrite Hf in Hmono'. specialize (Hmono' Hd).
      destruct (files w' !! p) as [[c|]|] eqn:E; [by exists c|done|].
      destruct ts as [|t' ts'].
      - injection Hrun' as <-. rewrite Hf in E. discriminate E.
      - destruct (Hin' t' (or_introl eq_refl)) as (c & Hc' & _).
        discriminate Hc'. }
    split.
    { intros d Hd. destruct (Hfile d (Hmono d Hd)) as (c & Hc' & Hd').
      unfold text_at at 1. by rewrite Hc'. }
    intros t0 [<- | Hin]; [by apply Hfile | by apply Hin'].
Qed.

(** C3. Timestamp writes keep the invariant that no date occurs more
    than once as a line of the entry, however many of them are made, on
    whatever dates and whatever their outcome.  Where the writes go
    through (the entry is a regular file, or nothing is at its path
    and a file can be created there: the path ends with a file name and
    lies in a directory that is there), every write made after a
    write on the same date leaves the date line out: it adds the
    separating newline if needed, its time line and a blank line. *)
Theorem C3_date_line_at_most_once (p : string) (ts : list datetime)
        (w : world) :
  date_lines_once (files w) p ->
  exists r w',
    for_each ts (writeTimestamp p) w = (r, w')
    /\ date_lines_once (files w') p
    /\ (files w !! p <> Some Dir ->
        (files w !! p = None -> parent_of (files w) p = ParentThere) ->
        r = Ok tt
        /\ forall t t', In t ts -> same_day t t' ->
             exists c,
               files w' !! p = Some (File c)
               /\ writeTimestamp p t' w'
                  = (Ok tt,
                     set_files
                       (<[p := File (c +:+ (if endswith c (nl +:+ nl) then ""
                                            else nl)
                                     +:+ strftime_time t' +:+ nl +:+ nl)]>
                          (files w')) w')).
Proof.
  intros Hinv.
  destruct (for_each ts (writeTimestamp p) w) as [r w'] eqn:Hrun.
  exists r, w'. split; [reflexivity|].
  split; [by apply (writes_keep_invariant p ts w w' r)|].
  intros Hnd Hpar.
  destruct (writes_run p ts w Hnd Hpar) as (w2 & Hrun2 & _ & _ & Hin).
  rewrite Hrun in Hrun2. injection Hrun2 as -> ->.
  split; [reflexivity|].
  intros t t' Ht Hsame. destruct (Hin t Ht) as (c & Hf & Hc).
  exists c. split; [exact Hf|].
  rewrite (writeTimestamp_existing p t' w2 c Hf).
  rewrite stamp_block_dated; [reflexivity|].
  by rewrite <- (same_day_date t t' Hsame).
Qed.

End DateLineInvariant.

Lemma C3_date_line_at_most_once_witness :
  exists w',
    for_each [Sample.at_0900; Sample.at_1030; Sample.next_day; Sample.at_1100]
      (writeTimestamp Sample.entry) (Sample.start {[ "/j/2024" := Dir ]})
    = (Ok tt, w')
    /\ date_lines_once (files w') Sample.entry.
Proof.
  destruct (C3_date_line_at_most_once Sample.entry
              [Sample.at_0900; Sample.at_1030; Sample.next_day; Sample.at_1100]
              (Sample.start {[ "/j/2024" := Dir ]}))
    as (r & w' & Hrun & Hinv & Hok).
  - intros t. unfold text_at, Sample.start. cbn [files].
    rewrite lookup_singleton_ne by discriminate.
    rewrite LineFacts.count_line_empty by apply DatetimeFacts.date_not_empty.
    lia.
  - destruct Hok as [-> _].
    + unfold Sample.start. cbn [files].
      rewrite lookup_singleton_ne; discriminate.
    + intros _. vm_compute. reflexivity.
    + exists w'. split; [exact Hrun | exact Hinv].
Defined.

Example four_writes :
  exists w',
    for_each [Sample.at_0900; Sample.at_1030; Sample.next_day; Sample.at_1100]
      (writeTimestamp Sample.entry) (Sample.start {[ "/j/2024" := Dir ]})
    = (Ok tt, w')
    /\ files w' !! Sample.entry
       = Some (File ("2024-01-01" +:+ nl +:+ "09:00" +:+ nl +:+ nl
                     +:+ "10:30" +:+ nl +:+ nl
                     +:+ "2024-01-02" +:+ nl +:+ "08:15" +:+ nl +:+ nl
                     +:+ "11:00" +:+ nl +:+ nl)).
Proof. eexists. split; vm_compute; reflexivity. Qed.

(* ===================================================================== *)
(** ** Opening an entry *)
(* ===================================================================== *)

Section OpenEntry.
Import PyStrFacts DatetimeFacts LineFacts.

Variable load_today : datetime.
Variable editor_run : string -> string -> gmap string node -> gmap string node.

Local Abbreviation open_entry := (openEntry load_today editor_run).

Lemma openEntry_missing_readmode (d : datetime) (e jp : string) (ts : bool)
      (w : world) :
  files w !! entryPath jp d = None ->
  open_entry d e jp ts true w
  = (Ok tt, said (entryPath jp d +:+ " does not exist!") w).
Proof.
  intros Hp. unfold openEntry, bind, os_path_exists, exists_.
  rewrite Hp. reflexivity.
Qed.

End OpenEntry.

(* ===================================================================== *)
(** ** Dates and their strings *)
(* ===================================================================== *)

Module DateStrings.
Import PyStrFacts PathFacts.

Lemma digit_inj (a b : Z) : digit a = digit b -> a mod 10 = b mod 10.
Proof.
  unfold digit.
  assert (Ha : 0 <= a mod 10 < 10) by (apply Z.mod_pos_bound; lia).
  assert (Hb : 0 <= b mod 10 < 10) by (apply Z.mod_pos_bound; lia).
  revert Ha Hb. generalize (a mod 10) (b mod 10). intros x y Hx Hy H.
  assert (Hx' : x = 0 \/ x = 1 \/ x = 2 \/ x = 3 \/ x = 4 \/ x = 5 \/ x = 6
                \/ x = 7 \/ x = 8 \/ x = 9) by lia.
  assert (Hy' : y = 0 \/ y = 1 \/ y = 2 \/ y = 3 \/ y = 4 \/ y = 5 \/ y = 6
                \/ y = 7 \/ y = 8 \/ y = 9) by lia.
  repeat (destruct Hx' as [-> | Hx']); try subst x;
    repeat (destruct Hy' as [-> | Hy']); try subst y;
    first [reflexivity | discriminate H].
Qed.

Lemma pad2_inj (a b : Z) :
  0 <= a < 100 -> 0 <= b < 100 -> pad2 a = pad2 b -> a = b.
Proof.
  intros Ha Hb H. unfold pad2 in H. injection H as H1 H2.
  apply digit_inj in H1, H2. revert H1 H2.
  Z.div_mod_to_equations. lia.
Qed.

Lemma pad4_inj (a b : Z) :
  0 <= a < 10000 -> 0 <= b < 10000 -> pad4 a = pad4 b -> a = b.
Proof.
  intros Ha Hb H. unfold pad4, pad2 in H. injection H as H1 H2 H3 H4.
  apply digit_inj in H1, H2, H3, H4. revert H1 H2 H3 H4.
  Z.div_mod_to_equations. lia.
Qed.

Lemma days_in_month_bounds (y m : Z) :
  1 <= m <= 12 -> 28 <= days_in_month y m <= 31.
Proof.
  intros Hm. unfold days_in_month.
  assert (H : m = 1 \/ m = 2 \/ m = 3 \/ m = 4 \/ m = 5 \/ m = 6 \/ m = 7
              \/ m = 8 \/ m = 9 \/ m = 10 \/ m = 11 \/ m = 12) by lia.
  repeat (destruct H as [-> | H]); try subst m;
    destruct (is_leap y); vm_compute; split; discriminate.
Qed.

(** Distinct calendar dates have distinct date strings. *)
Lemma strftime_date_inj (t t' : datetime) :
  valid t -> valid t' -> strftime_date t = strftime_date t' -> same_day t t'.
Proof.
  intros (Hy & Hm & Hd & _) (Hy' & Hm' & Hd' & _) H.
  pose proof (days_in_month_bounds (year t) (month t) Hm).
  pose proof (days_in_month_bounds (year t') (month t') Hm').
  unfold MINYEAR, MAXYEAR in *.
  unfold strftime_date in H.
  assert (H4 : pad4 (year t) = pad4 (year t')
               /\ pad2 (month t) = pad2 (month t')
               /\ pad2 (day t) = pad2 (day t')).
  { unfold pad4, pad2 in *. rewrite !app_cons, !app_nil_l in H.
    injection H as ? ? ? ? ? ? ? ?. repeat split; congruence. }
  destruct H4 as (E1 & E2 & E3).
  repeat split; [apply pad4_inj | apply pad2_inj | apply pad2_inj];
    (lia || assumption).
Qed.

Lemma digit_not_slash (n : Z) : Ascii.eqb (digit n) "/" = false.
Proof.
  unfold digit. generalize (Z.to_nat (n mod 10)) as k. intros k.
  do 10 (destruct k as [|k]; [reflexivity|]). by destruct k.
Qed.

(** An entry is never its own year directory. *)
Lemma entryPath_not_yearDir (jp : string) (d : datetime) :
  entryPath jp d <> yearDirPath jp d.
Proof.
  unfold entryPath. generalize (yearDirPath jp d) as yd. intros yd.
  unfold join.
  assert (Hs : startswith (strftime_date d +:+ ".txt") "/" = false).
  { unfold strftime_date, pad4. rewrite !app_cons. cbn [startswith].
    by rewrite Ascii.eqb_sym, digit_not_slash. }
  rewrite Hs. intros H. apply (f_equal String.length) in H. revert H.
  destruct (_ || _); rewrite !LineFacts.length_app; cbn;
    rewrite ?LineFacts.length_app, DatetimeFacts.length_date; cbn; lia.
Qed.

Lemma app_inj_length (a a' s s' : string) :
  String.length a = String.length a' ->
  a +:+ s = a' +:+ s' -> a = a' /\ s = s'.
Proof.
  revert a'. induction a as [|x a IH]; intros [|x' a'] Hl H;
    try discriminate Hl.
  - by split.
  - rewrite !app_cons in H. injection H as -> H.
    injection Hl as Hl. destruct (IH a' Hl H) as [-> ->]. by split.
Qed.

Lemma app_suffix_inj (a a' s s' : string) :
  String.length s = String.length s' ->
  a +:+ s = a' +:+ s' -> a = a' /\ s = s'.
Proof.
  intros Hl H. apply app_inj_length; [|exact H].
  apply (f_equal String.length) in H. rewrite !LineFacts.length_app in H. lia.
Qed.

(** The year as [str] prints it is some digits, the last one being the
    year's last digit. *)
Lemma str_year_digits (d : datetime) :
  exists c rest,
    str_year d = String (digit c) rest
    /\ exists front, str_year d = front +:+ String (digit (year d)) "".
Proof.
  unfold str_year. cbn [decimal].
  repeat match goal with
         | |- context [if ?b then _ else _] => destruct b
         end;
    eexists _, _; (split; [reflexivity|]).
  - by exists "".
  - by exists (String (digit (year d / 10)) "").
  - by exists (String (digit (year d / 10 / 10))
                 (String (digit (year d / 10)) "")).
  - by exists (String (digit (year d / 10 / 10 / 10))
                 (String (digit (year d / 10 / 10))
                    (String (digit (year d / 10)) ""))).
  - by exists (String (digit (year d / 10 / 10 / 10))
                 (String (digit (year d / 10 / 10))
                    (String (digit (year d / 10)) ""))).
Qed.

Lemma endswith_digit (front : string) (n : Z) :
  endswith (front +:+ String (digit n) "") "/" = false.
Proof.
  apply not_true_iff_false. rewrite endswith_spec. intros [a Ha].
  apply app_suffix_inj in Ha as [_ Ha]; [|reflexivity].
  injection Ha as Ha. pose proof (digit_not_slash n) as Hn.
  rewrite Ha in Hn. discriminate Hn.
Qed.

(** The name of an entry's file has no slash in it. *)
Lemma entry_name_no_slash (d : datetime) :
  contains "/" (strftime_date d +:+ ".txt") = false.
Proof.
  unfold strftime_date, pad4, pad2.
  repeat (rewrite !app_cons || rewrite !app_nil_l).
  cbn [contains startswith].
  rewrite !(Ascii.eqb_sym "/"), !digit_not_slash. reflexivity.
Qed.

Lemma head_part_no_slash (name : string) :
  contains "/" name = false -> head_part name = "".
Proof.
  destruct name as [|c r]; [reflexivity|]. intros H.
  cbn [head_part]. by rewrite H.
Qed.

Lemma head_part_app (a name : string) :
  contains "/" name = false -> head_part (a +:+ "/" +:+ name) = a +:+ "/".
Proof.
  intros Hn. induction a as [|c a IH].
  - rewrite app_nil_l, app_cons, app_nil_l. cbn [head_part].
    rewrite head_part_no_slash by exact Hn.
    cbn [contains startswith]. reflexivity.
  - change (String c a +:+ "/" +:+ name)
      with (String c (a +:+ "/" +:+ name)).
    cbn [head_part]. rewrite IH.
    assert (H : contains "/" (String c (a +:+ "/" +:+ name)) = true).
    { apply contains_spec. exists (String c a), name. by rewrite app_cons. }
    by rewrite H.
Qed.

Lemma rstrip_slash_app (s : string) :
  rstrip_slash (s +:+ "/") = rstrip_slash s.
Proof.
  induction s as [|c s IH]; [reflexivity|].
  rewrite app_cons. cbn [rstrip_slash]. by rewrite IH.
Qed.

(** The directory a slash-free name joined to [a] lies in is [a]. *)
Lemma dirname_join (a name : string) :
  a <> "" -> endswith a "/" = false -> contains "/" name = false ->
  join a name = a +:+ "/" +:+ name /\ dirname (join a name) = a
  /\ rstrip_slash a = a.
Proof.
  intros Ha He Hn.
  assert (Hs : startswith name "/" = false).
  { destruct name as [|c r]; [reflexivity|].
    cbn [contains] in Hn. by apply orb_false_iff in Hn as [-> _]. }
  assert (Hj : join a name = a +:+ "/" +:+ name).
  { unfold join. rewrite Hs, He.
    by destruct (String.eqb_spec a "") as [E|_]; [destruct (Ha E)|]. }
  split; [exact Hj|]. rewrite Hj. unfold dirname.
  rewrite head_part_app by exact Hn.
  rewrite rstrip_slash_app, (rstrip_slash_id a He).
  split; [|reflexivity].
  by destruct (String.eqb_spec a "") as [E|_]; [destruct (Ha E)|].
Qed.

(** The year directory has a name that is not empty and ends with a
    digit. *)
Lemma yearDirPath_end (jp : string) (d : datetime) :
  yearDirPath jp d <> "" /\ endswith (yearDirPath jp d) "/" = false.
Proof.
  destruct (str_year_digits d) as (c & rest & Hfirst & front & Hlast).
  assert (Hs : startswith (str_year d) "/" = false).
  { rewrite Hfirst. cbn [startswith].
    by rewrite Ascii.eqb_sym, digit_not_slash. }
  unfold yearDirPath, join. rewrite Hs.
  assert (Hne : forall a, a +:+ str_year d <> "").
  { intros a H. apply (f_equal String.length) in H.
    rewrite Hfirst, LineFacts.length_app in H. cbn in H. lia. }
  destruct (_ || _).
  - split; [apply Hne|]. rewrite Hlast, <- app_assoc. apply endswith_digit.
  - rewrite <- app_assoc. split; [apply Hne|].
    rewrite Hlast, <- app_assoc. apply endswith_digit.
Qed.

(** An entry lies in its year directory. *)
Lemma dirname_entryPath (jp : string) (d : datetime) :
  dirname (entryPath jp d) = yearDirPath jp d
  /\ rstrip_slash (yearDirPath jp d) = yearDirPath jp d.
Proof.
  destruct (yearDirPath_end jp d) as [Hne He].
  destruct (dirname_join (yearDirPath jp d) (strftime_date d +:+ ".txt")
              Hne He (entry_name_no_slash d)) as (_ & Hd & Hr).
  by split.
Qed.

(** An entry path ends with a file name. *)
Lemma entryPath_plain (jp : string) (d : datetime) :
  entryPath jp d <> "" /\ endswith (entryPath jp d) "/" = false.
Proof.
  destruct (yearDirPath_end jp d) as [Hne He].
  destruct (dirname_join (yearDirPath jp d) (strftime_date d +:+ ".txt")
              Hne He (entry_name_no_slash d)) as (Hj & _ & _).
  unfold entryPath. rewrite Hj. split.
  - intros H. apply (f_equal String.length) in H.
    rewrite !LineFacts.length_app in H. cbn in H. lia.
  - assert (E : yearDirPath jp d +:+ "/" +:+ strftime_date d +:+ ".txt"
                = (yearDirPath jp d +:+ "/" +:+ strftime_date d +:+ ".tx")
                  +:+ "t").
    { by rewrite !app_assoc. }
    rewrite E. apply not_true_iff_false. rewrite endswith_spec.
    intros [a Ha]. apply app_suffix_inj in Ha as [_ Ha]; [|reflexivity].
    discriminate Ha.
Qed.

(** Once the year directory is there, an entry can be created. *)
Lemma parent_of_entryPath (fs : gmap string node) (jp : string)
      (d : datetime) :
  fs !! yearDirPath jp d = Some Dir ->
  parent_of fs (entryPath jp d) = ParentThere.
Proof.
  intros H. unfold parent_of.
  destruct (entryPath_plain jp d) as [Hne He].
  destruct (String.eqb_spec (entryPath jp d) "") as [E|_]; [by destruct Hne|].
  rewrite (rstrip_slash_id _ He), He.
  destruct (dirname_entryPath jp d) as [-> ->]. rewrite H.
  by destruct (String.eqb _ _).
Qed.

End DateStrings.

(* ===================================================================== *)
(** ** The default value of [todayDatetime] *)
(* ===================================================================== *)

Section DefaultArgument.
Import PyStrFacts DatetimeFacts LineFacts DateStrings.

Variable load_today : datetime.
Variable editor_run : string -> string -> gmap string node -> gmap string node.

Local Abbreviation open_entry := (openEntry load_today editor_run).

(** A timestamp write, whatever the path named before (a directory
    apart), the directory the path lies in being there. *)
Lemma writeTimestamp_stamped (p : string) (t : datetime) (w : world) :
  files w !! p <> Some Dir ->
  parent_of (files w) p = ParentThere ->
  writeTimestamp p t w
  = (Ok tt, set_files (<[p := File (stamped (files w !! p) t)]> (files w)) w).
Proof.
  intros Hnd Hpar. destruct (files w !! p) as [[c|]|] eqn:Hp; [|done|].
  - by apply writeTimestamp_existing.
  - by apply writeTimestamp_new.
Qed.

(** Making sure the year directory is there. *)
Lemma ensure_year_dir (yd : string) (w : world) :
  (forall c, files w !! yd <> Some (File c)) ->
  bind (os_path_isdir yd)
       (fun is_dir => if negb is_dir then os_makedirs yd else ret tt) w
  = (Ok tt, set_files (with_dir (files w) yd) w).
Proof.
  intros Hnf. unfold bind, os_path_isdir, with_dir, isdir, os_makedirs.
  destruct (files w !! yd) as [[c|]|] eqn:E; cbn; rewrite ?E.
  - by destruct (Hnf c).
  - by destruct w.
  - reflexivity.
Qed.

Lemma lookup_with_dir (fs : gmap string node) (yd p : string) :
  p <> yd -> with_dir fs yd !! p = fs !! p.
Proof.
  intros Hne. unfold with_dir. destruct (isdir fs yd); [reflexivity|].
  by rewrite lookup_insert_ne.
Qed.

Lemma lookup_with_dir_eq (fs : gmap string node) (yd : string) :
  with_dir fs yd !! yd = Some Dir.
Proof.
  unfold with_dir, isdir.
  destruct (fs !! yd) as [[c|]|] eqn:E; [|exact E|];
    by rewrite lookup_insert_eq.
Qed.

Lemma openEntry_stamps (d : datetime) (e jp : string) (rm : bool)
      (w : world) :
  (forall c, files w !! yearDirPath jp d <> Some (File c)) ->
  files w !! entryPath jp d <> Some Dir ->
  (rm = true -> is_Some (files w !! entryPath jp d)) ->
  open_entry d e jp true rm w
  = (Ok tt,
     mkWorld
       (editor_run e (entryPath jp d)
          (<[entryPath jp d :=
               File (stamped (files w !! entryPath jp d) load_today)]>
             (with_dir (files w) (yearDirPath jp d))))
       (stderr w) (launched w ++ [(e, entryPath jp d)]) (ticks w)).
Proof.
  intros Hyd Hp Hrm. unfold openEntry.
  unfold bind at 1. unfold os_path_exists at 1. cbv beta iota.
  assert (Hskip : rm && negb (exists_ (files w) (entryPath jp d)) = false).
  { destruct rm; [|reflexivity]. destruct (Hrm eq_refl) as [n Hn].
    unfold exists_. by rewrite Hn. }
  rewrite Hskip.
  pose proof (ensure_year_dir (yearDirPath jp d) w Hyd) as Hdir.
  unfold bind in Hdir |- *. 
  destruct (os_path_isdir (yearDirPath jp d) w) as [[is_dir| |] w0] eqn:E0;
    try discriminate Hdir.
  rewrite Hdir. cbn [negb]. unfold writeTimestamp_default.
  rewrite writeTimestamp_stamped.
  - cbn. rewrite lookup_with_dir by apply entryPath_not_yearDir.
    reflexivity.
  - cbn. by rewrite lookup_with_dir by apply entryPath_not_yearDir.
  - cbn [files set_files]. apply parent_of_entryPath, lookup_with_dir_eq.
Qed.

(** C8. A call of the timestamp writer that leaves [todayDatetime]
    out stamps the date and time read when the module was loaded.
    [openEntry] makes such a call: whatever the date [d] of the entry
    and whatever the clock says at the call (no reading is taken),
    the entry gets the stamp of the load time; and when [d] is not
    the load date, the date string written differs from [d]'s own. *)
Theorem C8_stamp_is_load_time (d : datetime) (e jp : string) (rm : bool)
        (w : world) :
  (forall c, files w !! yearDirPath jp d <> Some (File c)) ->
  files w !! entryPath jp d <> Some Dir ->
  (rm = true -> is_Some (files w !! entryPath jp d)) ->
  (forall q, writeTimestamp_default load_today q
             = writeTimestamp q load_today)
  /\ (exists w',
        open_entry d e jp true rm w = (Ok tt, w')
        /\ files w'
           = editor_run e (entryPath jp d)
               (<[entryPath jp d :=
                    File (stamped (files w !! entryPath jp d) load_today)]>
                  (with_dir (files w) (yearDirPath jp d)))
        /\ ticks w' = ticks w)
  /\ (valid d -> valid load_today -> ~ same_day d load_today ->
      strftime_date load_today <> strftime_date d).
Proof.
  intros Hyd Hp Hrm. split; [reflexivity|]. split.
  - eexists. split; [by apply openEntry_stamps|]. split; reflexivity.
  - intros Hd Hl Hne Heq. apply Hne.
    apply strftime_date_inj; [done | done | by symmetry].
Qed.

End DefaultArgument.

Lemma C8_stamp_is_load_time_witness :
  exists w',
    openEntry Sample.at_0900 Sample.idle_editor Sample.next_day "vim" "/j"
      true false (Sample.start {[ "/j" := Dir ]}) = (Ok tt, w')
    /\ files w' !! "/j/2024/2024-01-02.txt"
       = Some (File ("2024-01-01" +:+ nl +:+ "09:00" +:+ nl))
    /\ strftime_date Sample.at_0900 <> strftime_date Sample.next_day.
Proof.
  destruct (C8_stamp_is_load_time Sample.at_0900 Sample.idle_editor
              Sample.next_day "vim" "/j" false
              (Sample.start {[ "/j" := Dir ]}))
    as (_ & (w' & Hrun & Hfiles & _) & Hdiff).
  - intros c. vm_compute. discriminate.
  - vm_compute. discriminate.
  - discriminate.
  - exists w'. split; [exact Hrun|]. split.
    + rewrite Hfiles. vm_compute. reflexivity.
    + apply Hdiff.
      * vm_compute. repeat split; discriminate.
      * vm_compute. repeat split; discriminate.
      * intros (_ & _ & H). discriminate H.
Defined.

(* ===================================================================== *)
(** ** The calendar *)
(* ===================================================================== *)

Module Calendar.

Ltac bool_to_Z :=
  repeat match goal with
  | H : (_ && _) = true |- _ => apply andb_true_iff in H as [? ?]
  | H : (_ && _) = false |- _ => apply andb_false_iff in H as [? | ?]
  | H : (_ || _) = true |- _ => apply orb_true_iff in H as [? | ?]
  | H : (_ || _) = false |- _ => apply orb_false_iff in H as [? ?]
  | H : negb _ = true |- _ => apply negb_true_iff in H
  | H : negb _ = false |- _ => apply negb_false_iff in H
  | H : (_ =? _) = true |- _ => apply Z.eqb_eq in H
  | H : (_ =? _) = false |- _ => apply Z.eqb_neq in H
  | H : (_ >? _) = true |- _ => rewrite Z.gtb_ltb in H; apply Z.ltb_lt in H
  | H : (_ >? _) = false |- _ => rewrite Z.gtb_ltb in H; apply Z.ltb_ge in H
  | H : (_ <? _) = true |- _ => apply Z.ltb_lt in H
  | H : (_ <? _) = false |- _ => apply Z.ltb_ge in H
  | H : (_ <=? _) = true |- _ => apply Z.leb_le in H
  | H : (_ <=? _) = false |- _ => apply Z.leb_gt in H
  end.

Ltac split_ifs :=
  repeat match goal with
  | |- context [if ?b then _ else _] => destruct b eqn:?
  end.

Ltac eval_tables :=
  repeat match goal with
  | |- context [table ?t ?i] =>
      let v := eval vm_compute in (table t i) in
      progress change (table t i) with v
  end.

Lemma is_leap_spec (y : Z) :
  is_leap y = true <->
  y mod 4 = 0 /\ (y mod 100 <> 0 \/ y mod 400 = 0).
Proof.
  unfold is_leap.
  rewrite andb_true_iff, orb_true_iff, negb_true_iff, !Z.eqb_eq, Z.eqb_neq.
  reflexivity.
Qed.

Lemma table_before (m : Z) :
  1 <= m <= 12 ->
  table DAYS_BEFORE_MONTH m
  = match m with
    | 1 => 0 | 2 => 31 | 3 => 59 | 4 => 90 | 5 => 120 | 6 => 151
    | 7 => 181 | 8 => 212 | 9 => 243 | 10 => 273 | 11 => 304 | _ => 334
    end.
Proof.
  intros Hm.
  assert (H : m = 1 \/ m = 2 \/ m = 3 \/ m = 4 \/ m = 5 \/ m = 6 \/ m = 7
              \/ m = 8 \/ m = 9 \/ m = 10 \/ m = 11 \/ m = 12) by lia.
  repeat (destruct H as [-> | H]); try subst m; reflexivity.
Qed.

(** Names for the quotients and remainders [ord2ymd n] computes. *)
Ltac ord_setup n :=
  unfold ord2ymd; cbv zeta; unfold DI400Y, DI100Y, DI4Y;
  rewrite Z.shiftr_div_pow2 by lia; change (2 ^ 5) with 32;
  set (n0 := n - 1);
  pose proof (Z.div_mod n0 146097 ltac:(lia)) as E400;
  pose proof (Z.mod_pos_bound n0 146097 ltac:(lia)) as B400;
  set (q400 := n0 / 146097) in *; set (r400 := n0 mod 146097) in *;
  pose proof (Z.div_mod r400 36524 ltac:(lia)) as E100;
  pose proof (Z.mod_pos_bound r400 36524 ltac:(lia)) as B100;
  set (q100 := r400 / 36524) in *; set (r100 := r400 mod 36524) in *;
  pose proof (Z.div_mod r100 1461 ltac:(lia)) as E4;
  pose proof (Z.mod_pos_bound r100 1461 ltac:(lia)) as B4;
  set (q4 := r100 / 1461) in *; set (r4 := r100 mod 1461) in *;
  pose proof (Z.div_mod r4 365 ltac:(lia)) as E1;
  pose proof (Z.mod_pos_bound r4 365 ltac:(lia)) as B1;
  set (q1 := r4 / 365) in *; set (r1 := r4 mod 365) in *;
  assert (Hq100 : 0 <= q100 <= 4) by lia;
  assert (Hq4 : 0 <= q4 <= 24) by lia;
  assert (Hq1 : 0 <= q1 <= 4) by lia;
  pose proof (Z.div_mod (r1 + 50) 32 ltac:(lia)) as Em;
  pose proof (Z.mod_pos_bound (r1 + 50) 32 ltac:(lia)) as Bm;
  set (m := (r1 + 50) / 32) in *; set (rm := (r1 + 50) mod 32) in *;
  assert (Hm : 1 <= m <= 12) by lia;
  assert (Hn0 : n0 = n - 1) by reflexivity;
  clearbody n0 q400 r400 q100 r100 q4 r4 q1 r1 m rm;
  set (Y := q400 * 400 + 1 + q100 * 100 + q4 * 4 + q1);
  assert (HY : Y - 1 = 400 * q400 + 100 * q100 + 4 * q4 + q1)
    by (unfold Y; lia).

(** The date of a day number has that day number. *)
Lemma ymd2ord_ord2ymd (n : Z) :
  let '(y, m, d) := ord2ymd n in ymd2ord y m d = n.
Proof.
  ord_setup n.
  destruct ((q1 =? 4) || (q100 =? 4)) eqn:Eend.
  - unfold ymd2ord, days_before_year, days_before_month.
    eval_tables.
    assert (Hl : is_leap (Y - 1) = true).
    { apply is_leap_spec. bool_to_Z; Z.div_mod_to_equations; lia. }
    rewrite Hl. change ((12 >? 2) && true) with true. cbv iota.
    clear Hl. bool_to_Z.
    all: Z.div_mod_to_equations; lia.
  - bool_to_Z.
    assert (Hleap : is_leap Y = (q1 =? 3) && (negb (q4 =? 24) || (q100 =? 3))).
    { apply eq_true_iff_eq. rewrite is_leap_spec.
      rewrite andb_true_iff, orb_true_iff, negb_true_iff, !Z.eqb_eq, Z.eqb_neq.
      unfold Y. clear - Hq100 Hq4 Hq1 H H0. Z.div_mod_to_equations. lia. }
    rewrite <- Hleap. clear Hleap. fold Y.
    assert (Hmm : m = 1 \/ m = 2 \/ m = 3 \/ m = 4 \/ m = 5 \/ m = 6 \/ m = 7
              \/ m = 8 \/ m = 9 \/ m = 10 \/ m = 11 \/ m = 12) by lia.
    destruct (is_leap Y) eqn:El;
      repeat (destruct Hmm as [-> | Hmm]); try subst m;
      eval_tables; split_ifs; bool_to_Z; try lia;
      unfold ymd2ord, days_before_year, days_before_month;
      eval_tables; rewrite ?El; split_ifs; bool_to_Z; try lia;
      clear El; Z.div_mod_to_equations; lia.
Qed.

(** The date of a day number in range is a date of the calendar. *)
Lemma ord2ymd_valid (n : Z) :
  1 <= n <= MAXORDINAL ->
  let '(y, m, d) := ord2ymd n in
  MINYEAR <= y <= MAXYEAR /\ 1 <= m <= 12 /\ 1 <= d <= days_in_month y m.
Proof.
  unfold MAXORDINAL, MINYEAR, MAXYEAR. intros Hn.
  ord_setup n.
  assert (Hq400 : 0 <= q400 <= 24) by lia.
  destruct ((q1 =? 4) || (q100 =? 4)) eqn:Eend.
  - unfold days_in_month. eval_tables.
    change (12 =? 2) with false. cbn [andb].
    bool_to_Z; lia.
  - bool_to_Z.
    assert (Hleap : is_leap Y = (q1 =? 3) && (negb (q4 =? 24) || (q100 =? 3))).
    { apply eq_true_iff_eq. rewrite is_leap_spec.
      rewrite andb_true_iff, orb_true_iff, negb_true_iff, !Z.eqb_eq, Z.eqb_neq.
      unfold Y. clear - Hq100 Hq4 Hq1 H H0. Z.div_mod_to_equations. lia. }
    rewrite <- Hleap. clear Hleap. fold Y.
    assert (Hmm : m = 1 \/ m = 2 \/ m = 3 \/ m = 4 \/ m = 5 \/ m = 6 \/ m = 7
              \/ m = 8 \/ m = 9 \/ m = 10 \/ m = 11 \/ m = 12) by lia.
    destruct (is_leap Y) eqn:El;
      repeat (destruct Hmm as [-> | Hmm]); try subst m;
      eval_tables; split_ifs; bool_to_Z; try lia;
      unfold days_in_month; eval_tables; rewrite ?El;
      split_ifs; bool_to_Z; lia.
Qed.

(** Every date of the calendar has a day number in range. *)
Lemma ymd2ord_bounds (y m d : Z) :
  MINYEAR <= y <= MAXYEAR -> 1 <= m <= 12 -> 1 <= d <= days_in_month y m ->
  1 <= ymd2ord y m d <= MAXORDINAL.
Proof.
  unfold MINYEAR, MAXYEAR, MAXORDINAL. intros Hy Hm Hd.
  unfold ymd2ord, days_before_year, days_before_month.
  unfold days_in_month in Hd.
  assert (Hmm : m = 1 \/ m = 2 \/ m = 3 \/ m = 4 \/ m = 5 \/ m = 6 \/ m = 7
              \/ m = 8 \/ m = 9 \/ m = 10 \/ m = 11 \/ m = 12) by lia.
  destruct (is_leap y) eqn:El;
    [apply is_leap_spec in El
    | apply not_true_iff_false in El; rewrite is_leap_spec in El];
    repeat (destruct Hmm as [-> | Hmm]); try subst m;
    revert Hd; eval_tables; intros Hd;
    repeat match type of Hd with
           | context [table ?t ?i] =>
               let v := eval vm_compute in (table t i) in
               change (table t i) with v in Hd
           end;
    cbn [andb Z.eqb Z.gtb Z.compare Pos.compare Pos.compare_cont Pos.eqb] in *;
    Z.div_mod_to_equations; lia.
Qed.

Lemma toordinal_bounds (t : datetime) :
  valid t -> 1 <= toordinal t <= MAXORDINAL.
Proof. intros (Hy & Hm & Hd & _). by apply ymd2ord_bounds. Qed.

Lemma toordinal_on_day (n : Z) (t : datetime) : toordinal (on_day n t) = n.
Proof.
  unfold on_day, toordinal. pose proof (ymd2ord_ord2ymd n) as H.
  by destruct (ord2ymd n) as [[y m] d].
Qed.

Lemma valid_on_day (n : Z) (t : datetime) :
  valid t -> 1 <= n <= MAXORDINAL -> valid (on_day n t).
Proof.
  intros (_ & _ & _ & Ht) Hn. unfold on_day, valid.
  pose proof (ord2ymd_valid n Hn) as H.
  destruct (ord2ymd n) as [[y m] d]. cbn. tauto.
Qed.

(** Adding days within the calendar: the day number moves by that
    many days and the time of day stays. *)
Lemma add_days_in_range (t : datetime) (n : Z) :
  valid t -> 1 <= toordinal t + n <= MAXORDINAL ->
  add_days t n = Some (on_day (toordinal t + n) t).
Proof.
  intros Ht Hn. pose proof (toordinal_bounds t Ht) as Hb.
  unfold add_days, MAXORDINAL in *.
  destruct (Z.abs n >? 999999999) eqn:E; [bool_to_Z; lia|].
  destruct ((0 <? toordinal t + n) && (toordinal t + n <=? 3652059)) eqn:E';
    [reflexivity | bool_to_Z; lia].
Qed.

(** Adding days beyond the calendar overflows. *)
Lemma add_days_out_of_range (t : datetime) (n : Z) :
  ~ (1 <= toordinal t + n <= MAXORDINAL) -> add_days t n = None.
Proof.
  intros Hn. unfold add_days, MAXORDINAL in *.
  destruct (Z.abs n >? 999999999); [reflexivity|].
  destruct ((0 <? toordinal t + n) && (toordinal t + n <=? 3652059)) eqn:E';
    [bool_to_Z; lia | reflexivity].
Qed.

Lemma time_on_day (n : Z) (t : datetime) :
  hour (on_day n t) = hour t /\ minute (on_day n t) = minute t
  /\ second (on_day n t) = second t
  /\ microsecond (on_day n t) = microsecond t.
Proof. unfold on_day. by destruct (ord2ymd n) as [[y m] d]. Qed.

End Calendar.

(* ===================================================================== *)
(** ** Resolving the date specifiers *)
(* ===================================================================== *)

Section Resolve.
Import Calendar.

Variable py_int : string -> option Z.
Variable dateutil_parse : string -> parsed.
Variable clock : nat -> datetime.

Local Abbreviation resolve_ := (resolve py_int dateutil_parse clock).
Local Abbreviation parse_fuzzy_ := (parse_fuzzy dateutil_parse).
Local Abbreviation build_dates_ := (build_dates py_int dateutil_parse clock).

(** A specifier that is no integer goes to the fuzzy parser. *)
Lemma resolve_not_int (s : string) (w : world) :
  py_int s = None -> resolve_ s w = parse_fuzzy_ s w.
Proof.
  intros Hs. unfold resolve, try_except_ValueError, bind, int_.
  rewrite Hs. reflexivity.
Qed.

(** An integer above the limit goes to the fuzzy parser. *)
Lemma resolve_above_limit (s : string) (o : Z) (w : world) :
  py_int s = Some o -> o > 1000000 -> resolve_ s w = parse_fuzzy_ s w.
Proof.
  intros Hs Ho. unfold resolve, try_except_ValueError, bind, int_.
  rewrite Hs. cbn.
  destruct (o >? 1000000) eqn:E; [reflexivity | bool_to_Z; lia].
Qed.

(** An integer up to the limit is an offset from the current
    date-time. *)
Lemma resolve_offset (s : string) (o : Z) (w : world) :
  py_int s = Some o -> o <= 1000000 ->
  resolve_ s w
  = (match add_days (clock (ticks w)) o with
     | Some d => Ok d
     | None => Raise OverflowError
     end, ticked w).
Proof.
  intros Hs Ho.
  unfold resolve, try_except_ValueError, bind, int_, plus_days,
    datetime_today.
  rewrite Hs. cbn.
  destruct (o >? 1000000) eqn:E; [bool_to_Z; lia|]. cbn.
  destruct (add_days (clock (ticks w)) o); reflexivity.
Qed.

(** C2 (amended). A specifier that parses as an integer [o] is
    resolved as a day offset if and only if [o <= 1000000]; there is
    no lower limit.  The offset is added to the current date-time
    read at that moment: when the resulting day lies within the
    calendar (0001-01-01 to 9999-12-31) the result is that day, [o]
    days from today, at the same time of day; otherwise the overflow
    error propagates, without any fuzzy parsing.  An integer above
    1000000 goes to the fuzzy parser and the clock is not read. *)
Theorem C2_offset_resolution (s : string) (o : Z) (w : world) :
  py_int s = Some o ->
  (o > 1000000 -> resolve_ s w = parse_fuzzy_ s w)
  /\ (o <= 1000000 ->
      resolve_ s w
      = (match add_days (clock (ticks w)) o with
         | Some d => Ok d
         | None => Raise OverflowError
         end, ticked w))
  /\ (o <= 1000000 -> valid (clock (ticks w)) ->
      1 <= toordinal (clock (ticks w)) + o <= MAXORDINAL ->
      exists d,
        resolve_ s w = (Ok d, ticked w)
        /\ toordinal d = toordinal (clock (ticks w)) + o
        /\ hour d = hour (clock (ticks w))
        /\ minute d = minute (clock (ticks w))
        /\ second d = second (clock (ticks w))
        /\ microsecond d = microsecond (clock (ticks w))
        /\ valid d)
  /\ (o <= 1000000 ->
      ~ (1 <= toordinal (clock (ticks w)) + o <= MAXORDINAL) ->
      resolve_ s w = (Raise OverflowError, ticked w)).
Proof.
  intros Hs. split; [by apply resolve_above_limit|].
  split; [by apply resolve_offset|]. split.
  - intros Ho Hv Hr. eexists. rewrite (resolve_offset s o w Hs Ho).
    rewrite (add_days_in_range _ _ Hv Hr).
    split; [reflexivity|]. split; [apply toordinal_on_day|].
    destruct (time_on_day (toordinal (clock (ticks w)) + o) (clock (ticks w)))
      as (? & ? & ? & ?).
    repeat (split; [assumption|]). by apply valid_on_day.
  - intros Ho Hr. rewrite (resolve_offset s o w Hs Ho).
    by rewrite (add_days_out_of_range _ _ Hr).
Qed.

(** C6. With no date specifier the resolver reads the clock once and
    yields exactly one date: the current date-time when its hour has
    reached [hours_past_midnight_included_in_day], and the same time
    of day one day earlier when it has not. *)
Theorem C6_implicit_today (args : runtimeArgs) (configDict : config)
        (w : world) :
  dates args = [] ->
  (hours_past_midnight_included_in_day configDict <= hour (clock (ticks w)) ->
   build_dates_ args configDict w = (Ok [clock (ticks w)], ticked w))
  /\ (hour (clock (ticks w)) < hours_past_midnight_included_in_day configDict ->
      valid (clock (ticks w)) -> 1 < toordinal (clock (ticks w)) ->
      exists d,
        build_dates_ args configDict w = (Ok [d], ticked w)
        /\ toordinal d = toordinal (clock (ticks w)) - 1
        /\ hour d = hour (clock (ticks w))
        /\ minute d = minute (clock (ticks w))
        /\ valid d).
Proof.
  intros Hd. unfold build_dates. rewrite Hd. cbn [truthy].
  unfold bind, datetime_today, plus_days. split.
  - intros Hh.
    destruct (hour (clock (ticks w)) <? _) eqn:E; [bool_to_Z; lia|].
    reflexivity.
  - intros Hh Hv Ho.
    destruct (hour (clock (ticks w)) <? _) eqn:E; [|bool_to_Z; lia].
    pose proof (toordinal_bounds _ Hv) as Hb.
    assert (Hr : 1 <= toordinal (clock (ticks w)) + -1 <= MAXORDINAL) by lia.
    rewrite (add_days_in_range _ _ Hv Hr). eexists.
    split; [reflexivity|].
    split; [rewrite toordinal_on_day; lia|].
    destruct (time_on_day (toordinal (clock (ticks w)) + -1)
                (clock (ticks w))) as (? & ? & _).
    repeat (split; [assumption|]). by apply valid_on_day.
Qed.

End Resolve.

Lemma C2_offset_resolution_witness :
  exists d,
    resolve Sample.int Sample.no_fuzzy (Sample.still Sample.at_0900) "-1"
      (Sample.start ∅) = (Ok d, ticked (Sample.start ∅))
    /\ toordinal d = toordinal Sample.at_0900 + -1
    /\ hour d = 9 /\ minute d = 0.
Proof.
  destruct (C2_offset_resolution Sample.int Sample.no_fuzzy
              (Sample.still Sample.at_0900) "-1" (-1) (Sample.start ∅))
    as (_ & _ & H & _); [reflexivity|].
  destruct H as (d & Hrun & Hord & Hh & Hm & _).
  - lia.
  - vm_compute. repeat split; discriminate.
  - vm_compute. split; discriminate.
  - exists d. repeat split; assumption.
Defined.

(** C2, as stated, fails below -1000000: ["-2000000"] is an integer of
    magnitude above the limit, yet it is taken as an offset and never
    reaches the fuzzy parser.  On 2024-01-01 the offset leaves the
    calendar and the overflow error propagates; on 9999-12-31 it
    yields the day 2000000 days earlier.  And within the limit,
    ["-1000000"] on 2024-01-01 yields no date at all. *)
Lemma C2_counterexample :
  Sample.int "-2000000" = Some (-2000000)
  /\ Z.abs (-2000000) > 1000000
  /\ parse_fuzzy Sample.no_fuzzy "-2000000" (Sample.start ∅)
     = (Raise ParserError, Sample.start ∅)
  /\ resolve Sample.int Sample.no_fuzzy (Sample.still Sample.at_0900)
       "-2000000" (Sample.start ∅)
     = (Raise OverflowError, ticked (Sample.start ∅))
  /\ resolve Sample.int Sample.no_fuzzy (Sample.still Sample.last_day)
       "-2000000" (Sample.start ∅)
     = (Ok (mkDatetime 4524 3 8 23 59 0 0), ticked (Sample.start ∅))
  /\ Sample.int "-1000000" = Some (-1000000)
  /\ Z.abs (-1000000) <= 1000000
  /\ resolve Sample.int Sample.no_fuzzy (Sample.still Sample.at_0900)
       "-1000000" (Sample.start ∅)
     = (Raise OverflowError, ticked (Sample.start ∅)).
Proof. repeat split; try (vm_compute; reflexivity); lia. Qed.

Lemma C6_implicit_today_witness :
  build_dates Sample.int Sample.no_fuzzy (Sample.still Sample.next_day)
    (mkArgs [] false false) Sample.cfg (Sample.start ∅)
  = (Ok [Sample.next_day], ticked (Sample.start ∅))
  /\ exists d,
       build_dates Sample.int Sample.no_fuzzy (Sample.still Sample.late_night)
         (mkArgs [] false false) Sample.cfg (Sample.start ∅)
       = (Ok [d], ticked (Sample.start ∅))
       /\ toordinal d = toordinal Sample.late_night - 1
       /\ hour d = 2 /\ minute d = 15.
Proof.
  split.
  - apply (C6_implicit_today Sample.int Sample.no_fuzzy
             (Sample.still Sample.next_day) (mkArgs [] false false)
             Sample.cfg (Sample.start ∅)); [reflexivity|].
    vm_compute. discriminate.
  - destruct (C6_implicit_today Sample.int Sample.no_fuzzy
                (Sample.still Sample.late_night) (mkArgs [] false false)
                Sample.cfg (Sample.start ∅)) as [_ H]; [reflexivity|].
    destruct H as (d & Hrun & Hord & Hh & Hm & _).
    + vm_compute. reflexivity.
    + vm_compute. repeat split; discriminate.
    + vm_compute. reflexivity.
    + exists d. repeat split; assumption.
Defined.

(* ===================================================================== *)
(** ** The whole run *)
(* ===================================================================== *)

Section Monad.

Context {A B : Type}.

Lemma bind_ok (c : M A) (k : A -> M B) (w w' : world) (a : A) :
  c w = (Ok a, w') -> bind c k w = k a w'.
Proof. intros H. unfold bind. by rewrite H. Qed.

Lemma bind_raise (c : M A) (k : A -> M B) (w w' : world) (e : exn) :
  c w = (Raise e, w') -> bind c k w = (Raise e, w').
Proof. intros H. unfold bind. by rewrite H. Qed.

Lemma bind_exit (c : M A) (k : A -> M B) (w w' : world) (n : Z) :
  c w = (Exit n, w') -> bind c k w = (Exit n, w').
Proof. intros H. unfold bind. by rewrite H. Qed.

Lemma never_exits_bind (c : M A) (k : A -> M B) :
  never_exits c -> (forall a, never_exits (k a)) -> never_exits (bind c k).
Proof.
  intros Hc Hk w code w' H. unfold bind in H.
  destruct (c w) as [[a|e|n] w1] eqn:E.
  - by apply (Hk a w1 code w').
  - discriminate H.
  - by apply (Hc w n w1).
Qed.

End Monad.

Lemma never_exits_for_each {A : Type} (xs : list A) (body : A -> M unit) :
  (forall x, never_exits (body x)) -> never_exits (for_each xs body).
Proof.
  intros Hb. induction xs as [|x xs IH]; cbn [for_each].
  - intros w code w' H. discriminate H.
  - apply never_exits_bind; [apply Hb | intros _; apply IH].
Qed.

(** The loop over a list is the loop over its first part followed, if
    that part went through, by the loop over the rest. *)
Lemma for_each_app {A : Type} (xs ys : list A) (body : A -> M unit)
      (w : world) :
  for_each (xs ++ ys) body w
  = match for_each xs body w with
    | (Ok _, w1) => for_each ys body w1
    | (Raise e, w1) => (Raise e, w1)
    | (Exit n, w1) => (Exit n, w1)
    end.
Proof.
  revert w. induction xs as [|x xs IH]; intros w; [reflexivity|].
  cbn [app for_each]. unfold bind.
  destruct (body x w) as [[[]|e|n] w1]; [apply IH | reflexivity..].
Qed.

Ltac no_exit_prim :=
  let w := fresh "w" in let code := fresh "code" in
  let w' := fresh "w'" in let H := fresh "H" in
  intros w code w' H;
  repeat match type of H with
         | context [match ?x with _ => _ end] => destruct x
         end;
  discriminate H.

Lemma never_exits_writeTimestamp (p : string) (t : datetime) :
  never_exits (writeTimestamp p t).
Proof.
  unfold writeTimestamp. apply never_exits_bind.
  - unfold os_path_isfile. no_exit_prim.
  - intros is_file. destruct (negb is_file).
    + unfold open_x_write, create_file. no_exit_prim.
    + apply never_exits_bind; [unfold open_read; no_exit_prim|].
      intros txt. unfold open_a_write, create_file. no_exit_prim.
Qed.

Section Run.
Import Calendar.

Variable py_int : string -> option Z.
Variable dateutil_parse : string -> parsed.
Variable clock : nat -> datetime.
Variable load_today : datetime.
Variable editor_run : string -> string -> gmap string node -> gmap string node.
Variable isProgramAvailable : string -> bool.
Variable prompt : string -> bool.
Variable getConfig : option config.

Local Abbreviation resolve_ := (resolve py_int dateutil_parse clock).
Local Abbreviation resolve_all_ := (resolve_all py_int dateutil_parse clock).
Local Abbreviation build_dates_ := (build_dates py_int dateutil_parse clock).
Local Abbreviation open_entry := (openEntry load_today editor_run).
Local Abbreviation choose_editor_ := (choose_editor isProgramAvailable).
Local Abbreviation ensure_root_ := (ensure_root prompt).
Local Abbreviation main_ :=
  (main py_int dateutil_parse clock load_today editor_run
        isProgramAvailable prompt getConfig).

Lemma never_exits_openEntry (d : datetime) (e jp : string) (ts rm : bool) :
  never_exits (open_entry d e jp ts rm).
Proof.
  unfold openEntry. apply never_exits_bind.
  - unfold os_path_exists. no_exit_prim.
  - intros there. destruct (rm && negb there).
    + unfold print_err. no_exit_prim.
    + apply never_exits_bind; [unfold os_path_isdir; no_exit_prim|].
      intros is_dir. apply never_exits_bind.
      { destruct (negb is_dir); [unfold os_makedirs | unfold ret];
          no_exit_prim. }
      intros _. apply never_exits_bind.
      { destruct ts; [apply never_exits_writeTimestamp|].
        unfold ret. no_exit_prim. }
      intros _. unfold popen_wait. no_exit_prim.
Qed.

(** What resolving one specifier can do: a date, or a failure of one
    of three kinds; nothing but the clock is touched. *)
Lemma resolve_cases (s : string) (w : world) :
  exists r w',
    resolve_ s w = (r, w') /\ quiet w w'
    /\ ((exists d, r = Ok d)
        \/ (exists e, r = Raise e
                      /\ fails_with py_int dateutil_parse
                           (clock (ticks w)) s e)).
Proof.
  assert (Hfuzzy : (forall o, py_int s = Some o -> o > 1000000) ->
            exists r w',
              parse_fuzzy dateutil_parse s w = (r, w') /\ quiet w w'
              /\ ((exists d, r = Ok d)
                  \/ (exists e, r = Raise e
                                /\ fails_with py_int dateutil_parse
                                     (clock (ticks w)) s e))).
  { intros Hleft. unfold parse_fuzzy.
    destruct (dateutil_parse s) as [d| |] eqn:Hp;
      eexists _, _; (split; [reflexivity|]); (split; [done|]).
    - left. by exists d.
    - right. exists ParserError. split; [reflexivity|]. left.
      split; [exact Hleft|]. left. by rewrite Hp.
    - right. exists OverflowError. split; [reflexivity|]. left.
      split; [exact Hleft|]. right. by rewrite Hp. }
  destruct (py_int s) as [o|] eqn:Hs.
  - destruct (Z_le_gt_dec o 1000000) as [Ho|Ho].
    + rewrite (resolve_offset _ _ _ s o w Hs Ho).
      eexists _, _. split; [reflexivity|]. split; [done|].
      destruct (add_days _ _) as [d|] eqn:Ha; [left; by exists d|].
      right. exists OverflowError. split; [reflexivity|]. right.
      exists o. by repeat split.
    + rewrite (resolve_above_limit _ _ _ s o w Hs Ho).
      apply Hfuzzy. intros o' Ho'. congruence.
  - rewrite (resolve_not_int _ _ _ s w Hs).
    apply Hfuzzy. intros o' Ho'. congruence.
Qed.

Lemma quiet_trans (w1 w2 w3 : world) :
  quiet w1 w2 -> quiet w2 w3 -> quiet w1 w3.
Proof. unfold quiet. intros (? & ? & ?) (? & ? & ?). repeat split; congruence. Qed.

(** A specifier left to the fuzzy parser and not parsed never
    resolves. *)
Lemma unparseable_fails (s : string) (w : world) :
  unparseable py_int dateutil_parse s ->
  exists e, resolve_ s w = (Raise e, w).
Proof.
  intros [Hi Hp].
  assert (Hf : exists e, parse_fuzzy dateutil_parse s w = (Raise e, w)).
  { unfold parse_fuzzy. destruct (dateutil_parse s) as [d| |] eqn:E.
    - by destruct (Hp d).
    - by eexists.
    - by eexists. }
  destruct (py_int s) as [o|] eqn:Hs.
  - by rewrite (resolve_above_limit _ _ _ s o w Hs (Hi o eq_refl)).
  - by rewrite (resolve_not_int _ _ _ s w Hs).
Qed.

(** Resolving a list of specifiers: all resolve, or the first one that
    fails to resolve ends the loop with its exception, those before it
    having resolved; in both cases nothing but the clock is touched,
    and a list with an unparseable specifier never resolves. *)
Lemma resolve_all_cases (specs : list string) :
  forall (acc : list datetime) (w : world),
  exists r w',
    resolve_all_ specs acc w = (r, w') /\ quiet w w'
    /\ ((exists ds, r = Ok ds
         /\ forall s, In s specs -> ~ unparseable py_int dateutil_parse s)
        \/ (exists e pre s0 post ds w1,
              r = Raise e
              /\ specs = pre ++ s0 :: post
              /\ resolve_all_ pre acc w = (Ok ds, w1)
              /\ resolve_ s0 w1 = (Raise e, w')
              /\ fails_with py_int dateutil_parse (clock (ticks w1)) s0 e
              /\ forall s, In s pre
                           -> ~ unparseable py_int dateutil_parse s)).
Proof.
  induction specs as [|s specs IH]; intros acc w; cbn [resolve_all].
  - eexists _, _. split; [reflexivity|]. split; [done|]. left.
    eexists. split; [reflexivity|]. intros s [].
  - destruct (resolve_cases s w) as (r & w1 & Hr & Hq & Hc).
    assert (Hgood : forall d, r = Ok d ->
              ~ unparseable py_int dateutil_parse s).
    { intros d -> Hu. destruct (unparseable_fails s w Hu) as [e He].
      rewrite He in Hr. discriminate Hr. }
    destruct Hc as [[d ->] | (e & -> & Hf)].
    + rewrite (bind_ok _ _ _ _ _ Hr).
      destruct (IH (acc ++ [d]) w1) as (r' & w' & Hr' & Hq' & Hc').
      exists r', w'. split; [exact Hr'|].
      split; [by apply (quiet_trans w w1 w')|].
      destruct Hc' as [(ds & -> & Hall)
                      | (e & pre & s0 & post & ds & w2 & -> & -> & Hpre
                         & Hs0 & Hf & Hall)].
      * left. eexists. split; [reflexivity|]. intros s' [<- | Hin].
        -- by apply (Hgood d).
        -- by apply Hall.
      * right. exists e, (s :: pre), s0, post, ds, w2.
        split; [reflexivity|]. split; [reflexivity|].
        split; [cbn [resolve_all]; by rewrite (bind_ok _ _ _ _ _ Hr)|].
        split; [exact Hs0|]. split; [exact Hf|].
        intros s' [<- | Hin]; [by apply (Hgood d) | by apply Hall].
    + rewrite (bind_raise _ _ _ _ _ Hr).
      eexists _, _. split; [reflexivity|]. split; [done|]. right.
      exists e, [], s, specs, acc, w.
      split; [reflexivity|]. split; [reflexivity|].
      split; [reflexivity|]. split; [exact Hr|]. split; [exact Hf|].
      intros s' [].
Qed.

Lemma never_exits_resolve (s : string) : never_exits (resolve_ s).
Proof.
  intros w code w' H. destruct (resolve_cases s w) as (r & w1 & Hr & _ & Hc).
  rewrite Hr in H.
  destruct Hc as [[d ->] | (e & -> & _)]; discriminate H.
Qed.

Lemma never_exits_build_dates (args : runtimeArgs) (configDict : config) :
  never_exits (build_dates_ args configDict).
Proof.
  unfold build_dates. destruct (truthy (dates args)).
  - intros w code w' H.
    destruct (resolve_all_cases (dates args) [] w) as (r & w1 & Hr & _ & Hc).
    rewrite Hr in H.
    destruct Hc as [(ds & -> & _) | (e & ? & ? & ? & ? & ? & -> & _)];
      discriminate H.
  - apply never_exits_bind; [unfold datetime_today; no_exit_prim|].
    intros today. apply never_exits_bind; [|intros; unfold ret; no_exit_prim].
    destruct (_ <? _); [unfold plus_days | unfold ret]; no_exit_prim.
Qed.

(** The editor chosen at start-up, when there is one; the world is
    left as it was. *)
Lemma choose_editor_available (configDict : config) (w : world) :
  isProgramAvailable (editor configDict) = true
  \/ isProgramAvailable "sensible-editor" = true ->
  exists e, choose_editor_ configDict w = (Ok e, w).
Proof.
  intros H. unfold choose_editor.
  destruct (isProgramAvailable (editor configDict)); [by eexists|].
  destruct H as [H | ->]; [discriminate H | by eexists].
Qed.

Lemma choose_editor_chosen (configDict : config) (w : world) :
  isProgramAvailable (editor configDict) = true
  \/ isProgramAvailable "sensible-editor" = true ->
  choose_editor_ configDict w
  = (Ok (chosen_editor isProgramAvailable configDict), w).
Proof.
  intros H. unfold choose_editor, chosen_editor.
  destruct (isProgramAvailable (editor configDict)); [reflexivity|].
  by destruct H as [H | ->]; [discriminate H|].
Qed.

Lemma choose_editor_unavailable (configDict : config) (w : world) :
  isProgramAvailable (editor configDict) = false ->
  isProgramAvailable "sensible-editor" = false ->
  choose_editor_ configDict w
  = (Exit 1, said (editor configDict +:+ " not available!") w).
Proof. intros H1 H2. unfold choose_editor. by rewrite H1, H2. Qed.

(** What making sure of the journal root can do. *)
Lemma ensure_root_cases (configDict : config) (w : world) :
  (ensure_root_ configDict w = (Ok tt, w)
   /\ isdir (files w) (journal_path configDict) = true)
  \/ (ensure_root_ configDict w
      = (Ok tt, set_files (<[journal_path configDict := Dir]> (files w)) w)
      /\ files w !! journal_path configDict = None)
  \/ (ensure_root_ configDict w = (Exit 0, w)
      /\ isdir (files w) (journal_path configDict) = false
      /\ prompt (("Create '" +:+ journal_path configDict) +:+ "'?") = false)
  \/ ensure_root_ configDict w = (Raise FileExistsError, w).
Proof.
  unfold ensure_root, bind, os_path_isdir, os_makedirs, isdir, sys_exit.
  destruct (files w !! journal_path configDict) as [[c|]|] eqn:E; cbn.
  - destruct (prompt _) eqn:Ep; rewrite ?E.
    + by do 3 right.
    + right. right. left. by repeat split.
  - by left.
  - destruct (prompt _) eqn:Ep; rewrite ?E.
    + right. left. by repeat split.
    + right. right. left. by repeat split.
Qed.

(** C7. A run of [main] that is past start-up (configuration found,
    editor chosen, journal root there or just created) and has its
    dates opens each of them, in order, and then exits; it opens them
    in read mode exactly when at least one date specifier was given.
    In read mode, when the loop reaches a date whose entry is not
    there, opening it writes ["<path> does not exist!"] to the error
    stream and returns: the file store is untouched (no file, no
    directory), no editor is launched, and the run goes on with the
    remaining dates. *)
Theorem C7_read_mode_skips_missing (args : runtimeArgs) (configDict : config)
        (ds pre post : list datetime) (d : datetime) (w w1 w2 w3 : world) :
  getConfig = Some configDict ->
  (isProgramAvailable (editor configDict) = true
   \/ isProgramAvailable "sensible-editor" = true) ->
  ensure_root_ configDict w = (Ok tt, w1) ->
  build_dates_ args configDict w1 = (Ok ds, w2) ->
  let visit := fun (inreadmode : bool) (date : datetime) =>
    open_entry date (chosen_editor isProgramAvailable configDict)
               (journal_path configDict) (writetimestamp args configDict)
               inreadmode in
  (dates args = [] ->
   main_ args w = bind (for_each ds (visit false)) (fun _ => sys_exit 0) w2)
  /\ (dates args <> [] ->
      main_ args w = bind (for_each ds (visit true)) (fun _ => sys_exit 0) w2
      /\ (ds = pre ++ d :: post ->
          for_each pre (visit true) w2 = (Ok tt, w3) ->
          files w3 !! entryPath (journal_path configDict) d = None ->
          exists w4,
            visit true d w3 = (Ok tt, w4)
            /\ stderr w4
               = stderr w3 +:+ entryPath (journal_path configDict) d
                 +:+ " does not exist!" +:+ nl
            /\ files w4 = files w3
            /\ launched w4 = launched w3
            /\ main_ args w
               = bind (for_each post (visit true)) (fun _ => sys_exit 0) w4)).
Proof.
  intros Hcfg Hed Hroot Hbuild visit. subst visit. cbv beta.
  assert (Hmain : main_ args w
            = bind (for_each ds
                      (fun date =>
                         open_entry date
                           (chosen_editor isProgramAvailable configDict)
                           (journal_path configDict)
                           (writetimestamp args configDict) (readmode args)))
                   (fun _ => sys_exit 0) w2).
  { unfold main. rewrite Hcfg.
    rewrite (bind_ok _ _ _ _ _ (choose_editor_chosen configDict w Hed)).
    rewrite (bind_ok _ _ _ _ _ Hroot).
    by rewrite (bind_ok _ _ _ _ _ Hbuild). }
  split.
  - intros Hnone. rewrite Hmain. unfold readmode. by rewrite Hnone.
  - intros Hsome.
    assert (Hrm : readmode args = true).
    { unfold readmode. by destruct (dates args). }
    rewrite Hrm in Hmain. split; [exact Hmain|].
    intros -> Hpre Hmiss.
    pose proof (openEntry_missing_readmode load_today editor_run d
                  (chosen_editor isProgramAvailable configDict)
                  (journal_path configDict) (writetimestamp args configDict)
                  w3 Hmiss) as Hopen.
    eexists. split; [exact Hopen|].
    split; [cbn; by rewrite !PyStrFacts.app_assoc|].
    split; [reflexivity|]. split; [reflexivity|].
    rewrite Hmain. unfold bind at 1. rewrite for_each_app, Hpre.
    cbn [for_each]. by rewrite (bind_ok _ _ _ _ _ Hopen).
Qed.

(** C9 (amended). When the list of specifiers contains a string that
    is left to the fuzzy parser (no integer, or an integer above
    1000000) and that the fuzzy parser does not parse, a run that is
    past start-up (configuration found, editor chosen, journal root
    there or just created) aborts with the exception of the first
    specifier of the list that fails to resolve.  That specifier is the
    string itself or one before it, all those before it having
    resolved; its exception is the parse error when the fuzzy parser
    finds no date in it, and the overflow error when the fuzzy parser
    finds too large a number in it or when it is an offset whose day
    leaves the calendar.  No entry is processed: the file store is as
    start-up left it (no year directory, no timestamp), nothing is
    written to the error stream and no editor is launched. *)
Theorem C9_unparseable_aborts (args : runtimeArgs) (configDict : config)
        (s : string) (w w1 : world) :
  getConfig = Some configDict ->
  (isProgramAvailable (editor configDict) = true
   \/ isProgramAvailable "sensible-editor" = true) ->
  ensure_root_ configDict w = (Ok tt, w1) ->
  In s (dates args) ->
  unparseable py_int dateutil_parse s ->
  exists e pre s0 post ds w1' w2,
    main_ args w = (Raise e, w2)
    /\ dates args = pre ++ s0 :: post
    /\ ~ In s pre
    /\ resolve_all_ pre [] w1 = (Ok ds, w1')
    /\ resolve_ s0 w1' = (Raise e, w2)
    /\ fails_with py_int dateutil_parse (clock (ticks w1')) s0 e
    /\ (e = ParserError \/ e = OverflowError)
    /\ files w2 = files w1
    /\ stderr w2 = stderr w
    /\ launched w2 = launched w.
Proof.
  intros Hcfg Hed Hroot Hin Hbad. unfold main. rewrite Hcfg.
  destruct (choose_editor_available configDict w Hed) as [e He].
  rewrite (bind_ok _ _ _ _ _ He), (bind_ok _ _ _ _ _ Hroot).
  assert (Hw1 : stderr w1 = stderr w /\ launched w1 = launched w).
  { destruct (ensure_root_cases configDict w)
      as [[H _] | [[H _] | [[H _] | H]]];
      rewrite H in Hroot; try discriminate Hroot;
      injection Hroot as <-; cbn; auto. }
  destruct Hw1 as (Hs1 & Hl1).
  assert (Htr : truthy (dates args) = true)
    by (destruct (dates args); [destruct Hin | reflexivity]).
  destruct (resolve_all_cases (dates args) [] w1)
    as (r & w2 & Hr & (Hqf & Hqs & Hql) & Hc).
  assert (Hb : build_dates_ args configDict w1 = (r, w2))
    by (unfold build_dates; by rewrite Htr).
  destruct Hc as [(ds & -> & Hall)
                 | (e' & pre & s0 & post & ds & w1' & -> & Hsplit & Hpre
                    & Hs0 & Hf & Hall)].
  - destruct (Hall s Hin Hbad).
  - rewrite (bind_raise _ _ _ _ _ Hb).
    exists e', pre, s0, post, ds, w1', w2.
    split; [reflexivity|]. split; [exact Hsplit|].
    split; [intros Hp; by apply (Hall s Hp)|].
    split; [exact Hpre|]. split; [exact Hs0|]. split; [exact Hf|].
    split.
    { destruct Hf as [[_ [[_ ->] | [_ ->]]] | (o & _ & _ & _ & ->)]; auto. }
    repeat split; congruence.
Qed.

(** Once start-up is over, the run ends with [sys.exit(0)] unless an
    exception aborts it. *)
Lemma entries_cases (args : runtimeArgs) (c : config) (e : string)
      (w1 : world) :
  let rest :=
    bind (build_dates_ args c)
      (fun dates_ =>
         bind (for_each dates_
                 (fun date =>
                    open_entry date e (journal_path c)
                               (writetimestamp args c) (readmode args)))
              (fun _ => sys_exit (A := unit) 0)) in
  (exists w', rest w1 = (Exit 0, w'))
  \/ (exists e' w', rest w1 = (Raise e', w')).
Proof.
  cbv zeta.
  destruct (build_dates_ args c w1) as [[ds|e'|n] w2] eqn:Eb.
  - rewrite (bind_ok _ _ _ _ _ Eb).
    destruct (for_each ds
                (fun date =>
                   open_entry date e (journal_path c)
                              (writetimestamp args c) (readmode args)) w2)
      as [[[]|e'|n] w3] eqn:Ef.
    + rewrite (bind_ok _ _ _ _ _ Ef). left. by eexists.
    + rewrite (bind_raise _ _ _ _ _ Ef). right. by eexists _, _.
    + exfalso. revert Ef. apply never_exits_for_each. intros x.
      apply never_exits_openEntry.
  - rewrite (bind_raise _ _ _ _ _ Eb). right. by eexists _, _.
  - by destruct (never_exits_build_dates args c _ _ _ Eb).
Qed.

(** C10 (amended). The process ends with status 1 exactly when no
    configuration is found, or neither the configured editor nor
    ["sensible-editor"] is available, or an exception that nothing
    catches ends the run.  [main] itself calls [sys.exit(1)] exactly
    in the first two cases, and then no date has been processed: the
    file store, the editor runs and the clock are untouched.  When the
    journal root is missing and the user declines to create it, [main]
    ends with [sys.exit(0)] and the world is as it was.  The status is
    0 exactly when [main] ends with [sys.exit(0)]; [main] never simply
    returns and never exits with another status. *)
Theorem C10_exit_status (args : runtimeArgs) (w : world) :
  (exit_status (main_ args w).1 = 1 <->
   getConfig = None
   \/ (exists configDict,
         getConfig = Some configDict
         /\ isProgramAvailable (editor configDict) = false
         /\ isProgramAvailable "sensible-editor" = false)
   \/ exists e, (main_ args w).1 = Raise e)
  /\ ((main_ args w).1 = Exit 1 <->
      getConfig = None
      \/ exists configDict,
           getConfig = Some configDict
           /\ isProgramAvailable (editor configDict) = false
           /\ isProgramAvailable "sensible-editor" = false)
  /\ ((main_ args w).1 = Exit 1 ->
      files (main_ args w).2 = files w
      /\ launched (main_ args w).2 = launched w
      /\ ticks (main_ args w).2 = ticks w)
  /\ (forall configDict,
        getConfig = Some configDict ->
        (isProgramAvailable (editor configDict) = true
         \/ isProgramAvailable "sensible-editor" = true) ->
        isdir (files w) (journal_path configDict) = false ->
        prompt (("Create '" +:+ journal_path configDict) +:+ "'?") = false ->
        main_ args w = (Exit 0, w))
  /\ (exit_status (main_ args w).1 = 0 <-> (main_ args w).1 = Exit 0)
  /\ (forall code, (main_ args w).1 = Exit code -> code = 0 \/ code = 1)
  /\ (forall a, (main_ args w).1 <> Ok a).
Proof.
  assert (Hnone : getConfig = None ->
            main_ args w = (Exit 1, said "No config file found!" w)).
  { intros H. unfold main. by rewrite H. }
  assert (Hunav : forall c, getConfig = Some c ->
            isProgramAvailable (editor c) = false ->
            isProgramAvailable "sensible-editor" = false ->
            main_ args w = (Exit 1, said (editor c +:+ " not available!") w)).
  { intros c H H1 H2. unfold main. rewrite H.
    by rewrite (bind_exit _ _ _ _ _ (choose_editor_unavailable c w H1 H2)). }
  assert (Hav : forall c, getConfig = Some c ->
            (isProgramAvailable (editor c) = true
             \/ isProgramAvailable "sensible-editor" = true) ->
            (exists w', main_ args w = (Exit 0, w'))
            \/ (exists e w', main_ args w = (Raise e, w'))).
  { intros c H Hed. unfold main. rewrite H.
    destruct (choose_editor_available c w Hed) as [e He].
    rewrite (bind_ok _ _ _ _ _ He).
    destruct (ensure_root_cases c w) as [[Hr _] | [[Hr _] | [[Hr _] | Hr]]].
    4: { rewrite (bind_raise _ _ _ _ _ Hr). right. by eexists _, _. }
    3: { rewrite (bind_exit _ _ _ _ _ Hr). left. by eexists. }
    all: rewrite (bind_ok _ _ _ _ _ Hr); apply entries_cases. }
  assert (Hcases : forall c, getConfig = Some c ->
            isProgramAvailable (editor c) = false
            /\ isProgramAvailable "sensible-editor" = false
            \/ isProgramAvailable (editor c) = true
            \/ isProgramAvailable "sensible-editor" = true).
  { intros c _. destruct (isProgramAvailable (editor c));
      destruct (isProgramAvailable "sensible-editor"); auto. }
  assert (Hone : (main_ args w).1 = Exit 1 <->
            getConfig = None
            \/ exists configDict,
                 getConfig = Some configDict
                 /\ isProgramAvailable (editor configDict) = false
                 /\ isProgramAvailable "sensible-editor" = false).
  { split.
    - intros H1. destruct getConfig as [c|] eqn:Hc; [|by left].
      right. exists c. split; [reflexivity|].
      destruct (Hcases c eq_refl) as [Hu | Ha]; [exact Hu|].
      destruct (Hav c eq_refl Ha) as [[w' H] | (e & w' & H)];
        rewrite H in H1; discriminate H1.
    - intros [H | (c & H & H1 & H2)].
      + by rewrite (Hnone H).
      + by rewrite (Hunav c H H1 H2). }
  assert (Hshape : (main_ args w).1 = Exit 1 \/ (main_ args w).1 = Exit 0
                   \/ exists e, (main_ args w).1 = Raise e).
  { destruct getConfig as [c|] eqn:Hc.
    - destruct (Hcases c eq_refl) as [[H2 H3] | Ha].
      + left. by rewrite (Hunav c eq_refl H2 H3).
      + destruct (Hav c eq_refl Ha) as [[w' H] | (e & w' & H)]; rewrite H.
        * right. by left.
        * right. right. by exists e.
    - left. by rewrite (Hnone eq_refl). }
  split.
  { split.
    - intros H1. destruct Hshape as [H | [H | [e H]]].
      + apply Hone in H. destruct H as [H | H]; auto.
      + rewrite H in H1. discriminate H1.
      + right. right. by exists e.
    - intros [H | [H | [e H]]].
      + assert (H1 : (main_ args w).1 = Exit 1) by (apply Hone; by left).
        by rewrite H1.
      + assert (H1 : (main_ args w).1 = Exit 1) by (apply Hone; by right).
        by rewrite H1.
      + by rewrite H. }
  split; [exact Hone|].
  split.
  { intros H1. destruct getConfig as [c|] eqn:Hc.
    - destruct (Hcases c eq_refl) as [[H2 H3] | Ha].
      + by rewrite (Hunav c eq_refl H2 H3).
      + destruct (Hav c eq_refl Ha) as [[w' H] | (e & w' & H)];
          rewrite H in H1; discriminate H1.
    - by rewrite (Hnone eq_refl). }
  split.
  { intros c Hc Hed Hdir Hno. unfold main. rewrite Hc.
    destruct (choose_editor_available c w Hed) as [e He].
    rewrite (bind_ok _ _ _ _ _ He).
    apply bind_exit. unfold ensure_root, bind, os_path_isdir.
    by rewrite Hdir, Hno. }
  split.
  { split.
    - intros H0. destruct Hshape as [H | [H | [e H]]];
        [rewrite H in H0; discriminate H0 | exact H
        | rewrite H in H0; discriminate H0].
    - intros H. by rewrite H. }
  split.
  { intros code H1. destruct Hshape as [H | [H | [e H]]];
      rewrite H in H1; [injection H1 as <-; by right
                       | injection H1 as <-; by left | discriminate H1]. }
  intros a H1. destruct Hshape as [H | [H | [e H]]];
    rewrite H in H1; discriminate H1.
Qed.

End Run.
Lemma C7_read_mode_skips_missing_witness :
  main Sample.int Sample.no_fuzzy (Sample.still Sample.at_0900)
    Sample.at_0900 Sample.idle_editor (Sample.always true)
    (Sample.always true) (Some Sample.cfg)
    (mkArgs ["0"; "-1"] true false) (Sample.start {[ "/j" := Dir ]})
  = (Exit 0,
     mkWorld {[ "/j" := Dir ]}
       ("/j/2024/2024-01-01.txt does not exist!" +:+ nl
        +:+ "/j/2023/2023-12-31.txt does not exist!" +:+ nl) [] 2).
Proof.
  destruct (C7_read_mode_skips_missing Sample.int Sample.no_fuzzy
              (Sample.still Sample.at_0900) Sample.at_0900 Sample.idle_editor
              (Sample.always true) (Sample.always true) (Some Sample.cfg)
              (mkArgs ["0"; "-1"] true false) Sample.cfg
              [Sample.at_0900; mkDatetime 2023 12 31 9 0 0 0]
              [] [mkDatetime 2023 12 31 9 0 0 0] Sample.at_0900
              (Sample.start {[ "/j" := Dir ]})
              (Sample.start {[ "/j" := Dir ]})
              (mkWorld {[ "/j" := Dir ]} "" [] 2)
              (mkWorld {[ "/j" := Dir ]} "" [] 2))
    as [_ H].
  - reflexivity.
  - by left.
  - vm_compute. reflexivity.
  - vm_compute. reflexivity.
  - destruct H as [_ H]; [discriminate|].
    destruct H as (w4 & Hopen & _ & _ & _ & Hmain).
    + reflexivity.
    + reflexivity.
    + vm_compute. reflexivity.
    + rewrite Hmain. vm_compute in Hopen. injection Hopen as <-.
      vm_compute. reflexivity.
Defined.

Lemma C9_unparseable_aborts_witness :
  exists w2,
    main Sample.int Sample.no_fuzzy (Sample.still Sample.at_0900)
      Sample.at_0900 Sample.idle_editor (Sample.always true)
      (Sample.always true) (Some Sample.cfg)
      (mkArgs ["-1"; "garbage"; "0"] true false) (Sample.start ∅)
    = (Raise ParserError, w2)
    /\ files w2 = {[ "/j" := Dir ]}
    /\ stderr w2 = "" /\ launched w2 = [].
Proof.
  destruct (C9_unparseable_aborts Sample.int Sample.no_fuzzy
              (Sample.still Sample.at_0900) Sample.at_0900 Sample.idle_editor
              (Sample.always true) (Sample.always true) (Some Sample.cfg)
              (mkArgs ["-1"; "garbage"; "0"] true false) Sample.cfg "garbage"
              (Sample.start ∅)
              (set_files {[ "/j" := Dir ]} (Sample.start ∅)))
    as (e & pre & s0 & post & ds & w1' & w2 & Hrun & _ & _ & _ & _ & _
        & He & Hf & Hs & Hl).
  - reflexivity.
  - by left.
  - vm_compute. reflexivity.
  - cbn. tauto.
  - split; [intros o H; vm_compute in H; discriminate H | discriminate].
  - exists w2. split.
    { destruct He as [-> | ->]; [exact Hrun|].
      vm_compute in Hrun. discriminate Hrun. }
    rewrite Hf, Hs, Hl. repeat split; reflexivity.
Defined.

(** C9, as stated, fails: ["-2000000"] is neither an integer within
    1000000 of zero nor a date the fuzzy parser accepts, yet the run
    does not end with a parse error.  On 2024-01-01 it aborts with the
    overflow error of the date arithmetic; on 9999-12-31 it does not
    abort at all: the specifier resolves to 4524-03-08, whose entry is
    reported missing, and the run ends with [sys.exit(0)]. *)
Lemma C9_counterexample :
  Sample.int "-2000000" = Some (-2000000)
  /\ Sample.no_fuzzy "-2000000" = NotADate
  /\ (main Sample.int Sample.no_fuzzy (Sample.still Sample.at_0900)
        Sample.at_0900 Sample.idle_editor (Sample.always true)
        (Sample.always true) (Some Sample.cfg)
        (mkArgs ["-2000000"] true false)
        (Sample.start {[ "/j" := Dir ]})).1
     = Raise OverflowError
  /\ main Sample.int Sample.no_fuzzy (Sample.still Sample.last_day)
       Sample.at_0900 Sample.idle_editor (Sample.always true)
       (Sample.always true) (Some Sample.cfg)
       (mkArgs ["-2000000"] true false)
       (Sample.start {[ "/j" := Dir ]})
     = (Exit 0,
        mkWorld {[ "/j" := Dir ]}
          ("/j/4524/4524-03-08.txt does not exist!" +:+ nl) [] 1).
Proof. repeat split; vm_compute; reflexivity. Qed.

Lemma C10_exit_status_witness :
  main Sample.int Sample.no_fuzzy (Sample.still Sample.at_0900)
    Sample.at_0900 Sample.idle_editor (Sample.always true)
    (Sample.always false) (Some Sample.cfg)
    (mkArgs [] true false) (Sample.start ∅)
  = (Exit 0, Sample.start ∅)
  /\ exit_status
       (main Sample.int Sample.no_fuzzy (Sample.still Sample.at_0900)
          Sample.at_0900 Sample.idle_editor (Sample.always false)
          (Sample.always true) (Some Sample.cfg)
          (mkArgs [] true false) (Sample.start ∅)).1
     = 1.
Proof.
  split.
  - destruct (C10_exit_status Sample.int Sample.no_fuzzy
                (Sample.still Sample.at_0900) Sample.at_0900
                Sample.idle_editor (Sample.always true) (Sample.always false)
                (Some Sample.cfg) (mkArgs [] true false) (Sample.start ∅))
      as (_ & _ & _ & Hdecline & _).
    apply (Hdecline Sample.cfg); [reflexivity | by left | reflexivity..].
  - destruct (C10_exit_status Sample.int Sample.no_fuzzy
                (Sample.still Sample.at_0900) Sample.at_0900
                Sample.idle_editor (Sample.always false) (Sample.always true)
                (Some Sample.cfg) (mkArgs [] true false) (Sample.start ∅))
      as ([_ Hexit] & _).
    apply Hexit. right. left. exists Sample.cfg. repeat split; reflexivity.
Defined.

(** C10, as stated, fails: with a configuration and an available
    editor the process still ends with status 1 when an exception
    that nothing catches ends the run.  A specifier the fuzzy parser
    rejects does it, an offset that leaves the calendar does it, and
    so does a journal root that names a regular file. *)
Lemma C10_counterexample :
  Sample.always true (editor Sample.cfg) = true
  /\ main Sample.int Sample.no_fuzzy (Sample.still Sample.at_0900)
       Sample.at_0900 Sample.idle_editor (Sample.always true)
       (Sample.always true) (Some Sample.cfg)
       (mkArgs ["garbage"] true false) (Sample.start {[ "/j" := Dir ]})
     = (Raise ParserError, Sample.start {[ "/j" := Dir ]})
  /\ exit_status (Raise ParserError) = 1
  /\ exit_status
       (main Sample.int Sample.no_fuzzy (Sample.still Sample.at_0900)
          Sample.at_0900 Sample.idle_editor (Sample.always true)
          (Sample.always true) (Some Sample.cfg)
          (mkArgs ["-1000000"] true false)
          (Sample.start {[ "/j" := Dir ]})).1
     = 1
  /\ exit_status
       (main Sample.int Sample.no_fuzzy (Sample.still Sample.at_0900)
          Sample.at_0900 Sample.idle_editor (Sample.always true)
          (Sample.always true) (Some Sample.cfg)
          (mkArgs [] true false)
          (Sample.start {[ "/j" := File "" ]})).1
     = 1.
Proof. repeat split; vm_compute; reflexivity. Qed.

(** A run with no specifier on a fresh journal: the root and the year
    directory are made, the entry is stamped with the load time, the
    editor is launched on it, and the run ends with [sys.exit(0)]. *)
Example plain_run :
  main Sample.int Sample.no_fuzzy (Sample.still Sample.at_1030)
    Sample.at_0900 Sample.idle_editor (Sample.always true)
    (Sample.always true) (Some Sample.cfg)
    (mkArgs [] false false) (Sample.start ∅)
  = (Exit 0,
     mkWorld
       (<[ "/j/2024/2024-01-01.txt" :=
             File ("2024-01-01" +:+ nl +:+ "09:00" +:+ nl) ]>
          (<[ "/j/2024" := Dir ]> {[ "/j" := Dir ]}))
       "" [("vim", "/j/2024/2024-01-01.txt")] 1).
Proof. vm_compute. reflexivity. Qed.

(** A run on a number the fuzzy parser finds too large: the overflow
    error ends it before any entry is opened. *)
Example number_too_large :
  Sample.int "99999999999999999999" = Some 99999999999999999999
  /\ main Sample.int Sample.number_fuzzy (Sample.still Sample.at_1030)
       Sample.at_0900 Sample.idle_editor (Sample.always true)
       (Sample.always true) (Some Sample.cfg)
       (mkArgs ["0"; "99999999999999999999"] false false)
       (Sample.start {[ "/j" := Dir ]})
     = (Raise OverflowError, mkWorld {[ "/j" := Dir ]} "" [] 1).
Proof. split; vm_compute; reflexivity. Qed.

(* ===================================================================== *)
(** ** More on the timestamp writer *)
(* ===================================================================== *)

Section WriteMore.
Import PyStrFacts DatetimeFacts LineFacts.

Lemma writeTimestamp_stamped_dir (p : string) (t : datetime) (w : world) :
  files w !! p = Some Dir ->
  writeTimestamp p t w = (Raise FileExistsError, w).
Proof.
  intros Hp. unfold writeTimestamp, bind, os_path_isfile, isfile, open_x_write.
  repeat (rewrite Hp; cbn [negb]; cbv beta iota). reflexivity.
Qed.

(** X1. A path that names a directory is no regular file, so the writer
    tries to create it and fails: [FileExistsError] propagates and the
    world is left as it was. *)
Theorem X1_write_on_directory (p : string) (t : datetime) (w : world) :
  files w !! p = Some Dir ->
  writeTimestamp p t w = (Raise FileExistsError, w).
Proof. apply writeTimestamp_stamped_dir. Qed.

(** X2. Two timestamp writes in a row on an existing entry, on any two
    dates: the first leaves the text ending with a blank line, so the
    second adds no separating newline; its block starts directly with
    its date line (if that date is not yet in the text) or its time
    line. *)
Theorem X2_consecutive_blocks (p : string) (t1 t2 : datetime) (w : world)
        (c : string) :
  files w !! p = Some (File c) ->
  exists w1 w2,
    writeTimestamp p t1 w = (Ok tt, w1)
    /\ writeTimestamp p t2 w1 = (Ok tt, w2)
    /\ endswith (text_at (files w1) p) (nl +:+ nl) = true
    /\ text_at (files w2) p
       = text_at (files w1) p
         +:+ (if contains (strftime_date t2) (text_at (files w1) p) then ""
              else strftime_date t2 +:+ nl)
         +:+ strftime_time t2 +:+ nl +:+ nl.
Proof.
  intros Hp. eexists _, _.
  split; [by apply writeTimestamp_existing|].
  split; [apply writeTimestamp_existing; cbn [files set_files];
          by rewrite lookup_insert_eq|].
  unfold text_at, set_files. cbn [files]. rewrite !lookup_insert_eq.
  split; [apply endswith_block|].
  unfold stamp_block at 2. rewrite endswith_block.
  by rewrite app_nil_l, !app_assoc.
Qed.

(** X3. The date check is a substring check: when today's date string
    occurs anywhere in the text, even inside a longer line, no date
    line is written, and the number of lines equal to the date stays
    what it was (possibly zero). *)
Theorem X3_mention_suppresses_date_line (p : string) (t : datetime)
        (w : world) (c : string) :
  files w !! p = Some (File c) ->
  contains (strftime_date t) c = true ->
  exists w',
    writeTimestamp p t w = (Ok tt, w')
    /\ text_at (files w') p
       = c +:+ (if endswith c (nl +:+ nl) then "" else nl)
           +:+ strftime_time t +:+ nl +:+ nl
    /\ count_line (strftime_date t) (text_at (files w') p)
       = count_line (strftime_date t) c.
Proof.
  intros Hp Hc. eexists. split; [by apply writeTimestamp_existing|].
  unfold text_at, set_files. cbn [files]. rewrite lookup_insert_eq.
  split; [by rewrite stamp_block_dated|].
  rewrite count_line_block by (apply date_not_empty || apply date_not_time).
  rewrite Hc. lia.
Qed.

End WriteMore.

Lemma X1_write_on_directory_witness :
  writeTimestamp "/j/2024" Sample.at_0900 (Sample.start {[ "/j/2024" := Dir ]})
  = (Raise FileExistsError, Sample.start {[ "/j/2024" := Dir ]}).
Proof.
  apply (X1_write_on_directory "/j/2024" Sample.at_0900
           (Sample.start {[ "/j/2024" := Dir ]})).
  apply lookup_singleton_eq.
Defined.

Lemma X2_consecutive_blocks_witness :
  exists w1 w2,
    writeTimestamp Sample.entry Sample.at_1030
      (Sample.start {[ Sample.entry := File "notes" ]}) = (Ok tt, w1)
    /\ writeTimestamp Sample.entry Sample.next_day w1 = (Ok tt, w2)
    /\ text_at (files w2) Sample.entry
       = "notes" +:+ nl +:+ "2024-01-01" +:+ nl +:+ "10:30" +:+ nl +:+ nl
         +:+ "2024-01-02" +:+ nl +:+ "08:15" +:+ nl +:+ nl.
Proof.
  destruct (X2_consecutive_blocks Sample.entry Sample.at_1030 Sample.next_day
              (Sample.start {[ Sample.entry := File "notes" ]}) "notes")
    as (w1 & w2 & H1 & H2 & _ & Ht).
  - apply lookup_singleton_eq.
  - exists w1, w2. split; [exact H1|]. split; [exact H2|].
    rewrite Ht.
    rewrite (writeTimestamp_existing _ _ _ "notes") in H1
      by apply lookup_singleton_eq.
    injection H1 as <-. vm_compute. reflexivity.
Defined.

Lemma X3_mention_suppresses_date_line_witness :
  exists w',
    writeTimestamp Sample.entry Sample.at_1030
      (Sample.start {[ Sample.entry := File ("call on 2024-01-01 again" +:+ nl) ]})
    = (Ok tt, w')
    /\ text_at (files w') Sample.entry
       = "call on 2024-01-01 again" +:+ nl +:+ nl +:+ "10:30" +:+ nl +:+ nl
    /\ count_line "2024-01-01" (text_at (files w') Sample.entry) = 0%nat.
Proof.
  destruct (X3_mention_suppresses_date_line Sample.entry Sample.at_1030
              (Sample.start
                 {[ Sample.entry := File ("call on 2024-01-01 again" +:+ nl) ]})
              ("call on 2024-01-01 again" +:+ nl))
    as (w' & Hrun & Ht & Hn).
  - apply lookup_singleton_eq.
  - vm_compute. reflexivity.
  - exists w'. split; [exact Hrun|]. split.
    + rewrite Ht. vm_compute. reflexivity.
    + change (count_line (strftime_date Sample.at_1030)
                (text_at (files w') Sample.entry) = 0%nat).
      rewrite Hn. vm_compute. reflexivity.
Defined.

(* ===================================================================== *)
(** ** More on opening an entry *)
(* ===================================================================== *)

Section OpenMore.
Import PyStrFacts DatetimeFacts LineFacts DateStrings.

Variable load_today : datetime.
Variable editor_run : string -> string -> gmap string node -> gmap string node.

Local Abbreviation open_entry := (openEntry load_today editor_run).

(** The entry path ends with the date and [".txt"]. *)
Lemma entryPath_shape (jp : string) (d : datetime) :
  exists dir, entryPath jp d = dir +:+ strftime_date d +:+ ".txt".
Proof.
  unfold entryPath. generalize (yearDirPath jp d) as yd. intros yd.
  unfold join.
  assert (Hs : startswith (strftime_date d +:+ ".txt") "/" = false).
  { unfold strftime_date, pad4. rewrite !app_cons. cbn [startswith].
    by rewrite Ascii.eqb_sym, digit_not_slash. }
  rewrite Hs. destruct (_ || _).
  - by exists yd.
  - exists (yd +:+ "/"). by rewrite !app_assoc.
Qed.

Lemma entryPath_same_day_iff (jp : string) (d d' : datetime) :
  valid d -> valid d' ->
  (entryPath jp d = entryPath jp d' <-> same_day d d').
Proof.
  intros Hv Hv'. split.
  - intros H. destruct (entryPath_shape jp d) as [x Hx].
    destruct (entryPath_shape jp d') as [x' Hx'].
    rewrite Hx, Hx' in H.
    apply app_suffix_inj in H as [_ H];
      [|by rewrite !length_app, !length_date].
    apply app_inj_length in H as [H _]; [|by rewrite !length_date].
    by apply strftime_date_inj.
  - intros (Hy & Hm & Hd).
    unfold entryPath, yearDirPath, str_year, strftime_date.
    by rewrite Hy, Hm, Hd.
Qed.

(** X4. Under one journal root, two (valid) dates have the same entry
    file exactly when they are the same calendar day: the time of day
    plays no part in the path, and distinct days never share an
    entry. *)
Theorem X4_entry_path_per_day (jp : string) (d d' : datetime) :
  valid d -> valid d' ->
  (entryPath jp d = entryPath jp d' <-> same_day d d').
Proof. apply entryPath_same_day_iff. Qed.

Lemma openEntry_plain (d : datetime) (e jp : string) (rm : bool)
        (w : world) :
  (forall c, files w !! yearDirPath jp d <> Some (File c)) ->
  (rm = true -> is_Some (files w !! entryPath jp d)) ->
  open_entry d e jp false rm w
  = (Ok tt,
     mkWorld
       (editor_run e (entryPath jp d)
          (with_dir (files w) (yearDirPath jp d)))
       (stderr w) (launched w ++ [(e, entryPath jp d)]) (ticks w)).
Proof.
  intros Hyd Hrm. unfold openEntry.
  unfold bind at 1. unfold os_path_exists at 1. cbv beta iota.
  assert (Hskip : rm && negb (exists_ (files w) (entryPath jp d)) = false).
  { destruct rm; [|reflexivity]. destruct (Hrm eq_refl) as [n Hn].
    unfold exists_. by rewrite Hn. }
  rewrite Hskip.
  pose proof (ensure_year_dir (yearDirPath jp d) w Hyd) as Hdir.
  unfold bind in Hdir |- *.
  destruct (os_path_isdir (yearDirPath jp d) w) as [[is_dir| |] w0] eqn:E0;
    try discriminate Hdir.
  rewrite Hdir. reflexivity.
Qed.

(** X6. When the year directory's path names a regular file, opening
    an entry that is not skipped fails in [os.makedirs]:
    [FileExistsError] propagates, nothing is written and no editor is
    run. *)
Theorem X6_year_dir_is_a_file (d : datetime) (e jp : string) (ts rm : bool)
        (w : world) (c : string) :
  files w !! yearDirPath jp d = Some (File c) ->
  (rm = true -> is_Some (files w !! entryPath jp d)) ->
  open_entry d e jp ts rm w = (Raise FileExistsError, w).
Proof.
  intros Hyd Hrm. unfold openEntry.
  unfold bind at 1. unfold os_path_exists at 1. cbv beta iota.
  assert (Hskip : rm && negb (exists_ (files w) (entryPath jp d)) = false).
  { destruct rm; [|reflexivity]. destruct (Hrm eq_refl) as [n Hn].
    unfold exists_. by rewrite Hn. }
  rewrite Hskip.
  unfold bind, os_path_isdir, isdir, os_makedirs. rewrite Hyd. cbn [negb].
  by rewrite Hyd.
Qed.

(** X7. Read mode is not read-only: an entry that exists is opened in
    read mode exactly as otherwise, and with the timestamp flag on its
    text is extended by a stamp (of the load time) before the editor
    starts. *)
Theorem X7_read_mode_still_stamps (d : datetime) (e jp : string) (w : world)
        (c : string) :
  files w !! entryPath jp d = Some (File c) ->
  (forall c', files w !! yearDirPath jp d <> Some (File c')) ->
  open_entry d e jp true true w = open_entry d e jp true false w
  /\ open_entry d e jp true true w
     = (Ok tt,
        mkWorld
          (editor_run e (entryPath jp d)
             (<[entryPath jp d := File (c +:+ stamp_block c load_today)]>
                (with_dir (files w) (yearDirPath jp d))))
          (stderr w) (launched w ++ [(e, entryPath jp d)]) (ticks w))
  /\ c +:+ stamp_block c load_today <> c.
Proof.
  intros Hp Hyd.
  assert (Hrun : forall rm,
    open_entry d e jp true rm w
    = (Ok tt,
       mkWorld
         (editor_run e (entryPath jp d)
            (<[entryPath jp d := File (c +:+ stamp_block c load_today)]>
               (with_dir (files w) (yearDirPath jp d))))
         (stderr w) (launched w ++ [(e, entryPath jp d)]) (ticks w))).
  { intros rm. rewrite openEntry_stamps.
    - by rewrite Hp.
    - exact Hyd.
    - by rewrite Hp.
    - intros _. by rewrite Hp. }
  split; [by rewrite !Hrun|]. split; [apply Hrun|].
  intros H. apply (f_equal String.length) in H.
  unfold stamp_block in H. rewrite !length_app, length_time in H.
  cbn in H. lia.
Qed.

End OpenMore.

(* ===================================================================== *)
(** ** More on the calendar *)
(* ===================================================================== *)

Module CalendarMore.
Import Calendar.

Lemma days_before_next_year (y : Z) :
  days_before_year (y + 1)
  = days_before_year y + 365 + (if is_leap y then 1 else 0).
Proof.
  unfold days_before_year.
  destruct (is_leap y) eqn:El;
    [apply is_leap_spec in El
    | apply not_true_iff_false in El; rewrite is_leap_spec in El];
    Z.div_mod_to_equations; lia.
Qed.

Lemma days_before_year_mono (y y' : Z) :
  y <= y' -> days_before_year y <= days_before_year y'.
Proof. unfold days_before_year. intros H. Z.div_mod_to_equations. lia. Qed.

(** The day of the year of a date of the calendar. *)
Lemma day_of_year_bounds (y m d : Z) :
  1 <= m <= 12 -> 1 <= d <= days_in_month y m ->
  1 <= days_before_month y m + d <= 365 + (if is_leap y then 1 else 0).
Proof.
  intros Hm Hd. unfold days_before_month. unfold days_in_month in Hd.
  assert (Hmm : m = 1 \/ m = 2 \/ m = 3 \/ m = 4 \/ m = 5 \/ m = 6 \/ m = 7
              \/ m = 8 \/ m = 9 \/ m = 10 \/ m = 11 \/ m = 12) by lia.
  destruct (is_leap y);
    repeat (destruct Hmm as [-> | Hmm]); try subst m;
    revert Hd; eval_tables; intros Hd;
    repeat match type of Hd with
           | context [table ?t ?i] =>
               let v := eval vm_compute in (table t i) in
               change (table t i) with v in Hd
           end;
    cbn [andb Z.eqb Z.gtb Z.compare Pos.compare Pos.compare_cont Pos.eqb] in *;
    lia.
Qed.

Lemma same_year_inj (y m d m' d' : Z) :
  1 <= m <= 12 -> 1 <= d <= days_in_month y m ->
  1 <= m' <= 12 -> 1 <= d' <= days_in_month y m' ->
  days_before_month y m + d = days_before_month y m' + d' ->
  m = m' /\ d = d'.
Proof.
  intros Hm Hd Hm' Hd'. unfold days_before_month.
  unfold days_in_month in Hd, Hd'.
  assert (Hmm : m = 1 \/ m = 2 \/ m = 3 \/ m = 4 \/ m = 5 \/ m = 6 \/ m = 7
              \/ m = 8 \/ m = 9 \/ m = 10 \/ m = 11 \/ m = 12) by lia.
  assert (Hmm' : m' = 1 \/ m' = 2 \/ m' = 3 \/ m' = 4 \/ m' = 5 \/ m' = 6
               \/ m' = 7 \/ m' = 8 \/ m' = 9 \/ m' = 10 \/ m' = 11 \/ m' = 12)
    by lia.
  destruct (is_leap y);
    repeat (destruct Hmm as [-> | Hmm]); try subst m;
    repeat (destruct Hmm' as [-> | Hmm']); try subst m';
    revert Hd Hd'; eval_tables; intros Hd Hd';
    repeat match type of Hd with
           | context [table ?t ?i] =>
               let v := eval vm_compute in (table t i) in
               change (table t i) with v in Hd
           end;
    repeat match type of Hd' with
           | context [table ?t ?i] =>
               let v := eval vm_compute in (table t i) in
               change (table t i) with v in Hd'
           end;
    cbn [andb Z.eqb Z.gtb Z.compare Pos.compare Pos.compare_cont Pos.eqb] in *;
    lia.
Qed.

(** Distinct dates of the calendar have distinct day numbers. *)
Lemma ymd2ord_inj (y m d y' m' d' : Z) :
  1 <= m <= 12 -> 1 <= d <= days_in_month y m ->
  1 <= m' <= 12 -> 1 <= d' <= days_in_month y' m' ->
  ymd2ord y m d = ymd2ord y' m' d' ->
  y = y' /\ m = m' /\ d = d'.
Proof.
  intros Hm Hd Hm' Hd' H. unfold ymd2ord in H.
  pose proof (day_of_year_bounds y m d Hm Hd) as B.
  pose proof (day_of_year_bounds y' m' d' Hm' Hd') as B'.
  pose proof (days_before_next_year y) as N.
  pose proof (days_before_next_year y') as N'.
  assert (Hy : y = y').
  { destruct (Z.lt_trichotomy y y') as [Hlt | [Heq | Hgt]]; [|exact Heq|].
    - pose proof (days_before_year_mono (y + 1) y' ltac:(lia)). lia.
    - pose proof (days_before_year_mono (y' + 1) y ltac:(lia)). lia. }
  subst y'. split; [reflexivity|].
  apply (same_year_inj y); try assumption. lia.
Qed.

(** The date of the day number of a date is that date. *)
Lemma ord2ymd_ymd2ord (y m d : Z) :
  MINYEAR <= y <= MAXYEAR -> 1 <= m <= 12 -> 1 <= d <= days_in_month y m ->
  ord2ymd (ymd2ord y m d) = (y, m, d).
Proof.
  intros Hy Hm Hd.
  pose proof (ymd2ord_bounds y m d Hy Hm Hd) as Hb.
  pose proof (ord2ymd_valid _ Hb) as Hv.
  pose proof (ymd2ord_ord2ymd (ymd2ord y m d)) as Hr.
  destruct (ord2ymd (ymd2ord y m d)) as [[y' m'] d'].
  destruct Hv as (_ & Hm' & Hd').
  destruct (ymd2ord_inj y' m' d' y m d Hm' Hd' Hm Hd Hr) as (-> & -> & ->).
  reflexivity.
Qed.

(** Moving a date to its own day changes nothing. *)
Lemma on_day_same (t : datetime) : valid t -> on_day (toordinal t) t = t.
Proof.
  intros (Hy & Hm & Hd & _). unfold on_day, toordinal.
  rewrite (ord2ymd_ymd2ord _ _ _ Hy Hm Hd). by destruct t.
Qed.

End CalendarMore.

(* ===================================================================== *)
(** ** More on resolving specifiers *)
(* ===================================================================== *)

Section ResolveMore.
Import Calendar CalendarMore.

Variable py_int : string -> option Z.
Variable dateutil_parse : string -> parsed.
Variable clock : nat -> datetime.

Local Abbreviation resolve_ := (resolve py_int dateutil_parse clock).
Local Abbreviation resolve_all_ := (resolve_all py_int dateutil_parse clock).

Lemma same_day_toordinal (t t' : datetime) :
  same_day t t' -> toordinal t = toordinal t'.
Proof. intros (Hy & Hm & Hd). unfold toordinal. by rewrite Hy, Hm, Hd. Qed.

(** X8. A specifier that parses as 0 resolves to the current date-time
    itself, so it names today's entry. *)
Theorem X8_zero_offset_is_now (s : string) (w : world) :
  py_int s = Some 0 ->
  valid (clock (ticks w)) ->
  resolve_ s w = (Ok (clock (ticks w)), ticked w).
Proof.
  intros Hs Hv. rewrite (resolve_offset _ _ _ s 0 w Hs) by lia.
  pose proof (toordinal_bounds _ Hv) as Hb.
  rewrite (add_days_in_range _ _ Hv) by lia.
  by rewrite Z.add_0_r, (on_day_same _ Hv).
Qed.

(** X9. A non-zero offset within the calendar never names today's
    entry: the resolved date is another calendar day and its entry
    path differs from today's. *)
Theorem X9_nonzero_offset_other_entry (s : string) (o : Z) (jp : string)
        (w : world) :
  py_int s = Some o -> o <= 1000000 -> o <> 0 ->
  valid (clock (ticks w)) ->
  1 <= toordinal (clock (ticks w)) + o <= MAXORDINAL ->
  exists d,
    resolve_ s w = (Ok d, ticked w)
    /\ ~ same_day d (clock (ticks w))
    /\ entryPath jp d <> entryPath jp (clock (ticks w)).
Proof.
  intros Hs Ho Hnz Hv Hr. eexists.
  rewrite (resolve_offset _ _ _ s o w Hs Ho).
  rewrite (add_days_in_range _ _ Hv Hr). split; [reflexivity|].
  assert (Hne : ~ same_day (on_day (toordinal (clock (ticks w)) + o)
                                   (clock (ticks w))) (clock (ticks w))).
  { intros Hsd. apply same_day_toordinal in Hsd.
    rewrite toordinal_on_day in Hsd. lia. }
  split; [exact Hne|]. intros H. apply Hne.
  apply (entryPath_same_day_iff jp); [by apply valid_on_day | exact Hv | exact H].
Qed.

(** X10. The dates come out in the order of the specifiers, one for
    each: when all specifiers resolve, the list built is the given
    list followed by one date per specifier, each obtained from its own
    specifier, as an offset from a reading of the clock taken during
    this loop or by the fuzzy parser. *)
Theorem X10_dates_follow_specifiers (specs : list string) :
  forall (acc ds : list datetime) (w w' : world),
    resolve_all_ specs acc w = (Ok ds, w') ->
    exists ds',
      ds = acc ++ ds'
      /\ Forall2 (resolves_to py_int dateutil_parse clock (ticks w) (ticks w'))
                 specs ds'
      /\ (ticks w <= ticks w')%nat.
Proof.
  induction specs as [|s specs IH]; intros acc ds w w' H; cbn [resolve_all] in H.
  - injection H as <- <-. exists []. split; [by rewrite app_nil_r|].
    split; [constructor | lia].
  - unfold bind in H.
    destruct (resolve_ s w) as [[d|e|n] w1] eqn:Hr; try discriminate H.
    destruct (IH _ _ _ _ H) as (ds' & -> & Hall & Hle).
    assert (Hstep : resolves_to py_int dateutil_parse clock (ticks w)
                      (ticks w1) s d /\ (ticks w <= ticks w1)%nat).
    { destruct (py_int s) as [o|] eqn:Hs.
      - destruct (Z_le_gt_dec o 1000000) as [Ho|Ho].
        + rewrite (resolve_offset _ _ _ s o w Hs Ho) in Hr.
          destruct (add_days (clock (ticks w)) o) as [d0|] eqn:Ha;
            [|discriminate Hr].
          injection Hr as <- <-. split; [|cbn; lia].
          left. exists o, (ticks w). repeat split; (assumption || cbn; lia).
        + rewrite (resolve_above_limit _ _ _ s o w Hs Ho) in Hr.
          unfold parse_fuzzy in Hr.
          destruct (dateutil_parse s) as [d0| |] eqn:Hp; try discriminate Hr.
          injection Hr as <- <-. split; [|lia].
          right. split; [intros o' Ho'; congruence | congruence].
      - rewrite (resolve_not_int _ _ _ s w Hs) in Hr.
        unfold parse_fuzzy in Hr.
        destruct (dateutil_parse s) as [d0| |] eqn:Hp; try discriminate Hr.
        injection Hr as <- <-. split; [|lia].
        right. split; [intros o' Ho'; congruence | congruence]. }
    destruct Hstep as (Hres & Hle1).
    exists (d :: ds'). split; [by rewrite <- app_assoc|].
    split; [|lia]. constructor.
    + destruct Hres as [(o & k & ? & ? & ? & ?) | ?]; [left | by right].
      exists o, k. repeat split; (assumption || lia).
    + eapply Forall2_impl; [exact Hall|].
      intros s0 d0 [(o & k & ? & ? & ? & ?) | ?]; [left | by right].
      exists o, k. repeat split; (assumption || lia).
Qed.

End ResolveMore.

(* ===================================================================== *)
(** ** More on the whole run *)
(* ===================================================================== *)

Lemma runs_no_editor_bind {A B : Type} (c : M A) (k : A -> M B) :
  runs_no_editor c -> (forall a, runs_no_editor (k a)) ->
  runs_no_editor (bind c k).
Proof.
  intros Hc Hk w r w' H. unfold bind in H.
  destruct (c w) as [[a|e|n] w1] eqn:E.
  - rewrite (Hk a _ _ _ H). by apply (Hc _ _ _ E).
  - injection H as <- <-. by apply (Hc _ _ _ E).
  - injection H as <- <-. by apply (Hc _ _ _ E).
Qed.

Lemma runs_at_most_bind {A B : Type} (x : string * string) (c : M A)
      (k : A -> M B) :
  runs_no_editor c -> (forall a, runs_at_most x (k a)) ->
  runs_at_most x (bind c k).
Proof.
  intros Hc Hk w r w' H. unfold bind in H.
  destruct (c w) as [[a|e|n] w1] eqn:E.
  - rewrite <- (Hc _ _ _ E). by apply (Hk a _ _ _ H).
  - injection H as <- <-. left. by apply (Hc _ _ _ E).
  - injection H as <- <-. left. by apply (Hc _ _ _ E).
Qed.

Ltac no_editor_prim :=
  let w := fresh "w" in let r := fresh "r" in
  let w' := fresh "w'" in let H := fresh "H" in
  intros w r w' H;
  repeat match type of H with
         | context [match ?x with _ => _ end] => destruct x
         end;
  injection H as <- <-; reflexivity.

Lemma runs_no_editor_writeTimestamp (p : string) (t : datetime) :
  runs_no_editor (writeTimestamp p t).
Proof.
  unfold writeTimestamp. apply runs_no_editor_bind.
  - unfold os_path_isfile. no_editor_prim.
  - intros is_file. destruct (negb is_file).
    + unfold open_x_write, create_file. no_editor_prim.
    + apply runs_no_editor_bind; [unfold open_read; no_editor_prim|].
      intros txt. unfold open_a_write, create_file. no_editor_prim.
Qed.

Section RunMore.
Import Calendar.

Variable py_int : string -> option Z.
Variable dateutil_parse : string -> parsed.
Variable clock : nat -> datetime.
Variable load_today : datetime.
Variable editor_run : string -> string -> gmap string node -> gmap string node.
Variable isProgramAvailable : string -> bool.
Variable prompt : string -> bool.
Variable getConfig : option config.

Local Abbreviation resolve_all_ := (resolve_all py_int dateutil_parse clock).
Local Abbreviation build_dates_ := (build_dates py_int dateutil_parse clock).
Local Abbreviation open_entry := (openEntry load_today editor_run).
Local Abbreviation choose_editor_ := (choose_editor isProgramAvailable).
Local Abbreviation ensure_root_ := (ensure_root prompt).
Local Abbreviation main_ :=
  (main py_int dateutil_parse clock load_today editor_run
        isProgramAvailable prompt getConfig).

Lemma runs_at_most_openEntry (d : datetime) (e jp : string) (ts rm : bool) :
  runs_at_most (e, entryPath jp d) (open_entry d e jp ts rm).
Proof.
  unfold openEntry. apply runs_at_most_bind.
  - unfold os_path_exists. no_editor_prim.
  - intros there. destruct (rm && negb there).
    + intros w r w' H. left. revert H. unfold print_err.
      intros H. by injection H as <- <-.
    + apply runs_at_most_bind; [unfold os_path_isdir; no_editor_prim|].
      intros is_dir. apply runs_at_most_bind.
      { destruct (negb is_dir); [unfold os_makedirs | unfold ret];
          no_editor_prim. }
      intros _. apply runs_at_most_bind.
      { destruct ts; [apply runs_no_editor_writeTimestamp|].
        unfold ret. no_editor_prim. }
      intros _ w r w' H. right. unfold popen_wait in H.
      by injection H as <- <-.
Qed.

(** The loop over the dates runs the editor on entries of these dates
    only, in their order, at most once each. *)
Lemma for_each_launched (e jp : string) (ts rm : bool) (ds : list datetime) :
  forall (w w' : world) (r : outcome unit),
    for_each ds (fun d => open_entry d e jp ts rm) w = (r, w') ->
    exists ds',
      sublist ds' ds
      /\ launched w' = launched w ++ map (fun d => (e, entryPath jp d)) ds'.
Proof.
  induction ds as [|d ds IH]; intros w w' r H; cbn [for_each] in H.
  - injection H as <- <-. exists []. split; [constructor|].
    by rewrite app_nil_r.
  - unfold bind in H.
    destruct (open_entry d e jp ts rm w) as [[[]|ex|n] w1] eqn:E.
    + destruct (IH _ _ _ H) as (ds' & Hsub & Hl).
      destruct (runs_at_most_openEntry _ _ _ _ _ _ _ _ E) as [H1 | H1].
      * exists ds'. split; [by constructor|]. by rewrite Hl, H1.
      * exists (d :: ds'). split; [by constructor|].
        rewrite Hl, H1. cbn [map]. by rewrite <- app_assoc.
    + injection H as <- <-.
      destruct (runs_at_most_openEntry _ _ _ _ _ _ _ _ E) as [H1 | H1].
      * exists []. split; [apply sublist_nil_l|]. by rewrite app_nil_r.
      * exists [d]. split; [constructor; apply sublist_nil_l|]. exact H1.
    + injection H as <- <-.
      destruct (runs_at_most_openEntry _ _ _ _ _ _ _ _ E) as [H1 | H1].
      * exists []. split; [apply sublist_nil_l|]. by rewrite app_nil_r.
      * exists [d]. split; [constructor; apply sublist_nil_l|]. exact H1.
Qed.

Lemma resolve_all_length (specs : list string) :
  forall (acc ds : list datetime) (w w' : world),
    resolve_all_ specs acc w = (Ok ds, w') ->
    length ds = (length acc + length specs)%nat.
Proof.
  induction specs as [|s specs IH]; intros acc ds w w' H;
    cbn [resolve_all] in H.
  - injection H as <- <-. cbn. lia.
  - unfold bind in H.
    destruct (resolve py_int dateutil_parse clock s w) as [[d|e|n] w1];
      try discriminate H.
    rewrite (IH _ _ _ _ H), length_app. cbn. lia.
Qed.

Lemma build_dates_shape (args : runtimeArgs) (c : config) (w w' : world)
      (r : outcome (list datetime)) :
  build_dates_ args c w = (r, w') ->
  quiet w w'
  /\ forall ds, r = Ok ds ->
       (length ds <= Nat.max 1 (length (dates args)))%nat.
Proof.
  unfold build_dates. destruct (truthy (dates args)) eqn:Et.
  - intros H.
    destruct (resolve_all_cases py_int dateutil_parse clock (dates args) [] w)
      as (r0 & w0 & Hr & Hq & _).
    rewrite Hr in H. injection H as <- <-. split; [exact Hq|].
    intros ds ->. rewrite (resolve_all_length _ _ _ _ _ Hr). cbn. lia.
  - unfold bind, datetime_today, plus_days. intros H.
    destruct (_ <? _) in H.
    + destruct (add_days _ _) in H; injection H as <- <-;
        (split; [done|]); intros ds Hds; [|discriminate Hds].
      injection Hds as <-. cbn. lia.
    + injection H as <- <-. split; [done|]. intros ds [= <-]. cbn. lia.
Qed.

Lemma choose_editor_shape (c : config) (w w0 : world) (r : outcome string) :
  choose_editor_ c w = (r, w0) ->
  launched w0 = launched w
  /\ forall e, r = Ok e -> e = chosen_editor isProgramAvailable c /\ w0 = w.
Proof.
  unfold choose_editor, chosen_editor, bind, print_err, sys_exit, ret.
  destruct (isProgramAvailable (editor c));
    [|destruct (isProgramAvailable "sensible-editor")];
    intros H; injection H as Hr Hw; subst r w0;
    (split; [reflexivity|]); intros e He;
    (discriminate He || (injection He as <-; by split)).
Qed.

Lemma ensure_root_shape (c : config) (w w1 : world) (r : outcome unit) :
  ensure_root_ c w = (r, w1) -> launched w1 = launched w.
Proof.
  intros H.
  destruct (ensure_root_cases prompt c w)
    as [[Hr _] | [[Hr _] | [[Hr _] | Hr]]];
    rewrite Hr in H; injection H as _ Hw; by subst w1.
Qed.

(** X11. Whatever happens in a run with a configuration, every editor
    run it starts uses the one program settled at start-up (the
    configured editor when available, else ["sensible-editor"]), on an
    entry path under the configured journal root; there are at most as
    many editor runs as dates (one date when no specifier is given). *)
Theorem X11_editor_runs (args : runtimeArgs) (configDict : config)
        (w w' : world) (r : outcome unit) :
  getConfig = Some configDict ->
  main_ args w = (r, w') ->
  exists ds,
    launched w'
    = launched w
      ++ map (fun d => (chosen_editor isProgramAvailable configDict,
                        entryPath (journal_path configDict) d)) ds
    /\ (length ds <= Nat.max 1 (length (dates args)))%nat.
Proof.
  intros Hcfg H. unfold main in H. rewrite Hcfg in H.
  assert (Hnone : forall w0, launched w0 = launched w ->
            exists ds,
              launched w0
              = launched w
                ++ map (fun d => (chosen_editor isProgramAvailable configDict,
                                  entryPath (journal_path configDict) d)) ds
              /\ (length ds <= Nat.max 1 (length (dates args)))%nat).
  { intros w0 ->. exists []. split; [by rewrite app_nil_r | cbn; lia]. }
  unfold bind at 1 in H.
  destruct (choose_editor_ configDict w) as [[e|ex|n] w0] eqn:He;
    destruct (choose_editor_shape _ _ _ _ He) as [Hl0 Hch].
  2, 3: injection H as _ Hw; subst w'; by apply Hnone.
  destruct (Hch e eq_refl) as [-> ->]. clear Hch Hl0 He.
  unfold bind at 1 in H.
  destruct (ensure_root_ configDict w) as [[[]|ex|n] w1] eqn:Er;
    pose proof (ensure_root_shape _ _ _ _ Er) as Hl1.
  2, 3: injection H as _ Hw; subst w'; by apply Hnone.
  unfold bind at 1 in H.
  destruct (build_dates_ args configDict w1) as [[ds|ex|n] w2] eqn:Eb;
    destruct (build_dates_shape _ _ _ _ _ Eb) as ((_ & _ & Hl2) & Hlen).
  2, 3: injection H as _ Hw; subst w'; apply Hnone; congruence.
  specialize (Hlen ds eq_refl).
  unfold bind at 1 in H.
  match type of H with
  | context [for_each ds ?body w2] =>
      destruct (for_each ds body w2) as [[[]|ex|n] w3] eqn:Ef
  end;
    destruct (for_each_launched _ _ _ _ _ _ _ _ Ef) as (ds' & Hsub & Hl3);
    injection H as _ Hw; subst w';
    exists ds'; (split; [rewrite Hl3; congruence|]);
    apply sublist_length in Hsub; lia.
Qed.

(** X12. When the journal root's path names a regular file and the
    user agrees to create it, [os.makedirs] fails: the run aborts with
    [FileExistsError] and the world is as it was. *)
Theorem X12_root_is_a_file (args : runtimeArgs) (configDict : config)
        (w : world) (c : string) :
  getConfig = Some configDict ->
  (isProgramAvailable (editor configDict) = true
   \/ isProgramAvailable "sensible-editor" = true) ->
  files w !! journal_path configDict = Some (File c) ->
  prompt (("Create '" +:+ journal_path configDict) +:+ "'?") = true ->
  main_ args w = (Raise FileExistsError, w).
Proof.
  intros Hcfg Hed Hroot Hyes. unfold main. rewrite Hcfg.
  destruct (choose_editor_available isProgramAvailable configDict w Hed)
    as [e He].
  rewrite (bind_ok _ _ _ _ _ He). apply bind_raise.
  unfold ensure_root, bind, os_path_isdir, isdir, os_makedirs.
  rewrite Hroot. cbn [negb]. by rewrite Hyes, Hroot.
Qed.

End RunMore.

Section RunToday.
Import Calendar.

Variable py_int : string -> option Z.
Variable dateutil_parse : string -> parsed.
Variable clock : nat -> datetime.
Variable load_today : datetime.
Variable editor_run : string -> string -> gmap string node -> gmap string node.
Variable isProgramAvailable : string -> bool.
Variable prompt : string -> bool.
Variable getConfig : option config.

Local Abbreviation build_dates_ := (build_dates py_int dateutil_parse clock).
Local Abbreviation open_entry := (openEntry load_today editor_run).
Local Abbreviation main_ :=
  (main py_int dateutil_parse clock load_today editor_run
        isProgramAvailable prompt getConfig).

Lemma build_dates_today (args : runtimeArgs) (c : config) (w : world) :
  dates args = [] ->
  valid (clock (ticks w)) -> 1 < toordinal (clock (ticks w)) ->
  build_dates_ args c w
  = (Ok [if hour (clock (ticks w)) <? hours_past_midnight_included_in_day c
         then on_day (toordinal (clock (ticks w)) + -1) (clock (ticks w))
         else clock (ticks w)], ticked w).
Proof.
  intros Hd Hv Ho. unfold build_dates. rewrite Hd. cbn [truthy].
  unfold bind, datetime_today, plus_days.
  destruct (_ <? _); [|reflexivity].
  pose proof (toordinal_bounds _ Hv) as Hb.
  by rewrite (add_days_in_range _ _ Hv) by lia.
Qed.

(** X13. A run without specifiers, past start-up with the journal root
    in place: the clock is read once; the entry is that of today, or of
    yesterday before the configured hour; it is never skipped (this is
    not read mode), so a missing entry is fine; the year directory is
    made if needed; the entry is stamped exactly when [--timestamp] is
    given or the configured default is on and [--no-timestamp] is not
    given; the chosen editor runs once on the entry; and the run ends
    with [sys.exit(0)]. *)
Theorem X13_run_without_specifier (args : runtimeArgs) (configDict : config)
        (w : world) :
  let now := clock (ticks w) in
  let today :=
    if hour now <? hours_past_midnight_included_in_day configDict
    then on_day (toordinal now + -1) now else now in
  let p := entryPath (journal_path configDict) today in
  let yd := yearDirPath (journal_path configDict) today in
  let e := chosen_editor isProgramAvailable configDict in
  getConfig = Some configDict ->
  (isProgramAvailable (editor configDict) = true
   \/ isProgramAvailable "sensible-editor" = true) ->
  isdir (files w) (journal_path configDict) = true ->
  dates args = [] ->
  valid now -> 1 < toordinal now ->
  (forall c, files w !! yd <> Some (File c)) ->
  files w !! p <> Some Dir ->
  main_ args w
  = (Exit 0,
     mkWorld
       (editor_run e p
          (if timestamp args
              || (write_timestamp configDict && negb (no_timestamp args))
           then <[p := File (stamped (files w !! p) load_today)]>
                  (with_dir (files w) yd)
           else with_dir (files w) yd))
       (stderr w) (launched w ++ [(e, p)]) (S (ticks w))).
Proof.
  intros now today p yd e Hcfg Hed Hroot Hd Hv Ho Hyd Hp.
  unfold main. rewrite Hcfg.
  destruct (choose_editor_available isProgramAvailable configDict w Hed)
    as [e0 He].
  destruct (choose_editor_shape isProgramAvailable _ _ _ _ He) as [_ Hch].
  destruct (Hch e0 eq_refl) as [-> _]. fold e in He |- *.
  rewrite (bind_ok _ _ _ _ _ He).
  assert (Hr : ensure_root prompt configDict w = (Ok tt, w)).
  { unfold ensure_root, bind, os_path_isdir. by rewrite Hroot. }
  rewrite (bind_ok _ _ _ _ _ Hr).
  rewrite (bind_ok _ _ _ _ _ (build_dates_today args configDict w Hd Hv Ho)).
  fold now. fold today.
  unfold readmode, writetimestamp. rewrite Hd. cbn [truthy for_each].
  destruct (timestamp args
            || (write_timestamp configDict && negb (no_timestamp args))).
  - pose proof (openEntry_stamps load_today editor_run today e
                  (journal_path configDict) false (ticked w) Hyd Hp
                  ltac:(discriminate)) as Hopen.
    unfold bind. fold p in Hopen. fold yd in Hopen. rewrite Hopen.
    reflexivity.
  - pose proof (openEntry_plain load_today editor_run today e
                  (journal_path configDict) false (ticked w) Hyd
                  ltac:(discriminate)) as Hopen.
    unfold bind. fold p in Hopen. fold yd in Hopen. rewrite Hopen.
    reflexivity.
Qed.

End RunToday.

(* ===================================================================== *)
(** ** The additional properties at work *)
(* ===================================================================== *)

Ltac sample_valid := vm_compute; repeat split; discriminate.

Lemma X4_entry_path_per_day_witness :
  entryPath "/j" Sample.at_0900 = entryPath "/j" Sample.at_1030
  /\ entryPath "/j" Sample.at_0900 <> entryPath "/j" Sample.next_day.
Proof.
  split.
  - apply (X4_entry_path_per_day "/j" Sample.at_0900 Sample.at_1030);
      [sample_valid | sample_valid | repeat split; reflexivity].
  - intros H.
    apply (X4_entry_path_per_day "/j" Sample.at_0900 Sample.next_day) in H;
      [|sample_valid|sample_valid].
    destruct H as (_ & _ & H). discriminate H.
Defined.

Lemma X6_year_dir_is_a_file_witness :
  openEntry Sample.at_0900 Sample.idle_editor Sample.next_day "vim" "/j"
    true false (Sample.start {[ "/j/2024" := File "oops" ]})
  = (Raise FileExistsError, Sample.start {[ "/j/2024" := File "oops" ]}).
Proof.
  apply (X6_year_dir_is_a_file Sample.at_0900 Sample.idle_editor
           Sample.next_day "vim" "/j" true false
           (Sample.start {[ "/j/2024" := File "oops" ]}) "oops").
  - vm_compute. reflexivity.
  - discriminate.
Defined.

Lemma X7_read_mode_still_stamps_witness :
  exists w',
    openEntry Sample.at_1030 Sample.idle_editor Sample.at_0900 "vim" "/j"
      true true (Sample.start {[ Sample.entry := File Sample.morning ]})
    = (Ok tt, w')
    /\ files w' !! Sample.entry
       = Some (File (Sample.morning +:+ "10:30" +:+ nl +:+ nl)).
Proof.
  destruct (X7_read_mode_still_stamps Sample.at_1030 Sample.idle_editor
              Sample.at_0900 "vim" "/j"
              (Sample.start {[ Sample.entry := File Sample.morning ]})
              Sample.morning) as (_ & Hrun & _).
  - vm_compute. reflexivity.
  - intros c. vm_compute. discriminate.
  - eexists. split; [exact Hrun|]. vm_compute. reflexivity.
Defined.

Lemma X8_zero_offset_is_now_witness :
  resolve Sample.int Sample.no_fuzzy (Sample.still Sample.at_0900) "0"
    (Sample.start ∅)
  = (Ok Sample.at_0900, ticked (Sample.start ∅)).
Proof.
  apply (X8_zero_offset_is_now Sample.int Sample.no_fuzzy
           (Sample.still Sample.at_0900) "0" (Sample.start ∅)).
  - reflexivity.
  - sample_valid.
Defined.

Lemma X9_nonzero_offset_other_entry_witness :
  exists d,
    resolve Sample.int Sample.no_fuzzy (Sample.still Sample.at_0900) "-1"
      (Sample.start ∅) = (Ok d, ticked (Sample.start ∅))
    /\ entryPath "/j" d <> entryPath "/j" Sample.at_0900.
Proof.
  destruct (X9_nonzero_offset_other_entry Sample.int Sample.no_fuzzy
              (Sample.still Sample.at_0900) "-1" (-1) "/j" (Sample.start ∅))
    as (d & Hrun & _ & Hne).
  - reflexivity.
  - lia.
  - lia.
  - sample_valid.
  - vm_compute. split; discriminate.
  - exists d. split; [exact Hrun | exact Hne].
Defined.

Lemma X10_dates_follow_specifiers_witness :
  exists ds',
    [mkDatetime 2023 12 31 9 0 0 0; Sample.at_0900] = [] ++ ds'
    /\ Forall2 (resolves_to Sample.int Sample.no_fuzzy
                            (Sample.still Sample.at_0900) 0 2)
               ["-1"; "0"] ds'.
Proof.
  destruct (X10_dates_follow_specifiers Sample.int Sample.no_fuzzy
              (Sample.still Sample.at_0900) ["-1"; "0"] []
              [mkDatetime 2023 12 31 9 0 0 0; Sample.at_0900]
              (Sample.start ∅) (mkWorld ∅ "" [] 2))
    as (ds' & Heq & Hall & _).
  - vm_compute. reflexivity.
  - exists ds'. split; [exact Heq | exact Hall].
Defined.

Lemma X11_editor_runs_witness :
  exists ds,
    [("vim", "/j/2024/2024-01-01.txt")]
    = [] ++ map (fun d => (chosen_editor (Sample.always true) Sample.cfg,
                           entryPath (journal_path Sample.cfg) d)) ds
    /\ (length ds <= 1)%nat.
Proof.
  apply (X11_editor_runs Sample.int Sample.no_fuzzy
           (Sample.still Sample.at_1030) Sample.at_0900 Sample.idle_editor
           (Sample.always true) (Sample.always true) (Some Sample.cfg)
           (mkArgs [] false false) Sample.cfg (Sample.start ∅)
           (mkWorld
              (<[ "/j/2024/2024-01-01.txt" :=
                    File ("2024-01-01" +:+ nl +:+ "09:00" +:+ nl) ]>
                 (<[ "/j/2024" := Dir ]> {[ "/j" := Dir ]}))
              "" [("vim", "/j/2024/2024-01-01.txt")] 1)
           (Exit 0)).
  - reflexivity.
  - vm_compute. reflexivity.
Defined.

Lemma X12_root_is_a_file_witness :
  main Sample.int Sample.no_fuzzy (Sample.still Sample.at_1030)
    Sample.at_0900 Sample.idle_editor (Sample.always true)
    (Sample.always true) (Some Sample.cfg)
    (mkArgs [] false false) (Sample.start {[ "/j" := File "oops" ]})
  = (Raise FileExistsError, Sample.start {[ "/j" := File "oops" ]}).
Proof.
  apply (X12_root_is_a_file Sample.int Sample.no_fuzzy
           (Sample.still Sample.at_1030) Sample.at_0900 Sample.idle_editor
           (Sample.always true) (Sample.always true) (Some Sample.cfg)
           (mkArgs [] false false) Sample.cfg
           (Sample.start {[ "/j" := File "oops" ]}) "oops").
  - reflexivity.
  - by left.
  - vm_compute. reflexivity.
  - reflexivity.
Defined.

Lemma X13_run_without_specifier_witness :
  main Sample.int Sample.no_fuzzy (Sample.still Sample.late_night)
    Sample.at_0900 Sample.idle_editor (Sample.always true)
    (Sample.always true) (Some Sample.cfg)
    (mkArgs [] false true) (Sample.start {[ "/j" := Dir ]})
  = (Exit 0,
     mkWorld (<[ "/j/2024" := Dir ]> {[ "/j" := Dir ]}) ""
             [("vim", "/j/2024/2024-01-01.txt")] 1).
Proof.
  rewrite (X13_run_without_specifier Sample.int Sample.no_fuzzy
             (Sample.still Sample.late_night) Sample.at_0900
             Sample.idle_editor (Sample.always true) (Sample.always true)
             (Some Sample.cfg) (mkArgs [] false true) Sample.cfg
             (Sample.start {[ "/j" := Dir ]})).
  - vm_compute. reflexivity.
  - reflexivity.
  - by left.
  - vm_compute. reflexivity.
  - reflexivity.
  - sample_valid.
  - vm_compute. reflexivity.
  - intros c. vm_compute. discriminate.
  - vm_compute. discriminate.
Defined.

(* ===================================================================== *)
(** ** The loop, the messages, the layout *)
(* ===================================================================== *)

Section Messages.
Import PyStrFacts DatetimeFacts LineFacts DateStrings.

Variable py_int : string -> option Z.
Variable dateutil_parse : string -> parsed.
Variable clock : nat -> datetime.
Variable load_today : datetime.
Variable editor_run : string -> string -> gmap string node -> gmap string node.
Variable isProgramAvailable : string -> bool.
Variable prompt : string -> bool.
Variable getConfig : option config.

Local Abbreviation open_entry := (openEntry load_today editor_run).
Local Abbreviation main_ :=
  (main py_int dateutil_parse clock load_today editor_run
        isProgramAvailable prompt getConfig).

(** X15. The two fatal start-up errors say what is wrong on the error
    stream before exiting with status 1: ["No config file found!"]
    when there is no configuration, and ["<editor> not available!"],
    naming the configured editor (not the fallback), when neither
    editor can be run.  Nothing else changes. *)
Theorem X15_startup_messages (args : runtimeArgs) (w : world) :
  (getConfig = None ->
   main_ args w = (Exit 1, said "No config file found!" w))
  /\ (forall configDict,
        getConfig = Some configDict ->
        isProgramAvailable (editor configDict) = false ->
        isProgramAvailable "sensible-editor" = false ->
        main_ args w
        = (Exit 1, said (editor configDict +:+ " not available!") w)).
Proof.
  split.
  - intros H. unfold main. by rewrite H.
  - intros c H H1 H2. unfold main. rewrite H.
    by rewrite (bind_exit _ _ _ _ _
                  (choose_editor_unavailable isProgramAvailable c w H1 H2)).
Qed.

(** X16. Read mode over dates whose entries are all missing: each is
    reported on the error stream, in order, one line per date; the file
    store is untouched, no editor is run, and the loop completes. *)
Theorem X16_all_missing (e jp : string) (ts : bool) (ds : list datetime) :
  forall w : world,
    Forall (fun d => files w !! entryPath jp d = None) ds ->
    for_each ds (fun d => open_entry d e jp ts true) w
    = (Ok tt,
       mkWorld (files w) (stderr w +:+ missing_reports jp ds)
               (launched w) (ticks w)).
Proof.
  induction ds as [|d ds IH]; intros w Hall; cbn [for_each missing_reports].
  - rewrite app_nil_r. by destruct w.
  - inversion Hall as [|? ? Hd Hds]; subst.
    rewrite (bind_ok _ _ _ _ _
               (openEntry_missing_readmode load_today editor_run d e jp ts w Hd)).
    rewrite IH by exact Hds. unfold said. cbn [files stderr launched ticks].
    by rewrite !app_assoc.
Qed.

(** The year as [str] prints it has four digits from 1000 on. *)
Lemma str_year_pad4 (d : datetime) :
  1000 <= year d <= 9999 -> str_year d = pad4 (year d).
Proof.
  intros Hy. unfold str_year, pad4, pad2. cbn [decimal].
  destruct (Z.ltb_spec (year d) 10) as [?|_]; [lia|].
  destruct (Z.ltb_spec (year d / 10) 10) as [H|_];
    [revert H; Z.div_mod_to_equations; lia|].
  destruct (Z.ltb_spec (year d / 10 / 10) 10) as [H|_];
    [revert H; Z.div_mod_to_equations; lia|].
  destruct (Z.ltb_spec (year d / 10 / 10 / 10) 10) as [_|H];
    [|revert H; Z.div_mod_to_equations; lia].
  by rewrite !Z.div_div by lia.
Qed.

(** X17. The layout of the journal, for a date from the year 1000 on
    and a root that is not empty and does not end with a slash: the
    entry of the date is [<root>/<YYYY>/<YYYY>-<MM>-<DD>.txt], and the
    directory it lies in is the year directory [<root>/<YYYY>]. *)
Theorem X17_layout (jp : string) (d : datetime) :
  jp <> "" -> endswith jp "/" = false -> valid d -> 1000 <= year d ->
  yearDirPath jp d = jp +:+ "/" +:+ pad4 (year d)
  /\ entryPath jp d
     = jp +:+ "/" +:+ pad4 (year d) +:+ "/" +:+ pad4 (year d) +:+ "-"
       +:+ pad2 (month d) +:+ "-" +:+ pad2 (day d) +:+ ".txt"
  /\ dirname (entryPath jp d) = yearDirPath jp d.
Proof.
  intros Hne Hend Hv Hlo.
  assert (Hy : 1000 <= year d <= 9999).
  { destruct Hv as ((_ & Hmax) & _). unfold MAXYEAR in Hmax. lia. }
  assert (Hyd : yearDirPath jp d = jp +:+ "/" +:+ pad4 (year d)).
  { unfold yearDirPath, join. rewrite (str_year_pad4 d Hy).
    unfold pad4 at 1. cbn [startswith].
    rewrite Ascii.eqb_sym, digit_not_slash. cbn [andb].
    destruct (String.eqb_spec jp "") as [E|_]; [by destruct Hne|].
    by rewrite Hend. }
  destruct (yearDirPath_end jp d) as [Hne' He'].
  destruct (dirname_join (yearDirPath jp d) (strftime_date d +:+ ".txt")
              Hne' He' (entry_name_no_slash d)) as (Hj & Hd & _).
  split; [exact Hyd|]. split; [|exact Hd].
  unfold entryPath. rewrite Hj, Hyd. unfold strftime_date.
  by rewrite !app_assoc.
Qed.

End Messages.

(** X18. Whatever its outcome, a timestamp write touches nothing but
    its own path: every other path names what it named before, and the
    error stream, the editor runs and the clock are as they were. *)
Theorem X18_write_frame (p : string) (t : datetime) (w w' : world)
        (r : outcome unit) :
  writeTimestamp p t w = (r, w') ->
  (forall q, q <> p -> files w' !! q = files w !! q)
  /\ stderr w' = stderr w /\ launched w' = launched w /\ ticks w' = ticks w.
Proof.
  intros H. destruct (files w !! p) as [[c|]|] eqn:Hp.
  - rewrite (writeTimestamp_existing p t w c Hp) in H.
    injection H as _ Hw. subst w'. cbn.
    split; [|done]. intros q Hq. by rewrite lookup_insert_ne.
  - rewrite (writeTimestamp_stamped_dir p t w Hp) in H.
    injection H as _ Hw. by subst w'.
  - rewrite (writeTimestamp_no_parent p t w Hp) in H.
    destruct (parent_of (files w) p); injection H as _ Hw; subst w';
      [|done..].
    cbn. split; [|done]. intros q Hq. by rewrite lookup_insert_ne.
Qed.

Lemma X15_startup_messages_witness :
  main Sample.int Sample.no_fuzzy (Sample.still Sample.at_1030)
    Sample.at_0900 Sample.idle_editor (Sample.always false)
    (Sample.always true) (Some Sample.cfg)
    (mkArgs [] false false) (Sample.start ∅)
  = (Exit 1, mkWorld ∅ ("vim not available!" +:+ nl) [] 0)
  /\ main Sample.int Sample.no_fuzzy (Sample.still Sample.at_1030)
       Sample.at_0900 Sample.idle_editor (Sample.always true)
       (Sample.always true) None
       (mkArgs [] false false) (Sample.start ∅)
     = (Exit 1, mkWorld ∅ ("No config file found!" +:+ nl) [] 0).
Proof.
  split.
  - destruct (X15_startup_messages Sample.int Sample.no_fuzzy
                (Sample.still Sample.at_1030) Sample.at_0900
                Sample.idle_editor (Sample.always false) (Sample.always true)
                (Some Sample.cfg) (mkArgs [] false false) (Sample.start ∅))
      as [_ H].
    rewrite (H Sample.cfg); reflexivity.
  - destruct (X15_startup_messages Sample.int Sample.no_fuzzy
                (Sample.still Sample.at_1030) Sample.at_0900
                Sample.idle_editor (Sample.always true) (Sample.always true)
                None (mkArgs [] false false) (Sample.start ∅))
      as [H _].
    rewrite H; reflexivity.
Defined.

Lemma X16_all_missing_witness :
  for_each [Sample.at_0900; Sample.next_day]
    (fun d => openEntry Sample.at_1030 Sample.idle_editor d "vim" "/j"
                        true true)
    (Sample.start {[ "/j" := Dir ]})
  = (Ok tt,
     mkWorld {[ "/j" := Dir ]}
       ("/j/2024/2024-01-01.txt does not exist!" +:+ nl
        +:+ "/j/2024/2024-01-02.txt does not exist!" +:+ nl) [] 0).
Proof.
  rewrite (X16_all_missing Sample.at_1030 Sample.idle_editor "vim" "/j" true
             [Sample.at_0900; Sample.next_day]
             (Sample.start {[ "/j" := Dir ]})).
  - vm_compute. reflexivity.
  - repeat constructor.
Defined.

Lemma X17_layout_witness :
  yearDirPath "/home/me/journal" Sample.next_day = "/home/me/journal/2024"
  /\ entryPath "/home/me/journal" Sample.next_day
     = "/home/me/journal/2024/2024-01-02.txt"
  /\ dirname "/home/me/journal/2024/2024-01-02.txt" = "/home/me/journal/2024".
Proof.
  destruct (X17_layout "/home/me/journal" Sample.next_day) as (H1 & H2 & H3).
  - discriminate.
  - reflexivity.
  - vm_compute. repeat split; discriminate.
  - vm_compute. discriminate.
  - rewrite H2 in H3. rewrite H1, H2. split; [reflexivity|].
    split; [reflexivity|]. rewrite H1 in H3. exact H3.
Defined.

Lemma X18_write_frame_witness :
  exists w',
    writeTimestamp Sample.entry Sample.at_0900
      (Sample.start {[ "/j/2024" := Dir ]}) = (Ok tt, w')
    /\ files w' !! "/j/2024" = Some Dir
    /\ stderr w' = "" /\ launched w' = [] /\ ticks w' = 0%nat.
Proof.
  exists (set_files
            (<[Sample.entry := File ("2024-01-01" +:+ nl +:+ "09:00" +:+ nl)]>
               {[ "/j/2024" := Dir ]})
            (Sample.start {[ "/j/2024" := Dir ]})).
  split; [vm_compute; reflexivity|].
  destruct (X18_write_frame Sample.entry Sample.at_0900
              (Sample.start {[ "/j/2024" := Dir ]})
              (set_files
                 (<[Sample.entry :=
                      File ("2024-01-01" +:+ nl +:+ "09:00" +:+ nl)]>
                    {[ "/j/2024" := Dir ]})
                 (Sample.start {[ "/j/2024" := Dir ]}))
              (Ok tt))
    as (Hq & Hs & Hl & Ht).
  - vm_compute. reflexivity.
  - split; [|by rewrite Hs, Hl, Ht].
    rewrite (Hq "/j/2024"); [reflexivity | discriminate].
Defined.
